(** * Remote test execution harness of the RFDK integration tests

    A shallow embedding of
    - [integ/components/deadline/deadline_04_workerFleetHttps/test/deadline_04_workerFleetHttps.test.ts]
      (output discovery, the per-suite hooks and the assertions), and
    - [integ/lib/testing-tier.ts] (the [TestingTier] stack that prepares the
      bastion host),
    followed by the properties the specification states about them. *)

From Stdlib Require Import Ascii.
From stdpp Require Import list strings pretty.

(** ** JavaScript values used by the sources *)

Module Js.

(** The double quote and the line feed, which the sources write inside
    template literals and regular expressions. *)
Definition dquote : string := String (ascii_of_nat 34) EmptyString.
Definition newline : string := String (ascii_of_nat 10) EmptyString.

(** String conversion of a value that may be [undefined], as performed by
    [+] on strings and by template literals. *)
Definition to_string (v : option string) : string :=
  match v with
  | Some s => s
  | None => "undefined"
  end.

(** Truthiness of a value of type [string | undefined]. *)
Definition truthy (v : option string) : bool :=
  match v with
  | Some EmptyString => false
  | Some (String _ _) => true
  | None => false
  end.

(** An [Array<string>]: a list of slots, a hole reading as [undefined]. *)
Abbreviation array := (list (option string)).

(** [arr[i]] *)
Definition get (arr : array) (i : nat) : option string :=
  match arr !! i with
  | Some slot => slot
  | None => None
  end.

(** [arr[i] = v]: an index past the end extends the array with holes. *)
Definition set (arr : array) (i : nat) (v : string) : array :=
  if decide (i < length arr) then <[i := Some v]> arr
  else arr ++ replicate (i - length arr) None ++ [Some v].

(** [\d] *)
Definition is_digit (c : ascii) : bool :=
  let n := nat_of_ascii c in
  (48 <=? n) && (n <=? 57).

(** The characters [\d] matches. *)
Definition digits : list ascii :=
  ["0"; "1"; "2"; "3"; "4"; "5"; "6"; "7"; "8"; "9"]%char.

(** Unary [+] applied to a string made of one decimal digit. *)
Definition digit_value (c : ascii) : nat := nat_of_ascii c - 48.

(** The literal [lit] matches at the very start of [s]. *)
Fixpoint starts_with (lit s : string) : bool :=
  match lit, s with
  | EmptyString, _ => true
  | String a lit', String b s' => if Ascii.eqb a b then starts_with lit' s' else false
  | String _ _, EmptyString => false
  end.

(** [/lit/.test(s)]: the literal occurs somewhere in [s]. *)
Fixpoint test_literal (lit s : string) : bool :=
  if starts_with lit s then true
  else match s with
       | EmptyString => false
       | String _ s' => test_literal lit s'
       end.

(** [lit(\d)] matches at the very start of [s]; the digit is group 1. *)
Fixpoint starts_with_digit (lit s : string) : option ascii :=
  match lit, s with
  | EmptyString, String c _ => if is_digit c then Some c else None
  | EmptyString, EmptyString => None
  | String a lit', String b s' => if Ascii.eqb a b then starts_with_digit lit' s' else None
  | String _ _, EmptyString => None
  end.

(** [/lit(\d)/.exec(s)![1]]: group 1 of the leftmost match, [None] when
    [exec] returns [null]. *)
Fixpoint exec_literal_digit (lit s : string) : option ascii :=
  match starts_with_digit lit s with
  | Some d => Some d
  | None => match s with
            | EmptyString => None
            | String _ s' => exec_literal_digit lit s'
            end
  end.

End Js.

(** ** Output discovery (the file-level [beforeAll]) *)

Module Discovery.

(** One element of [data.Stacks[0].Outputs]. *)
Record Output := { OutputKey : string; OutputValue : string }.

(** The module-level variables [bastionId], [renderQueueEndpoints] and
    [secretARNs]. *)
Record Vars := {
  bastionId : option string;
  renderQueueEndpoints : Js.array;
  secretARNs : Js.array;
}.

(** Their values when the module is loaded. *)
Definition initial : Vars :=
  {| bastionId := None; renderQueueEndpoints := []; secretARNs := [] |}.

(** [const bastionRegex = /bastionId/] *)
Definition bastionRegex_test (outputKey : string) : bool :=
  Js.test_literal "bastionId" outputKey.

(** [const rqRegex = /renderQueueEndpointWFS(\d)/] *)
Definition rqRegex_exec (outputKey : string) : option ascii :=
  Js.exec_literal_digit "renderQueueEndpointWFS" outputKey.
Definition rqRegex_test (outputKey : string) : bool :=
  bool_decide (is_Some (rqRegex_exec outputKey)).

(** [const certRegex = /CertSecretARNWFS(\d)/] *)
Definition certRegex_exec (outputKey : string) : option ascii :=
  Js.exec_literal_digit "CertSecretARNWFS" outputKey.
Definition certRegex_test (outputKey : string) : bool :=
  bool_decide (is_Some (certRegex_exec outputKey)).

(** The body of [stackOutput.forEach]: the [switch(true)] takes the first
    case whose regular expression matches the key. *)
Definition classify (vars : Vars) (output : Output) : Vars :=
  let outputKey := OutputKey output in
  let outputValue := OutputValue output in
  if bastionRegex_test outputKey then
    {| bastionId := Some outputValue;
       renderQueueEndpoints := renderQueueEndpoints vars;
       secretARNs := secretARNs vars |}
  else if rqRegex_test outputKey then
    match rqRegex_exec outputKey with
    | Some testId =>
        {| bastionId := bastionId vars;
           renderQueueEndpoints :=
             Js.set (renderQueueEndpoints vars) (Js.digit_value testId) outputValue;
           secretARNs := secretARNs vars |}
    | None => vars
    end
  else if certRegex_test outputKey then
    match certRegex_exec outputKey with
    | Some testId =>
        {| bastionId := bastionId vars;
           renderQueueEndpoints := renderQueueEndpoints vars;
           secretARNs := Js.set (secretARNs vars) (Js.digit_value testId) outputValue |}
    | None => vars
    end
  else vars.

(** The slot of [renderQueueEndpoints] an output key makes [classify] write:
    the key reaches the second case and [+testId] is the slot. *)
Definition selects_endpoint (outputKey : string) : option nat :=
  if bastionRegex_test outputKey then None
  else Js.digit_value <$> rqRegex_exec outputKey.

(** The slot of [secretARNs] an output key makes [classify] write: the key
    reaches the third case and [+testId] is the slot. *)
Definition selects_secret (outputKey : string) : option nat :=
  if bastionRegex_test outputKey then None
  else if rqRegex_test outputKey then None
  else Js.digit_value <$> certRegex_exec outputKey.

(** [stackOutput.forEach(...)] *)
Definition forEach (stackOutput : list Output) (vars : Vars) : Vars :=
  foldl classify vars stackOutput.

(** The answer of [cloudformation.describeStacks]. *)
Inductive DescribeStacks :=
| DescribeErr (err : string)
| DescribeData (stackOutput : list Output).

(** The file-level [beforeAll]: rejects with [err], or resolves after the
    outputs were classified. *)
Definition beforeAll (answer : DescribeStacks) (vars : Vars) : string + Vars :=
  match answer with
  | DescribeErr err => inl err
  | DescribeData stackOutput => inr (forEach stackOutput vars)
  end.

End Discovery.

(** ** The suites of [describe.each(testCases)] *)

Module Suite.
Import Discovery.

(** The [params] object handed to [awaitSsmCommand]. *)
Record SsmParams := {
  DocumentName : string;
  Comment : string;
  InstanceIds : list (option string);
  commands : list string;
}.

(** What a hook does once it is called: it throws, or it returns the promise
    of [awaitSsmCommand(instanceId, params)]. *)
Inductive HookAction :=
| Throw (message : string)
| Await (instanceId : option string) (params : SsmParams).

(** A [test]: its name, the command it sends, and the [expect] applied to
    [response.output]. *)
Record TestCase := {
  testName : string;
  testParams : Vars -> SsmParams;
  testExpect : string -> bool;
}.

(** [const testCases = [['Linux Worker HTTPS (TLS) mode', 1],
    ['Windows Worker HTTPS (TLS) mode', 2]]] *)
Definition testCases : list (string * nat) :=
  [("Linux Worker HTTPS (TLS) mode", 1); ("Windows Worker HTTPS (TLS) mode", 2)].

(** [const setConfigs = [[3,'group','-group testgroup'],
    [4,'pool','-pool testpool']]] *)
Definition setConfigs : list (nat * string * string) :=
  [(3, "group", "-group testgroup"); (4, "pool", "-pool testpool")].

Section WithEnvironment.

(** [process.env.INTEG_STACK_TAG] and [AWS.config.region]. *)
Variable INTEG_STACK_TAG : string.
Variable region : option string.

(** [expect(+responseOutput).toBe(1)]: the numeric conversion of the
    output by unary [+] is the number 1. *)
Variable unary_plus_is_1 : string -> bool.

Definition testingStackName : string :=
  "RFDKInteg-WFS-TestingTier" +:+ INTEG_STACK_TAG.

(** The three commands every batch starts with. *)
Definition as_ec2_user : list string :=
  ["sudo -i"; "su - ec2-user >/dev/null"; "cd ~ec2-user"].

(** The suite's [beforeAll]: fetches the certificate when a secret ARN
    was discovered for [id], throws otherwise. *)
Definition beforeAll_fetch_cert (id : nat) (vars : Vars) : HookAction :=
  if Js.truthy (Js.get (secretARNs vars) id) then
    Await (bastionId vars)
      {| DocumentName := "AWS-RunShellScript";
         Comment := "Execute Test Script fetch-cert.sh";
         InstanceIds := [bastionId vars];
         commands := as_ec2_user ++
           ["./utilScripts/fetch-cert.sh '" +:+ Js.to_string region +:+ "' '"
              +:+ Js.to_string (Js.get (secretARNs vars) id) +:+ "'"] |}
  else
    Throw ("Did not find a secrect ARN for " +:+ testingStackName).

(** The suite's [afterAll]: removes the certificate file. *)
Definition afterAll_cleanup_cert (vars : Vars) : HookAction :=
  Await (bastionId vars)
    {| DocumentName := "AWS-RunShellScript";
       Comment := "Execute Test Script cleanup-cert.sh";
       InstanceIds := [bastionId vars];
       commands := as_ec2_user ++ ["./utilScripts/cleanup-cert.sh"] |}.

(** The [beforeAll] of ['Worker node tests']: points the Deadline client
    at the suite's render queue. *)
Definition beforeAll_configure_deadline (id : nat) (vars : Vars) : HookAction :=
  Await (bastionId vars)
    {| DocumentName := "AWS-RunShellScript";
       Comment := "Execute Test Script configure-deadline.sh";
       InstanceIds := [bastionId vars];
       commands := as_ec2_user ++
         ["./utilScripts/configure-deadline.sh '"
            +:+ Js.to_string (Js.get (renderQueueEndpoints vars) id) +:+ "'"] |}.

(** [WFS-${id}-1]: [expect(responseOutput).toMatch(/ip-.*/)] *)
Definition test_report_workers (id : nat) : TestCase :=
  {| testName := "WFS-" +:+ pretty id +:+ "-1: Workers can be attached to the Render Queue";
     testParams := fun vars =>
       {| DocumentName := "AWS-RunShellScript";
          Comment := "Execute Test Script WFS-report-workers.sh";
          InstanceIds := [bastionId vars];
          commands := as_ec2_user ++ ["./testScripts/WFS-report-workers.sh"] |};
     testExpect := Js.test_literal "ip-" |}.

(** [WFS-${id}-2]:
    [expect(responseOutput).toMatch(/testpool\ntestgroup\ntestregion/)] *)
Definition test_report_worker_sets (id : nat) : TestCase :=
  {| testName := "WFS-" +:+ pretty id
       +:+ "-2: Workers can be added to groups, pools and regions";
     testParams := fun vars =>
       {| DocumentName := "AWS-RunShellScript";
          Comment := "Execute Test Script WFS-report-worker-sets.sh";
          InstanceIds := [bastionId vars];
          commands := as_ec2_user ++ ["./testScripts/WFS-report-worker-sets.sh"] |};
     testExpect :=
       Js.test_literal ("testpool" +:+ Js.newline +:+ "testgroup" +:+ Js.newline
                          +:+ "testregion") |}.

(** One row of [test.each(setConfigs)]: [expect(+responseOutput).toBe(1)] *)
Definition test_submit_jobs_to_sets (id : nat) (row : nat * string * string) : TestCase :=
  let '(n, name, arg) := row in
  {| testName := "WFS-" +:+ pretty id +:+ "-" +:+ pretty n
       +:+ ": Workers can be assigned jobs submitted to a " +:+ name;
     testParams := fun vars =>
       {| DocumentName := "AWS-RunShellScript";
          Comment := "Execute Test Script WFS-submit-jobs-to-sets.sh for " +:+ name;
          InstanceIds := [bastionId vars];
          commands := as_ec2_user ++
            ["./testScripts/WFS-submit-jobs-to-sets.sh " +:+ Js.dquote +:+ name
               +:+ Js.dquote +:+ " " +:+ Js.dquote +:+ arg +:+ Js.dquote] |};
     testExpect := unary_plus_is_1 |}.

(** What one row of [describe.each(testCases)] registers:
    - [setup]: the [beforeAll] of the row's block, then the [beforeAll] of the
      nested block ['Worker node tests'];
    - [tests]: the tests of the nested block, in the order of the file;
    - [teardown]: the [afterAll] of the row's block. *)
Record SuiteDef := {
  suiteId : nat;
  setup : list (Vars -> HookAction);
  tests : list TestCase;
  teardown : list (Vars -> HookAction);
}.

Definition suite (id : nat) : SuiteDef :=
  {| suiteId := id;
     setup := [beforeAll_fetch_cert id; beforeAll_configure_deadline id];
     tests := [test_report_workers id; test_report_worker_sets id]
                ++ (test_submit_jobs_to_sets id <$> setConfigs);
     teardown := [afterAll_cleanup_cert] |}.

(** [describe.each(testCases)(..., (_, id) => ...)] *)
Definition suites : list SuiteDef := (fun row => suite row.2) <$> testCases.

End WithEnvironment.

End Suite.

(** ** The Suite Driver *)

Module Driver.
Import Discovery Suite.

(** Modelled from the spec: the terminal states of a [CommandRun], as the
    Command Completion Poller returns them ([awaitSsmCommand], imported from
    [common/functions/awaitSsmCommand], is not among the sources). *)
Inductive Terminal :=
| Success (stdout : string)
| CommandFailed (stderr : string)
| TimedOut (partial : string).

Definition succeeded (t : Terminal) : bool :=
  match t with
  | Success _ => true
  | _ => false
  end.

Definition raw_output (t : Terminal) : string :=
  match t with
  | Success out => out
  | CommandFailed err => err
  | TimedOut partial => partial
  end.

(** Modelled from the spec: the phase during which a command was
    dispatched (setup, assertion or teardown of the Suite Driver). *)
Inductive Kind := Setup | Assertion | Teardown.

(** Modelled from the spec: one [CommandRun], with the host and the
    commands it was dispatched with and the terminal state it reached. *)
Record Event := {
  kind : Kind;
  target : option string;
  sent : SsmParams;
  outcome : Terminal;
}.

(** Modelled from the spec: the remote command substrate behind
    [awaitSsmCommand]; its answer may depend on everything dispatched
    before. *)
Definition Substrate : Type := list Event -> option string -> SsmParams -> Terminal.

(** The test runner that schedules what the file registers with
    [beforeAll], [afterAll], [describe] and [test] is Jest, which is not among
    the sources. Both of its runners call every [beforeAll] hook on the way
    down to a test, the hooks of a nested block included, and every
    [afterAll] hook, also after an earlier hook has failed. They differ in
    the tests of a block one of whose [beforeAll] hooks has failed:
    [jest-circus] reports these tests as failed without calling them,
    [jest-jasmine2] still calls them. *)
Inductive Runner := JestCircus | JestJasmine2.

Definition callsTestsAfterFailedHook (runner : Runner) : bool :=
  match runner with
  | JestCircus => false
  | JestJasmine2 => true
  end.

(** Modelled from the spec: the states of the Suite Driver. *)
Inductive Phase :=
| NotStarted
| SettingUp (hookIndex : nat)
| Running (testIndex : nat)
| TearingDown (hookIndex : nat)
| Done
| Failed.

(** Modelled from the spec: the [AssertionResult] of one check. *)
Record AssertionResult := {
  suiteIndex : nat;
  testId : string;
  matched : bool;
  rawOutput : string;
}.

(** The state of a run of one suite: its phase, whether a [beforeAll] hook
    has failed, whether any hook or command has failed, the command runs so
    far, oldest first, and the assertion results so far. *)
Record State := {
  phase : Phase;
  hookFailed : bool;
  failure : bool;
  trace : list Event;
  results : list AssertionResult;
}.

Definition start : State :=
  {| phase := NotStarted; hookFailed := false; failure := false;
     trace := []; results := [] |}.

Definition terminal (p : Phase) : bool :=
  match p with
  | Done | Failed => true
  | _ => false
  end.

(** A command to send: the phase it belongs to, the host and the batch. *)
Abbreviation Call := (Kind * option string * SsmParams)%type.

Section WithSuite.

Variable runner : Runner.
Variable def : SuiteDef.
Variable vars : Vars.
Variable substrate : Substrate.

(** Modelled from the spec: an assertion matches when its command succeeded
    and the expected pattern matches [stdout]. *)
Definition evaluate (t : TestCase) (o : Terminal) : AssertionResult :=
  {| suiteIndex := suiteId def;
     testId := testName t;
     matched := succeeded o && testExpect t (raw_output o);
     rawOutput := raw_output o |}.

(** The command run of [awaitSsmCommand(instanceId, params)], answered by
    the substrate according to the runs [tr] that came before. *)
Definition dispatch (k : Kind) (tr : list Event) (instanceId : option string)
    (params : SsmParams) : Event :=
  {| kind := k; target := instanceId; sent := params;
     outcome := substrate tr instanceId params |}.

(** One transition of the run of a suite.
    - [SettingUp]: the [beforeAll] hooks are called one after the other; a
      hook that throws, or whose command does not end in [Success], has
      failed, and the next hook is called all the same.
    - [Running]: one command per test, unless a [beforeAll] hook has failed
      and the runner does not call the tests then; a failed match is
      recorded and the next test runs.
    - [TearingDown]: the [afterAll] hooks are always called; the suite ends
      in [Failed] when a failure of a hook or of a command was recorded, in
      [Done] otherwise. *)
Definition step (s : State) : State :=
  match phase s with
  | NotStarted =>
      {| phase := SettingUp 0; hookFailed := hookFailed s; failure := failure s;
         trace := trace s; results := results s |}
  | SettingUp k =>
      match setup def !! k with
      | None =>
          {| phase := Running 0; hookFailed := hookFailed s; failure := failure s;
             trace := trace s; results := results s |}
      | Some hook =>
          match hook vars with
          | Throw _ =>
              {| phase := SettingUp (S k); hookFailed := true; failure := true;
                 trace := trace s; results := results s |}
          | Await instanceId params =>
              let ev := dispatch Setup (trace s) instanceId params in
              {| phase := SettingUp (S k);
                 hookFailed := hookFailed s || negb (succeeded (outcome ev));
                 failure := failure s || negb (succeeded (outcome ev));
                 trace := trace s ++ [ev]; results := results s |}
          end
      end
  | Running i =>
      match tests def !! i with
      | None =>
          {| phase := TearingDown 0; hookFailed := hookFailed s; failure := failure s;
             trace := trace s; results := results s |}
      | Some t =>
          if hookFailed s && negb (callsTestsAfterFailedHook runner) then
            {| phase := Running (S i); hookFailed := hookFailed s; failure := failure s;
               trace := trace s; results := results s |}
          else
            let ev := dispatch Assertion (trace s) (bastionId vars) (testParams t vars) in
            {| phase := Running (S i); hookFailed := hookFailed s;
               failure := failure s || negb (succeeded (outcome ev));
               trace := trace s ++ [ev];
               results := results s ++ [evaluate t (outcome ev)] |}
      end
  | TearingDown k =>
      match teardown def !! k with
      | None =>
          {| phase := if failure s then Failed else Done; hookFailed := hookFailed s;
             failure := failure s; trace := trace s; results := results s |}
      | Some hook =>
          match hook vars with
          | Throw _ =>
              {| phase := TearingDown (S k); hookFailed := hookFailed s; failure := true;
                 trace := trace s; results := results s |}
          | Await instanceId params =>
              let ev := dispatch Teardown (trace s) instanceId params in
              {| phase := TearingDown (S k); hookFailed := hookFailed s;
                 failure := failure s || negb (succeeded (outcome ev));
                 trace := trace s ++ [ev]; results := results s |}
          end
      end
  | Done | Failed => s
  end.

(** [fuel] transitions of the run. *)
Fixpoint run (fuel : nat) (s : State) : State :=
  match fuel with
  | 0 => s
  | S fuel' => run fuel' (step s)
  end.

(** Transitions that are enough for any suite to reach [Done] or
    [Failed]. *)
Definition enough : nat :=
  length (setup def) + length (tests def) + length (teardown def) + 4.

Definition run_suite : State := run enough start.

(** Transitions left before [Done] or [Failed], at most. *)
Definition remaining (s : State) : nat :=
  match phase s with
  | NotStarted => length (setup def) + length (tests def) + length (teardown def) + 4
  | SettingUp k =>
      (length (setup def) - k) + length (tests def) + length (teardown def) + 3
  | Running i => (length (tests def) - i) + length (teardown def) + 2
  | TearingDown k => (length (teardown def) - k) + 1
  | Done | Failed => 0
  end.

(** The command runs of [calls] sent one after the other once [tr] has been
    sent: each is answered by the substrate according to all the runs before
    it. *)
Fixpoint sent_in_order (tr : list Event) (calls : list Call) : list Event :=
  match calls with
  | [] => []
  | (k, instanceId, params) :: rest =>
      let ev := {| kind := k; target := instanceId; sent := params;
                   outcome := substrate tr instanceId params |} in
      ev :: sent_in_order (tr ++ [ev]) rest
  end.

(** The calls the hooks and the tests make. *)
Definition hook_calls (hooks : list (Vars -> HookAction)) : list HookAction :=
  (fun hook => hook vars) <$> hooks.
Definition call_of (t : TestCase) : HookAction :=
  Await (bastionId vars) (testParams t vars).

(** The command a test sends. *)
Definition test_call (t : TestCase) : Call :=
  (Assertion, bastionId vars, testParams t vars).

(** The commands of the hooks that do not throw, and whether a hook
    throws. *)
Definition awaited (k : Kind) (hooks : list (Vars -> HookAction)) : list Call :=
  omap (fun hook =>
          match hook vars with
          | Await instanceId params => Some (k, instanceId, params)
          | Throw _ => None
          end) hooks.
Definition throws (hooks : list (Vars -> HookAction)) : bool :=
  existsb (fun hook =>
             match hook vars with
             | Await _ _ => false
             | Throw _ => true
             end) hooks.

(** Every command run of [evs] ended in [Success]. *)
Definition all_succeeded (evs : list Event) : bool :=
  forallb (fun e => succeeded (outcome e)) evs.

End WithSuite.

End Driver.

(** ** The [TestingTier] stack *)

Module TestingTier.

(** [interface UserDataConfigProps] *)
Record UserDataConfigProps := {
  installDeadlineClient : bool;
  fetchDocdbCert : bool;
  testingScriptPath : string;
}.

(** The constructs the stack is handed. *)
Record Secret := { secretArn : string }.
Record X509CertificatePem := { cert : Secret }.
Record Endpoint := { hostname : string; portAsString : string }.
(** [stackName] stands for [Stack.of(renderQueue).stackName]. *)
Record RenderQueue := { endpoint : Endpoint; stackName : string }.
Record IWorkerFleet := { fleetName : string }.

(** [new Asset(this, id, { path: path.join(...segments) })] *)
Record Asset := { assetId : string; segments : list string }.

(** What the bastion was granted to read: [x.grantRead(this.testInstance)]. *)
Inductive Readable :=
| ReadSecret (s : Secret)
| ReadAsset (a : Asset).

(** [this.testInstance.connections.allowTo(peer, port)] *)
Inductive Peer :=
| ToRenderQueue (rq : RenderQueue)
| ToWorkerFleet (w : IWorkerFleet).
Inductive PortRange :=
| DefaultPort
| Tcp (port : nat).

(** The calls received by [this.testInstance.instance.userData]. *)
Inductive UserDataCall :=
| AddS3DownloadCommand (a : Asset)
| AddCommands (cmds : list string)
| AddSignalOnExitCommand.

(** [Duration.minutes(n)] *)
Inductive Duration := minutes (n : nat).

(** [cfnOptions.creationPolicy]; [autoScalingCreationPolicy] is the field
    the spread carries over. *)
Record ResourceSignal := { timeout : string; count : nat }.
Record CreationPolicy := {
  autoScalingCreationPolicy : option string;
  resourceSignal : option ResourceSignal;
}.

(** The stack, as far as its methods change it. *)
Record Stack := {
  outputs : list (string * string);
  granted : list Readable;
  allowed : list (Peer * PortRange);
  creationPolicy : option CreationPolicy;
  userData : list UserDataCall;
}.

(** [new CfnOutput(this, id, { value })], for an [id] that no construct of
    the stack has yet: the constructor refuses a second construct with the
    same id, so the properties of the methods that make up ids from their
    arguments are stated for arguments that give different ids. *)
Definition CfnOutput (id value : string) (this : Stack) : Stack :=
  {| outputs := outputs this ++ [(id, value)]; granted := granted this;
     allowed := allowed this; creationPolicy := creationPolicy this;
     userData := userData this |}.

Definition grantRead (r : Readable) (this : Stack) : Stack :=
  {| outputs := outputs this; granted := granted this ++ [r];
     allowed := allowed this; creationPolicy := creationPolicy this;
     userData := userData this |}.

Definition allowTo (peer : Peer) (port : PortRange) (this : Stack) : Stack :=
  {| outputs := outputs this; granted := granted this;
     allowed := allowed this ++ [(peer, port)]; creationPolicy := creationPolicy this;
     userData := userData this |}.

Definition call (c : UserDataCall) (this : Stack) : Stack :=
  {| outputs := outputs this; granted := granted this;
     allowed := allowed this; creationPolicy := creationPolicy this;
     userData := userData this ++ [c] |}.

(** [configureCert(testSuiteId, cert?)] *)
Definition configureCert (testSuiteId : string) (cert : option X509CertificatePem)
    (this : Stack) : Stack :=
  match cert with
  | Some c =>
      let this := grantRead (ReadSecret (TestingTier.cert c)) this in
      CfnOutput ("certSecretARN" +:+ testSuiteId) (secretArn (TestingTier.cert c)) this
  | None => this
  end.

(** The local [address] of [configureRenderQueue] after its [switch]. *)
Definition address (renderQueue : RenderQueue) : option string :=
  let port := portAsString (endpoint renderQueue) in
  let zoneName := stackName renderQueue +:+ ".local" in
  if String.eqb port "8080" then Some (hostname (endpoint renderQueue))
  else if String.eqb port "4433" then Some ("renderqueue." +:+ zoneName)
  else None.

(** [configureRenderQueue(testSuiteId, renderQueue)] *)
Definition configureRenderQueue (testSuiteId : string) (renderQueue : RenderQueue)
    (this : Stack) : Stack :=
  let port := portAsString (endpoint renderQueue) in
  let this := allowTo (ToRenderQueue renderQueue) DefaultPort this in
  let this := allowTo (ToRenderQueue renderQueue) (Tcp 22) this in
  let renderQueueEndpoint := Js.to_string (address renderQueue) +:+ ":" +:+ port in
  CfnOutput ("renderQueueEndpoint" +:+ testSuiteId) renderQueueEndpoint this.

(** [configureWorkerFleet(workerFleet)] *)
Definition configureWorkerFleet (workerFleet : list IWorkerFleet) (this : Stack) : Stack :=
  foldl (fun this worker => allowTo (ToWorkerFleet worker) (Tcp 22) this) this workerFleet.

(** [RenderStruct] and [WorkerStruct] (imported from [./render-struct] and
    [./worker-struct]), as far as the stack reads them. [ref] is the identity
    of the object, which is what [indexOf] compares. *)
Module RenderStruct.
Record t := {
  ref : nat;
  renderQueue : RenderQueue;
  cert : option X509CertificatePem;
}.
End RenderStruct.

Module WorkerStruct.
Record t := {
  ref : nat;
  renderQueue : RenderQueue;
  cert : option X509CertificatePem;
  workerFleet : list IWorkerFleet;
}.
End WorkerStruct.

(** [structs.indexOf(x)]: the first position holding the object [x], or -1. *)
Definition indexOf {A} (ref : A -> nat) (structs : list A) (x : A) : Z :=
  match list_find (fun y => ref y = ref x) structs with
  | Some (i, _) => Z.of_nat i
  | None => (-1)%Z
  end.

Section WithEnvironment.

(** [__dirname], [process.env.DEADLINE_STAGING_PATH] and
    [process.env.DEADLINE_VERSION]. *)
Variable dirname : string.
Variable stagePath : string.
Variable deadlineVersion : string.

(** The local path [userData.addS3DownloadCommand] returns for an asset, and
    [Duration.toISOString]. *)
Variable localPath : Asset -> string.
Variable toISOString : Duration -> string.

(** [userData.addS3DownloadCommand({ bucket, bucketKey })] *)
Definition addS3DownloadCommand (a : Asset) (this : Stack) : string * Stack :=
  (localPath a, call (AddS3DownloadCommand a) this).

(** The assets [configureBastionUserData] creates with [new Asset]. *)
Definition instanceSetupScripts : Asset :=
  {| assetId := "SetupScripts";
     segments := [dirname; ".."; "components"; "deadline"; "common"; "scripts";
                  "bastion"; "setup"] |}.
Definition clientInstaller : Asset :=
  {| assetId := "ClientInstaller";
     segments := [stagePath; "bin";
                  "DeadlineClient-" +:+ deadlineVersion +:+ "-linux-x64-installer.run"] |}.
Definition instanceUtilScripts : Asset :=
  {| assetId := "UtilScripts";
     segments := [dirname; ".."; "components"; "deadline"; "common"; "scripts";
                  "bastion"; "utils"] |}.
Definition testingScripts (props : UserDataConfigProps) : Asset :=
  {| assetId := "TestingScripts";
     segments := [dirname; testingScriptPath props] |}.

(** [configureBastionUserData(props)] *)
Definition configureBastionUserData (props : UserDataConfigProps) (this : Stack) : Stack :=
  let old := creationPolicy this in
  let this :=
    {| outputs := outputs this; granted := granted this; allowed := allowed this;
       creationPolicy :=
         Some {| autoScalingCreationPolicy := old ≫= autoScalingCreationPolicy;
                 resourceSignal :=
                   Some {| timeout := toISOString (minutes 5); count := 1 |} |};
       userData := userData this |} in

  let userDataCommands : list string := [] in

  let userDataCommands := userDataCommands ++ [
    "set -xeou pipefail";
    "TMPDIR=$(mktemp -d)";
    "cd " +:+ Js.dquote +:+ "${TMPDIR}" +:+ Js.dquote
  ] in

  let this := grantRead (ReadAsset instanceSetupScripts) this in
  let '(setupZipPath, this) := addS3DownloadCommand instanceSetupScripts this in

  let userDataCommands := userDataCommands ++ [
    "unzip " +:+ setupZipPath;
    "chmod +x *.sh";
    "./install_jq.sh"
  ] in

  let '(userDataCommands, this) :=
    if installDeadlineClient props then
      let this := grantRead (ReadAsset clientInstaller) this in
      let '(installerPath, this) := addS3DownloadCommand clientInstaller this in
      (userDataCommands ++ [
         "cp " +:+ installerPath +:+ " ./deadline-client-installer.run";
         "chmod +x *.run";
         "./install_deadline_client.sh";
         "rm -f " +:+ installerPath
       ], this)
    else (userDataCommands, this) in

  let userDataCommands := userDataCommands ++ [
    "rm -f " +:+ setupZipPath
  ] in

  let this := grantRead (ReadAsset instanceUtilScripts) this in
  let '(utilZipPath, this) := addS3DownloadCommand instanceUtilScripts this in

  let userDataCommands := userDataCommands ++ [
    "cd ~ec2-user";
    "mkdir -p utilScripts";
    "cd utilScripts";
    "unzip " +:+ utilZipPath;
    "chmod +x *.sh";
    "rm -f " +:+ utilZipPath
  ] in

  let this := grantRead (ReadAsset (testingScripts props)) this in
  let '(testsZipPath, this) := addS3DownloadCommand (testingScripts props) this in

  let userDataCommands := userDataCommands ++ [
    "cd ~ec2-user";
    "mkdir -p testScripts";
    "cd testScripts";
    "unzip " +:+ testsZipPath;
    "chmod +x *.sh";
    "rm -f " +:+ testsZipPath
  ] in

  let userDataCommands :=
    if fetchDocdbCert props then
      userDataCommands ++ [
        "cd ~ec2-user";
        "mkdir -p testScripts";
        "cd testScripts";
        "wget https://s3.amazonaws.com/rds-downloads/rds-combined-ca-bundle.pem"
      ]
    else userDataCommands in

  let userDataCommands := userDataCommands ++ [
    "cd ~ec2-user";
    "chown ec2-user.ec2-user -R *";
    "rm -rf " +:+ Js.dquote +:+ "${TMPDIR}" +:+ Js.dquote
  ] in

  let this := call (AddCommands userDataCommands) this in
  call AddSignalOnExitCommand this.

(** The configurations the three public [configure...Test] methods pass. *)
Definition repositoryUserData : UserDataConfigProps :=
  {| installDeadlineClient := false; fetchDocdbCert := true;
     testingScriptPath :=
       "../components/deadline/deadline_01_repository/scripts/bastion/testing" |}.
Definition renderQueueUserData : UserDataConfigProps :=
  {| installDeadlineClient := true; fetchDocdbCert := false;
     testingScriptPath :=
       "../components/deadline/deadline_02_renderQueue/scripts/bastion/testing" |}.
Definition workerFleetUserData : UserDataConfigProps :=
  {| installDeadlineClient := true; fetchDocdbCert := false;
     testingScriptPath :=
       "../components/deadline/deadline_03_workerFleet/scripts/bastion/testing" |}.

(** The callback of [structs.forEach] in [configureRenderQueueTest]. *)
Definition configureRenderQueueTest_each (structs : list RenderStruct.t) (this : Stack)
    (renderStruct : RenderStruct.t) : Stack :=
  let testSuiteId :=
    "RQ" +:+ pretty (indexOf RenderStruct.ref structs renderStruct + 1)%Z in
  let renderQueue := RenderStruct.renderQueue renderStruct in
  let this := configureRenderQueue testSuiteId renderQueue this in
  let cert := RenderStruct.cert renderStruct in
  configureCert testSuiteId cert this.

(** [configureRenderQueueTest(structs)] *)
Definition configureRenderQueueTest (structs : list RenderStruct.t) (this : Stack) : Stack :=
  let this := foldl (configureRenderQueueTest_each structs) this structs in
  configureBastionUserData renderQueueUserData this.

(** The callback of [structs.forEach] in [configureWorkerFleetTest]. *)
Definition configureWorkerFleetTest_each (structs : list WorkerStruct.t) (this : Stack)
    (workerStruct : WorkerStruct.t) : Stack :=
  let testSuiteId :=
    "WF" +:+ pretty (indexOf WorkerStruct.ref structs workerStruct + 1)%Z in
  let renderQueue := WorkerStruct.renderQueue workerStruct in
  let this := configureRenderQueue testSuiteId renderQueue this in
  let cert := WorkerStruct.cert workerStruct in
  let this := configureCert testSuiteId cert this in
  let workerFleet := WorkerStruct.workerFleet workerStruct in
  configureWorkerFleet workerFleet this.

(** [configureWorkerFleetTest(structs)] *)
Definition configureWorkerFleetTest (structs : list WorkerStruct.t) (this : Stack) : Stack :=
  let this := foldl (configureWorkerFleetTest_each structs) this structs in
  configureBastionUserData workerFleetUserData this.

End WithEnvironment.

End TestingTier.

(** ** The key shapes as the specification words them

    [<prefix><SuiteCode><Digits>]: the suite code is [WFS], and the whole
    digit suffix, read in base ten, is the suite index. These definitions
    follow the specification, not the sources; they are what the discovered
    tables are compared with. *)

Module SpecKeys.
Import Discovery.

(** The bare name of the host identifier. *)
Definition host_key : string := "bastionId".

(** The rest of [s] after the prefix [p], when [s] starts with [p]. *)
Fixpoint strip_prefix (p s : string) : option string :=
  match p, s with
  | EmptyString, _ => Some s
  | String a p', String b s' => if Ascii.eqb a b then strip_prefix p' s' else None
  | String _ _, EmptyString => None
  end.

(** The value in base ten of a string of digits, [None] when a character is
    not a digit. *)
Fixpoint decimal (acc : nat) (s : string) : option nat :=
  match s with
  | EmptyString => Some acc
  | String c s' =>
      if Js.is_digit c then decimal (10 * acc + Js.digit_value c) s' else None
  end.

(** The suite index of a key of shape [<prefix>WFS<Digits>]. *)
Definition suite_index (prefix key : string) : option nat :=
  match strip_prefix (prefix +:+ "WFS") key with
  | Some EmptyString => None
  | Some digits => decimal 0 digits
  | None => None
  end.

(** The same, for keys whose digit suffix is a single digit. *)
Definition suite_index_1 (prefix key : string) : option nat :=
  match strip_prefix (prefix +:+ "WFS") key with
  | Some (String d EmptyString) => if Js.is_digit d then Some (Js.digit_value d) else None
  | _ => None
  end.

Definition endpoint_prefix : string := "renderQueueEndpoint".
Definition secret_prefix : string := "CertSecretARN".

(** A key of one of the recognized shapes. *)
Definition well_formed (key : string) : Prop :=
  key = host_key ∨ is_Some (suite_index endpoint_prefix key)
  ∨ is_Some (suite_index secret_prefix key).

(** The same, with single-digit suffixes only. *)
Definition well_formed_1 (key : string) : Prop :=
  key = host_key ∨ is_Some (suite_index_1 endpoint_prefix key)
  ∨ is_Some (suite_index_1 secret_prefix key).

(** A raw output mapping: no key occurs twice. *)
Definition mapping (outs : list Output) : Prop := NoDup (OutputKey <$> outs).

(** The value the mapping gives the key of shape [<prefix>WFS<Digits>] and
    index [i], if it has such a key. *)
Fixpoint field (prefix : string) (outs : list Output) (i : nat) : option string :=
  match outs with
  | [] => None
  | o :: outs' =>
      if decide (suite_index prefix (OutputKey o) = Some i) then Some (OutputValue o)
      else field prefix outs' i
  end.

(** The value the mapping gives the bare host-identifier key. *)
Fixpoint host (outs : list Output) : option string :=
  match outs with
  | [] => None
  | o :: outs' =>
      if decide (OutputKey o = host_key) then Some (OutputValue o) else host outs'
  end.

(** What the specification asks of discovery: at every index, the endpoint
    and secret tables hold exactly the fields the mapping has for it. *)
Definition resolved (outs : list Output) (vars : Vars) : Prop :=
  bastionId vars = host outs
  ∧ ∀ i, Js.get (renderQueueEndpoints vars) i = field endpoint_prefix outs i
       ∧ Js.get (secretARNs vars) i = field secret_prefix outs i.

End SpecKeys.

(** ** The outputs of one suite of the stack

    What one iteration of [structs.forEach] in [configureRenderQueueTest] and
    [configureWorkerFleetTest] adds to the outputs, by [configureRenderQueue]
    and then [configureCert], for the suite code ([RQ] or [WF]) and the value
    of [structs.indexOf(struct)]. *)

Module SuiteOutputs.
Import TestingTier.

Definition testSuiteId (code : string) (index : Z) : string :=
  code +:+ pretty (index + 1)%Z.

Definition created (code : string) (index : Z) (renderQueue : RenderQueue)
    (cert : option X509CertificatePem) : list (string * string) :=
  ("renderQueueEndpoint" +:+ testSuiteId code index,
   Js.to_string (address renderQueue) +:+ ":" +:+ portAsString (endpoint renderQueue))
  :: match cert with
     | Some c => [("certSecretARN" +:+ testSuiteId code index, secretArn (TestingTier.cert c))]
     | None => []
     end.

End SuiteOutputs.

(** ** From the stack to the test *)

Module Deployed.
Import TestingTier.

(** The end of the constructor, once the bastion exists:
    [new CfnOutput(this, 'bastionId', { value: testInstance.instanceId })]. *)
Definition bastionOutput (instanceId : string) (this : Stack) : Stack :=
  CfnOutput "bastionId" instanceId this.

(** What [describeStacks] reports as [Outputs] for the deployed stack: one
    entry per [CfnOutput], with its id as key. *)
Definition Outputs (this : Stack) : list Discovery.Output :=
  (fun kv => {| Discovery.OutputKey := kv.1; Discovery.OutputValue := kv.2 |})
    <$> outputs this.

(** A string made of decimal digits only. *)
Fixpoint all_digits (s : string) : bool :=
  match s with
  | EmptyString => true
  | String c s' => Js.is_digit c && all_digits s'
  end.

(** A string without any decimal digit. *)
Fixpoint no_digits (s : string) : bool :=
  match s with
  | EmptyString => true
  | String c s' => negb (Js.is_digit c) && no_digits s'
  end.

(** A key on which the three regular expressions of the test fail. *)
Definition unrecognized (outputKey : string) : Prop :=
  Discovery.bastionRegex_test outputKey = false
  ∧ Discovery.rqRegex_test outputKey = false
  ∧ Discovery.certRegex_test outputKey = false.

End Deployed.

(** ** The repository test of the stack

    [configureRepositoryTest] and the private methods only it calls. *)

Module RepositoryTier.
Import TestingTier.

(** [String.prototype.toLowerCase], on the ASCII text of a suite
    identifier. *)
Definition lower (c : ascii) : ascii :=
  let n := nat_of_ascii c in
  if (65 <=? n) && (n <=? 90) then ascii_of_nat (n + 32) else c.
Fixpoint toLowerCase (s : string) : string :=
  match s with
  | EmptyString => EmptyString
  | String c s' => String (lower c) (toLowerCase s')
  end.

(** The constructs of a [StorageStruct] (imported from [./storage-struct]),
    as far as the stack reads them. [RepositoryLogGroup] is the child that
    [repo.node.findChild('RepositoryLogGroup')] looks for; [secret] and [cert]
    may be undefined; [ref] is the identity of the struct, as for the other
    structs. *)
Record ILogGroup := { logGroupName : string }.
Record MountableFileSystem := { mountableName : string }.
Record Repository := {
  RepositoryLogGroup : option ILogGroup;
  fileSystem : MountableFileSystem;
}.
Record Connectable := { connectableName : string }.
Record IRenderFarmDb := {
  db : Connectable;
  secret : option Secret;
  cert : option X509CertificatePem;
}.
Record FileSystem := { fileSystemName : string }.
Record StorageStruct := {
  ref : nat;
  repo : Repository;
  database : IRenderFarmDb;
  efs : FileSystem;
}.

(** [MongoDbSsplLicenseAcceptance] *)
Inductive MongoDbSsplLicenseAcceptance := USER_ACCEPTS_SSPL | USER_REJECTS_SSPL.

(** The calls on the bastion that [Stack] has no field for, in the order in
    which they are made:
    - [repo.fileSystem.mountToLinuxInstance(instance, { location })];
    - [connections.allowTo(db, port)];
    - [connections.allowToDefaultPort(efs)];
    - [mongodbInstaller.installOnLinuxInstance(instance)], for the installer
      made with [{ version: MongoDbVersion.COMMUNITY_3_6,
      userSsplAcceptance }]. *)
Inductive BastionCall :=
| MountToLinuxInstance (fs : MountableFileSystem) (location : string)
| AllowToDatabase (db : Connectable) (port : PortRange)
| AllowToDefaultPort (efs : FileSystem)
| InstallMongoDb (userSsplAcceptance : MongoDbSsplLicenseAcceptance).

Record Tier := { stack : Stack; calls : list BastionCall }.

(** What a method may throw: [findChild] finds no child of that id, a
    method is called on [database.secret!] although it is undefined, or the
    constructor of [MongoDbInstaller] refuses a licence that is not accepted. *)
Inductive Thrown :=
| ChildNotFound (id : string)
| SecretUndefined
| SsplNotAccepted.

Definition on_stack (f : Stack -> Stack) (this : Tier) : Tier :=
  {| stack := f (stack this); calls := calls this |}.
Definition called (c : BastionCall) (this : Tier) : Tier :=
  {| stack := stack this; calls := calls this ++ [c] |}.

(** [configureRepo(testSuiteId, repo)] *)
Definition configureRepo (testSuiteId : string) (repo : Repository) (this : Tier)
    : Thrown + Tier :=
  match RepositoryLogGroup repo with
  | None => inl (ChildNotFound "RepositoryLogGroup")
  | Some logGroup =>
      let logGroupName := logGroupName logGroup in
      let this :=
        called (MountToLinuxInstance (fileSystem repo)
                  ("/mnt/efs/fs" +:+ toLowerCase testSuiteId)) this in
      inr (on_stack (CfnOutput ("logGroupName" +:+ testSuiteId) logGroupName) this)
  end.

(** [configureDatabase(testSuiteId, database)] *)
Definition configureDatabase (testSuiteId : string) (database : IRenderFarmDb)
    (this : Tier) : Thrown + Tier :=
  let db := db database in
  let this := called (AllowToDatabase db (Tcp 27017)) this in
  match secret database with
  | None => inl SecretUndefined
  | Some dbSecret =>
      let this := on_stack (grantRead (ReadSecret dbSecret)) this in
      inr (on_stack (CfnOutput ("secretARN" +:+ testSuiteId) (secretArn dbSecret)) this)
  end.

(** [configureEfs(efs)] *)
Definition configureEfs (efs : FileSystem) (this : Tier) : Tier :=
  called (AllowToDefaultPort efs) this.

(** [new MongoDbInstaller(this, { version, userSsplAcceptance })]: the class
    comes from the [aws-rfdk] package and is not among the sources. Its
    constructor throws for every value of [userSsplAcceptance] other than
    [USER_ACCEPTS_SSPL]; otherwise the installer can be asked to install on
    the instance. *)
Definition MongoDbInstaller (userSsplAcceptance : MongoDbSsplLicenseAcceptance)
    : Thrown + BastionCall :=
  match userSsplAcceptance with
  | USER_ACCEPTS_SSPL => inr (InstallMongoDb userSsplAcceptance)
  | USER_REJECTS_SSPL => inl SsplNotAccepted
  end.

(** [configureMongodb()], given
    [process.env.USER_ACCEPTS_SSPL_FOR_RFDK_TESTS]. *)
Definition configureMongodb (USER_ACCEPTS_SSPL_FOR_RFDK_TESTS : option string)
    (this : Tier) : Thrown + Tier :=
  let userAcceptsSSPL := USER_ACCEPTS_SSPL_FOR_RFDK_TESTS in
  if Js.truthy userAcceptsSSPL then
    let userSsplAcceptance :=
      if String.eqb (Js.to_string userAcceptsSSPL) "true"
      then USER_ACCEPTS_SSPL else USER_REJECTS_SSPL in
    match MongoDbInstaller userSsplAcceptance with
    | inl thrown => inl thrown
    | inr installOnLinuxInstance => inr (called installOnLinuxInstance this)
    end
  else inr this.

(** The callback of [structs.forEach] in [configureRepositoryTest]. *)
Definition configureRepositoryTest_each (structs : list StorageStruct) (this : Tier)
    (storageStruct : StorageStruct) : Thrown + Tier :=
  let testSuiteId := "DL" +:+ pretty (indexOf ref structs storageStruct + 1)%Z in
  let repo := repo storageStruct in
  match configureRepo testSuiteId repo this with
  | inl thrown => inl thrown
  | inr this =>
      let database := database storageStruct in
      match configureDatabase testSuiteId database this with
      | inl thrown => inl thrown
      | inr this =>
          let efs := efs storageStruct in
          let this := configureEfs efs this in
          let cert := cert (RepositoryTier.database storageStruct) in
          inr (on_stack (configureCert testSuiteId cert) this)
      end
  end.

(** [array.forEach(callback)] with a callback that may throw: the first
    exception ends the loop. *)
Fixpoint forEach {A} (callback : Tier -> A -> Thrown + Tier) (array : list A)
    (this : Tier) : Thrown + Tier :=
  match array with
  | [] => inr this
  | x :: rest =>
      match callback this x with
      | inl thrown => inl thrown
      | inr this => forEach callback rest this
      end
  end.

Section WithEnvironment.

Variable dirname : string.
Variable stagePath : string.
Variable deadlineVersion : string.
Variable localPath : Asset -> string.
Variable toISOString : Duration -> string.
Variable USER_ACCEPTS_SSPL_FOR_RFDK_TESTS : option string.

(** [configureRepositoryTest(structs)] *)
Definition configureRepositoryTest (structs : list StorageStruct) (this : Tier)
    : Thrown + Tier :=
  match forEach (configureRepositoryTest_each structs) structs this with
  | inl thrown => inl thrown
  | inr this =>
      let this :=
        on_stack (configureBastionUserData dirname stagePath deadlineVersion localPath
                    toISOString (repositoryUserData)) this in
      configureMongodb USER_ACCEPTS_SSPL_FOR_RFDK_TESTS this
  end.

End WithEnvironment.

(** What one iteration adds to the outputs and to the other calls, for the
    value of [structs.indexOf(struct)] and a struct with log group and
    secret. *)
Definition created (index : Z) (s : StorageStruct) : list (string * string) :=
  let testSuiteId := SuiteOutputs.testSuiteId "DL" index in
  match RepositoryLogGroup (repo s), secret (database s) with
  | Some logGroup, Some dbSecret =>
      [("logGroupName" +:+ testSuiteId, logGroupName logGroup);
       ("secretARN" +:+ testSuiteId, secretArn dbSecret)]
      ++ match cert (database s) with
         | Some c => [("certSecretARN" +:+ testSuiteId, secretArn (TestingTier.cert c))]
         | None => []
         end
  | _, _ => []
  end.

Definition made (index : Z) (s : StorageStruct) : list BastionCall :=
  [MountToLinuxInstance (fileSystem (repo s))
     ("/mnt/efs/fs" +:+ "dl" +:+ pretty (index + 1)%Z);
   AllowToDatabase (db (database s)) (Tcp 27017);
   AllowToDefaultPort (efs s)].

(** A struct on which no method throws. *)
Definition complete (s : StorageStruct) : Prop :=
  is_Some (RepositoryLogGroup (repo s)) ∧ is_Some (secret (database s)).

(** A value of [USER_ACCEPTS_SSPL_FOR_RFDK_TESTS] on which [configureMongodb]
    does not throw: unset or empty, so that nothing is installed, or the text
    [true]. *)
Definition licence_settled (USER_ACCEPTS_SSPL_FOR_RFDK_TESTS : option string) : Prop :=
  Js.truthy USER_ACCEPTS_SSPL_FOR_RFDK_TESTS = false
  ∨ USER_ACCEPTS_SSPL_FOR_RFDK_TESTS = Some "true".

End RepositoryTier.

(** * Properties *)

(** ** Arrays with holes *)

Section JsArray.
Implicit Types (arr : Js.array) (i j : nat) (v : string).

Lemma get_set_eq arr i v : Js.get (Js.set arr i v) i = Some v.
Proof.
  unfold Js.get, Js.set. case_decide as Hi.
  - by rewrite list_lookup_insert_eq.
  - rewrite lookup_app_r by lia.
    rewrite lookup_app_r; rewrite length_replicate; [|lia].
    by replace (i - length arr - (i - length arr)) with 0 by lia.
Qed.

Lemma get_set_ne arr i j v : i ≠ j → Js.get (Js.set arr i v) j = Js.get arr j.
Proof.
  intros Hne. unfold Js.get, Js.set. case_decide as Hi.
  - by rewrite list_lookup_insert_ne.
  - destruct (decide (j < length arr)) as [Hj|Hj].
    + by rewrite lookup_app_l.
    + rewrite (lookup_ge_None_2 arr j) by lia.
      rewrite lookup_app_r by lia.
      destruct (decide (j - length arr < i - length arr)) as [Hlt|Hge].
      * rewrite lookup_app_l by (rewrite length_replicate; lia).
        by rewrite lookup_replicate_2.
      * rewrite lookup_app_r; rewrite length_replicate; [|lia].
        rewrite lookup_ge_None_2; [done|]. simpl. lia.
Qed.

Lemma get_set arr i j v :
  Js.get (Js.set arr i v) j = if decide (i = j) then Some v else Js.get arr j.
Proof.
  case_decide as H; [subst; apply get_set_eq | by apply get_set_ne].
Qed.

Lemma get_empty i : Js.get [] i = None.
Proof. by destruct i. Qed.

End JsArray.

(** ** Output discovery *)

Section DiscoveryFacts.
Import Discovery.
Implicit Types (vars : Vars) (o : Output) (outs : list Output).

Lemma test_exec_rq key : rqRegex_test key = true ↔ is_Some (rqRegex_exec key).
Proof. unfold rqRegex_test. by rewrite bool_decide_eq_true. Qed.

Lemma test_exec_cert key : certRegex_test key = true ↔ is_Some (certRegex_exec key).
Proof. unfold certRegex_test. by rewrite bool_decide_eq_true. Qed.

Lemma rq_test_false key : rqRegex_test key = false ↔ rqRegex_exec key = None.
Proof.
  unfold rqRegex_test. rewrite bool_decide_eq_false.
  by rewrite eq_None_not_Some.
Qed.

Lemma cert_test_false key : certRegex_test key = false ↔ certRegex_exec key = None.
Proof.
  unfold certRegex_test. rewrite bool_decide_eq_false.
  by rewrite eq_None_not_Some.
Qed.

(** One output changes the secret table only at the slot its key selects. *)
Lemma classify_secretARNs vars o i :
  Js.get (secretARNs (classify vars o)) i =
    if decide (selects_secret (OutputKey o) = Some i) then Some (OutputValue o)
    else Js.get (secretARNs vars) i.
Proof.
  unfold classify, selects_secret.
  destruct (bastionRegex_test (OutputKey o)); simpl; [done|].
  destruct (rqRegex_test (OutputKey o)) eqn:Hrq.
  { apply test_exec_rq in Hrq as [d Hd]. by rewrite Hd. }
  destruct (certRegex_test (OutputKey o)) eqn:Hc.
  - apply test_exec_cert in Hc as [d Hd]. rewrite Hd. simpl.
    rewrite get_set. repeat case_decide; congruence.
  - apply cert_test_false in Hc. by rewrite Hc.
Qed.

(** One output changes the endpoint table only at the slot its key
    selects. *)
Lemma classify_renderQueueEndpoints vars o i :
  Js.get (renderQueueEndpoints (classify vars o)) i =
    if decide (selects_endpoint (OutputKey o) = Some i) then Some (OutputValue o)
    else Js.get (renderQueueEndpoints vars) i.
Proof.
  unfold classify, selects_endpoint.
  destruct (bastionRegex_test (OutputKey o)); simpl; [done|].
  destruct (rqRegex_test (OutputKey o)) eqn:Hrq.
  - apply test_exec_rq in Hrq as [d Hd]. rewrite Hd. simpl.
    rewrite get_set. repeat case_decide; congruence.
  - apply rq_test_false in Hrq. rewrite Hrq. simpl.
    destruct (certRegex_test (OutputKey o)); [|done].
    by destruct (certRegex_exec (OutputKey o)).
Qed.

(** One output changes the host identifier only when its key matches
    [bastionRegex]. *)
Lemma classify_bastionId vars o :
  bastionId (classify vars o) =
    if bastionRegex_test (OutputKey o) then Some (OutputValue o) else bastionId vars.
Proof.
  unfold classify.
  destruct (bastionRegex_test (OutputKey o)); [done|].
  destruct (rqRegex_test (OutputKey o)).
  { by destruct (rqRegex_exec (OutputKey o)). }
  destruct (certRegex_test (OutputKey o)); [|done].
  by destruct (certRegex_exec (OutputKey o)).
Qed.

Lemma forEach_cons o outs vars :
  forEach (o :: outs) vars = forEach outs (classify vars o).
Proof. done. Qed.

Lemma forEach_app outs1 outs2 vars :
  forEach (outs1 ++ outs2) vars = forEach outs2 (forEach outs1 vars).
Proof. unfold forEach. by rewrite foldl_app. Qed.

End DiscoveryFacts.

Section DiscoveryTheorems.
Import Discovery Suite.
Implicit Types (vars : Vars) (o : Output) (outs : list Output).

(** Outputs that select no slot [i] of the secret table leave it as it
    was. *)
Lemma forEach_secretARNs_untouched outs vars i :
  Forall (λ o, selects_secret (OutputKey o) ≠ Some i) outs →
  Js.get (secretARNs (forEach outs vars)) i = Js.get (secretARNs vars) i.
Proof.
  intros Hall. revert vars.
  induction Hall as [|o outs Ho _ IH]; intros vars; [done|].
  rewrite forEach_cons, IH, classify_secretARNs.
  by case_decide.
Qed.

(** C8: an output whose key matches none of [bastionRegex], [rqRegex] and
    [certRegex] is ignored: classifying it leaves the host identifier, the
    endpoint table and the secret table as they were, and so the whole
    discovery gives the same result with or without it. *)
Theorem unrecognized_key_ignored vars o :
  bastionRegex_test (OutputKey o) = false →
  rqRegex_test (OutputKey o) = false →
  certRegex_test (OutputKey o) = false →
  classify vars o = vars
  ∧ ∀ before after vars0,
      forEach (before ++ o :: after) vars0 = forEach (before ++ after) vars0.
Proof.
  intros Hb Hrq Hc.
  assert (∀ v, classify v o = v) as Hskip.
  { intros v. unfold classify. by rewrite Hb, Hrq, Hc. }
  split; [apply Hskip|].
  intros before after vars0.
  by rewrite !forEach_app, forEach_cons, Hskip.
Qed.

Lemma unrecognized_key_ignored_witness :
  let o := {| OutputKey := "logGroupNameDL1"; OutputValue := "/aws/repo" |} in
  classify initial o = initial
  ∧ ∀ before after vars0,
      forEach (before ++ o :: after) vars0 = forEach (before ++ after) vars0.
Proof.
  apply (unrecognized_key_ignored initial
           {| OutputKey := "logGroupNameDL1"; OutputValue := "/aws/repo" |});
    reflexivity.
Defined.

End DiscoveryTheorems.

(** ** Keys with a single-digit suffix *)

Section SingleDigitKeys.
Import Discovery SpecKeys.

Lemma is_digit_cases d : Js.is_digit d = true → In d Js.digits.
Proof.
  destruct d as [[] [] [] [] [] [] [] []]; intros H;
    try discriminate H; simpl; tauto.
Qed.

Lemma strip_prefix_Some p s r : strip_prefix p s = Some r → s = p +:+ r.
Proof.
  revert s. induction p as [|a p IH]; intros s; simpl.
  - by intros [= ->].
  - destruct s as [|b s]; [done|].
    destruct (Ascii.eqb a b) eqn:Hab; [|done].
    apply Ascii.eqb_eq in Hab as ->. intros H. by rewrite (IH _ H).
Qed.

(** A key with suite index [i] and a one-digit suffix is the prefix, the
    suite code, and that digit. *)
Lemma suite_index_1_Some p key i :
  suite_index_1 p key = Some i →
  ∃ d, key = (p +:+ "WFS") +:+ String d EmptyString
       ∧ In d Js.digits ∧ Js.digit_value d = i.
Proof.
  unfold suite_index_1.
  destruct (strip_prefix (p +:+ "WFS") key) as [[|d [|]]|] eqn:Hs; try done.
  destruct (Js.is_digit d) eqn:Hd; [|done]. intros [= <-].
  exists d. split_and!; [by apply strip_prefix_Some|by apply is_digit_cases|done].
Qed.

(** Two keys with the same prefix, a one-digit suffix each, and the same
    index are the same key. *)
Lemma suite_index_1_inj p key1 key2 i :
  suite_index_1 p key1 = Some i → suite_index_1 p key2 = Some i → key1 = key2.
Proof.
  intros (d1 & -> & Hd1 & Hi1)%suite_index_1_Some (d2 & -> & Hd2 & Hi2)%suite_index_1_Some.
  subst i. f_equal.
  simpl in Hd1, Hd2.
  repeat (destruct Hd1 as [<-|Hd1]); try done;
    repeat (destruct Hd2 as [<-|Hd2]); try done; discriminate Hi2.
Qed.

(** On the key shapes with a one-digit suffix, what the regular expressions
    select is what the specification reads in the key. *)
Lemma well_formed_1_selects key :
  well_formed_1 key →
  bastionRegex_test key = bool_decide (key = host_key)
  ∧ selects_endpoint key = suite_index endpoint_prefix key
  ∧ selects_secret key = suite_index secret_prefix key.
Proof.
  intros [->|[[i Hi]|[i Hi]]]; [by vm_compute|..];
    apply suite_index_1_Some in Hi as (d & -> & Hd & _); simpl in Hd;
    repeat (destruct Hd as [<-|Hd]); try done; by vm_compute.
Qed.

Lemma well_formed_1_suite_index p key :
  p = endpoint_prefix ∨ p = secret_prefix →
  well_formed_1 key → suite_index p key = suite_index_1 p key.
Proof.
  intros Hp [->|[[i Hi]|[i Hi]]]; [by destruct Hp as [-> | ->]|..];
    apply suite_index_1_Some in Hi as (d & -> & Hd & _); simpl in Hd;
    repeat (destruct Hd as [<-|Hd]); try done; by destruct Hp as [-> | ->].
Qed.

End SingleDigitKeys.

Section DiscoveryResolves.
Import Discovery SpecKeys.
Implicit Types (vars : Vars) (o : Output) (outs : list Output).

Lemma field_Some p outs i v :
  field p outs i = Some v →
  ∃ o, o ∈ outs ∧ suite_index p (OutputKey o) = Some i.
Proof.
  induction outs as [|o outs IH]; simpl; [done|].
  case_decide as Ho.
  - intros _. exists o. split; [left|done].
  - intros (o' & ? & ?)%IH. exists o'. split; [by right|done].
Qed.

Lemma host_Some outs v : host outs = Some v → host_key ∈ (OutputKey <$> outs).
Proof.
  induction outs as [|o outs IH]; simpl; [done|].
  case_decide as Ho.
  - intros _. rewrite Ho. left.
  - intros ?%IH. by right.
Qed.

Lemma host_is_Some outs : host_key ∈ (OutputKey <$> outs) → is_Some (host outs).
Proof.
  induction outs as [|o outs IH]; simpl.
  - by intros ?%elem_of_nil.
  - intros [Ho|Ho]%elem_of_cons; case_decide; eauto. done.
Qed.

(** In a mapping whose keys have one-digit suffixes, no later output has
    the index of the first one. *)
Lemma field_fresh p o outs i :
  p = endpoint_prefix ∨ p = secret_prefix →
  mapping (o :: outs) →
  Forall (λ o, well_formed_1 (OutputKey o)) (o :: outs) →
  suite_index p (OutputKey o) = Some i →
  field p outs i = None.
Proof.
  intros Hp Hmap Hwf Hi.
  destruct (field p outs i) as [v|] eqn:Hf; [|done].
  apply field_Some in Hf as (o' & Ho' & Hi').
  apply Forall_cons in Hwf as [Hwo Hwf].
  rewrite Forall_forall in Hwf. specialize (Hwf _ Ho').
  rewrite well_formed_1_suite_index in Hi, Hi' by done.
  assert (OutputKey o = OutputKey o') as Heq by eauto using suite_index_1_inj.
  unfold mapping in Hmap. rewrite fmap_cons in Hmap.
  apply NoDup_cons in Hmap as [Hnotin _].
  destruct Hnotin. rewrite Heq. by apply list_elem_of_fmap_2.
Qed.

(** The tables after discovery, slot by slot. *)
Lemma forEach_resolves outs vars :
  mapping outs →
  Forall (λ o, well_formed_1 (OutputKey o)) outs →
  bastionId (forEach outs vars) = from_option Some (bastionId vars) (host outs)
  ∧ ∀ i,
      Js.get (renderQueueEndpoints (forEach outs vars)) i
        = from_option Some (Js.get (renderQueueEndpoints vars) i)
            (field endpoint_prefix outs i)
      ∧ Js.get (secretARNs (forEach outs vars)) i
        = from_option Some (Js.get (secretARNs vars) i) (field secret_prefix outs i).
Proof.
  revert vars. induction outs as [|o outs IH]; intros vars Hmap Hwf; [done|].
  assert (mapping outs) as Hmap'.
  { unfold mapping in *. rewrite fmap_cons in Hmap. by apply NoDup_cons in Hmap as []. }
  pose proof Hwf as [Hwo Hwf']%Forall_cons.
  destruct (IH (classify vars o) Hmap' Hwf') as [IHb IHt].
  destruct (well_formed_1_selects _ Hwo) as (Hb & Hrq & Hcert).
  rewrite forEach_cons. split.
  - rewrite IHb, classify_bastionId, Hb. simpl.
    case_bool_decide as Hk; case_decide; try done.
    destruct (host outs) as [v|] eqn:Hh; [|done].
    apply host_Some in Hh. unfold mapping in Hmap. rewrite fmap_cons in Hmap.
    apply NoDup_cons in Hmap as [Hnotin _]. destruct Hnotin. by rewrite Hk.
  - intros i. destruct (IHt i) as [-> ->].
    rewrite classify_renderQueueEndpoints, classify_secretARNs, Hrq, Hcert. simpl.
    clear Hb. split; case_decide as Hi; try done.
    + by rewrite (field_fresh endpoint_prefix o outs i (or_introl eq_refl) Hmap Hwf Hi).
    + by rewrite (field_fresh secret_prefix o outs i (or_intror eq_refl) Hmap Hwf Hi).
Qed.

(** C4, as amended: for every raw output mapping (no key twice) that
    contains the bare host-identifier key and otherwise only keys of shape
    [renderQueueEndpointWFS<d>] or [CertSecretARNWFS<d>] with a single digit
    [d], discovery stores the host identifier and, for every index, exactly
    the endpoint and the secret reference whose keys exist in the mapping,
    each at the slot its digit names; slots of absent keys stay undefined. *)
Theorem discovery_resolves_single_digit outs :
  mapping outs →
  host_key ∈ (OutputKey <$> outs) →
  Forall (λ o, well_formed_1 (OutputKey o)) outs →
  resolved outs (forEach outs initial)
  ∧ is_Some (bastionId (forEach outs initial)).
Proof.
  intros Hmap Hhost Hwf.
  destruct (forEach_resolves outs initial Hmap Hwf) as [Hb Ht].
  assert (bastionId (forEach outs initial) = host outs) as Hb'.
  { rewrite Hb. by destruct (host outs). }
  split; [split; [done|]|].
  - intros i. destruct (Ht i) as [-> ->]. simpl. rewrite !get_empty.
    by destruct (field endpoint_prefix outs i), (field secret_prefix outs i).
  - rewrite Hb'. by apply host_is_Some.
Qed.

Lemma discovery_resolves_single_digit_witness :
  let outs := [ {| OutputKey := "bastionId"; OutputValue := "i-1" |};
                {| OutputKey := "renderQueueEndpointWFS1"; OutputValue := "rq1.local:4433" |};
                {| OutputKey := "CertSecretARNWFS1"; OutputValue := "arn:secret:1" |};
                {| OutputKey := "renderQueueEndpointWFS2"; OutputValue := "rq2.local:4433" |} ] in
  resolved outs (forEach outs initial)
  ∧ is_Some (bastionId (forEach outs initial)).
Proof.
  apply (discovery_resolves_single_digit
           [ {| OutputKey := "bastionId"; OutputValue := "i-1" |};
             {| OutputKey := "renderQueueEndpointWFS1"; OutputValue := "rq1.local:4433" |};
             {| OutputKey := "CertSecretARNWFS1"; OutputValue := "arn:secret:1" |};
             {| OutputKey := "renderQueueEndpointWFS2"; OutputValue := "rq2.local:4433" |} ]).
  - unfold mapping. apply (bool_decide_unpack _). vm_compute. reflexivity.
  - apply (bool_decide_unpack _). vm_compute. reflexivity.
  - unfold well_formed_1.
    apply Forall_cons; split; [by left|].
    apply Forall_cons; split; [right; left; vm_compute; by eexists|].
    apply Forall_cons; split; [right; right; vm_compute; by eexists|].
    apply Forall_cons; split; [right; left; vm_compute; by eexists|].
    by apply Forall_nil.
Defined.

(** C4, as stated, fails on a key with a two-digit suffix: the mapping holds
    the host identifier and the well-formed key [renderQueueEndpointWFS12],
    yet the endpoint is stored in slot 1, the first digit, and slot 12 stays
    undefined. *)
Lemma discovery_two_digit_counterexample :
  let outs := [ {| OutputKey := "bastionId"; OutputValue := "i-1" |};
                {| OutputKey := "renderQueueEndpointWFS12";
                   OutputValue := "rq12.local:4433" |} ] in
  mapping outs
  ∧ host_key ∈ (OutputKey <$> outs)
  ∧ Forall (λ o, well_formed (OutputKey o)) outs
  ∧ field endpoint_prefix outs 12 = Some "rq12.local:4433"
  ∧ Js.get (renderQueueEndpoints (forEach outs initial)) 12 = None
  ∧ Js.get (renderQueueEndpoints (forEach outs initial)) 1 = Some "rq12.local:4433"
  ∧ ¬ resolved outs (forEach outs initial).
Proof.
  simpl. split_and!.
  - unfold mapping. apply (bool_decide_unpack _). vm_compute. reflexivity.
  - apply (bool_decide_unpack _). vm_compute. reflexivity.
  - unfold well_formed.
    apply Forall_cons; split; [by left|].
    apply Forall_cons; split; [right; left; vm_compute; by eexists|].
    by apply Forall_nil.
  - reflexivity.
  - reflexivity.
  - reflexivity.
  - intros [_ H]. destruct (H 12) as [H12 _]. vm_compute in H12. discriminate H12.
Qed.

End DiscoveryResolves.

(** ** A suite without a secret *)

Section MissingSecret.
Import Discovery Suite SpecKeys.
Implicit Types (o : Output) (outs : list Output).

(** A mapping without a field of index [i] has no key of that index. *)
Lemma field_None p outs i :
  field p outs i = None → Forall (λ o, suite_index p (OutputKey o) ≠ Some i) outs.
Proof.
  induction outs as [|o outs IH]; simpl; [constructor|].
  case_decide as Ho; [done|]. intros Hf. constructor; [done|by apply IH].
Qed.

(** C6, as amended: for every suite index [id], the suite's [beforeAll]
    throws the missing-secret error, instead of sending the fetch-cert
    command, whenever no discovered output selected slot [id] of the secret
    table, which is then [undefined] there. A key selects the slot of the
    first digit after [CertSecretARNWFS]; so, for outputs whose keys are the
    host identifier or carry a single-digit suffix, the error is thrown
    whenever the outputs hold no key [CertSecretARNWFS<id>]. *)
Theorem missing_secret_throws (INTEG_STACK_TAG : string) (region : option string)
    outs (id : nat) :
  let vars := forEach outs initial in
  let thrown :=
    Js.get (secretARNs vars) id = None
    ∧ beforeAll_fetch_cert INTEG_STACK_TAG region id vars
      = Throw ("Did not find a secrect ARN for " +:+ testingStackName INTEG_STACK_TAG) in
  (Forall (λ o, selects_secret (OutputKey o) ≠ Some id) outs → thrown)
  ∧ (Forall (λ o, well_formed_1 (OutputKey o)) outs →
     field secret_prefix outs id = None → thrown).
Proof.
  intros vars thrown.
  assert (Forall (λ o, selects_secret (OutputKey o) ≠ Some id) outs → thrown) as Hcode.
  { intros Hnone.
    assert (Js.get (secretARNs vars) id = None) as Hget.
    { unfold vars. rewrite forEach_secretARNs_untouched by done. apply get_empty. }
    split; [done|].
    unfold beforeAll_fetch_cert. by rewrite Hget. }
  split; [done|].
  intros Hwf Hfield. apply Hcode.
  apply field_None in Hfield.
  rewrite Forall_forall in Hwf, Hfield. apply Forall_forall. intros o Ho.
  destruct (well_formed_1_selects _ (Hwf o Ho)) as (_ & _ & ->).
  by apply Hfield.
Qed.

Lemma missing_secret_throws_witness :
  let outs := [ {| OutputKey := "bastionId"; OutputValue := "i-1" |};
                {| OutputKey := "renderQueueEndpointWFS1"; OutputValue := "rq1.local:4433" |};
                {| OutputKey := "CertSecretARNWFS1"; OutputValue := "arn:secret:1" |} ] in
  Js.get (secretARNs (forEach outs initial)) 2 = None
  ∧ beforeAll_fetch_cert "-tag" (Some "us-west-2") 2 (forEach outs initial)
    = Throw ("Did not find a secrect ARN for " +:+ testingStackName "-tag").
Proof.
  apply (proj2 (missing_secret_throws "-tag" (Some "us-west-2")
                  [ {| OutputKey := "bastionId"; OutputValue := "i-1" |};
                    {| OutputKey := "renderQueueEndpointWFS1";
                       OutputValue := "rq1.local:4433" |};
                    {| OutputKey := "CertSecretARNWFS1"; OutputValue := "arn:secret:1" |} ]
                  2)).
  - unfold well_formed_1.
    apply Forall_cons; split; [by left|].
    apply Forall_cons; split; [right; left; vm_compute; by eexists|].
    apply Forall_cons; split; [right; right; vm_compute; by eexists|].
    by apply Forall_nil.
  - reflexivity.
Defined.

(** C6, as stated, fails on a key with a two-digit suffix: the mapping holds
    the host identifier and the well-formed key [CertSecretARNWFS12], so that
    index 1 has no matching key at all; yet the secret is stored in slot 1,
    and the [beforeAll] of suite 1 throws nothing and sends the fetch-cert
    command with the secret of index 12. *)
Lemma missing_secret_two_digit_counterexample :
  let outs := [ {| OutputKey := "bastionId"; OutputValue := "i-1" |};
                {| OutputKey := "CertSecretARNWFS12"; OutputValue := "arn:secret:12" |} ] in
  mapping outs
  ∧ Forall (λ o, well_formed (OutputKey o)) outs
  ∧ Forall (λ o, suite_index endpoint_prefix (OutputKey o) ≠ Some 1
                 ∧ suite_index secret_prefix (OutputKey o) ≠ Some 1) outs
  ∧ field secret_prefix outs 1 = None
  ∧ Js.get (secretARNs (forEach outs initial)) 1 = Some "arn:secret:12"
  ∧ beforeAll_fetch_cert "-tag" (Some "us-west-2") 1 (forEach outs initial)
    = Await (Some "i-1")
        {| DocumentName := "AWS-RunShellScript";
           Comment := "Execute Test Script fetch-cert.sh";
           InstanceIds := [Some "i-1"];
           commands := ["sudo -i"; "su - ec2-user >/dev/null"; "cd ~ec2-user";
                        "./utilScripts/fetch-cert.sh 'us-west-2' 'arn:secret:12'"] |}.
Proof.
  simpl. split_and!.
  - unfold mapping. apply (bool_decide_unpack _). vm_compute. reflexivity.
  - unfold well_formed.
    apply Forall_cons; split; [by left|].
    apply Forall_cons; split; [right; right; vm_compute; by eexists|].
    by apply Forall_nil.
  - apply Forall_cons; split; [split; vm_compute; discriminate|].
    apply Forall_cons; split; [split; vm_compute; discriminate|].
    by apply Forall_nil.
  - reflexivity.
  - reflexivity.
  - reflexivity.
Qed.

End MissingSecret.

(** ** The [TestingTier] stack *)

Section TestingTierTheorems.
Import TestingTier.

(** C5: [configureRenderQueue] takes the endpoint's hostname as address when
    the port is ['8080'], ['renderqueue.' + stackName + '.local'] when it is
    ['4433'], and leaves the address unassigned for any other port, without
    raising an error. In every case the method opens the two connections to
    the render queue and creates the output [renderQueueEndpoint<suite>],
    whose value is the address followed by [:<port>]; with the address
    unassigned the value starts with [undefined]. *)
Theorem render_queue_address (testSuiteId : string) (renderQueue : RenderQueue)
    (this : Stack) :
  let port := portAsString (endpoint renderQueue) in
  let configured := configureRenderQueue testSuiteId renderQueue this in
  let with_output (address : string) :=
    outputs this ++ [("renderQueueEndpoint" +:+ testSuiteId, address +:+ ":" +:+ port)] in
  allowed configured
  = allowed this ++ [(ToRenderQueue renderQueue, DefaultPort);
                     (ToRenderQueue renderQueue, Tcp 22)]
  ∧ granted configured = granted this
  ∧ userData configured = userData this
  ∧ (port = "8080" →
     address renderQueue = Some (hostname (endpoint renderQueue))
     ∧ outputs configured = with_output (hostname (endpoint renderQueue)))
  ∧ (port = "4433" →
     address renderQueue = Some ("renderqueue." +:+ stackName renderQueue +:+ ".local")
     ∧ outputs configured
       = with_output ("renderqueue." +:+ stackName renderQueue +:+ ".local"))
  ∧ (port ≠ "8080" → port ≠ "4433" →
     address renderQueue = None ∧ outputs configured = with_output "undefined").
Proof.
  intros port configured with_output.
  unfold configured, with_output, configureRenderQueue, address. fold port.
  split_and!.
  - simpl. by rewrite <-(assoc_L (++)).
  - done.
  - done.
  - intros ->. done.
  - intros ->. done.
  - intros H8080 H4433.
    apply String.eqb_neq in H8080, H4433. by rewrite H8080, H4433.
Qed.

Lemma render_queue_address_witness :
  let renderQueue (port : string) :=
    {| endpoint := {| hostname := "rq.example"; portAsString := port |};
       stackName := "Farm" |} in
  let this :=
    {| outputs := [("bastionId", "i-1")]; granted := []; allowed := [];
       creationPolicy := None; userData := [] |} in
  outputs (configureRenderQueue "WF1" (renderQueue "8080") this)
  = [("bastionId", "i-1"); ("renderQueueEndpointWF1", "rq.example:8080")]
  ∧ outputs (configureRenderQueue "WF1" (renderQueue "4433") this)
    = [("bastionId", "i-1"); ("renderQueueEndpointWF1", "renderqueue.Farm.local:4433")]
  ∧ (address (renderQueue "1234") = None
     ∧ outputs (configureRenderQueue "WF1" (renderQueue "1234") this)
       = [("bastionId", "i-1"); ("renderQueueEndpointWF1", "undefined:1234")]).
Proof.
  intros renderQueue this. split_and!.
  - apply (render_queue_address "WF1" (renderQueue "8080") this). reflexivity.
  - apply (render_queue_address "WF1" (renderQueue "4433") this). reflexivity.
  - apply (render_queue_address "WF1" (renderQueue "1234") this); discriminate.
  - apply (render_queue_address "WF1" (renderQueue "1234") this); discriminate.
Defined.

End TestingTierTheorems.

(** ** Suites without a certificate *)

Section SuiteOutputs.
Import TestingTier.

Variables dirname stagePath deadlineVersion : string.
Variable localPath : Asset → string.
Variable toISOString : Duration → string.

Local Abbreviation configureBastionUserData :=
  (TestingTier.configureBastionUserData dirname stagePath deadlineVersion localPath
     toISOString).
Local Abbreviation configureRenderQueueTest :=
  (TestingTier.configureRenderQueueTest dirname stagePath deadlineVersion localPath
     toISOString).
Local Abbreviation configureWorkerFleetTest :=
  (TestingTier.configureWorkerFleetTest dirname stagePath deadlineVersion localPath
     toISOString).

Lemma configureBastionUserData_outputs props this :
  outputs (configureBastionUserData props this) = outputs this.
Proof. by destruct props as [[] [] path]. Qed.

Lemma configureWorkerFleet_outputs workerFleet this :
  outputs (configureWorkerFleet workerFleet this) = outputs this.
Proof.
  unfold configureWorkerFleet. revert this.
  induction workerFleet as [|w fleet IH]; intros this; [done|].
  simpl. by rewrite IH.
Qed.

Lemma append_inj_l (p a b : string) : p +:+ a = p +:+ b → a = b.
Proof. induction p as [|c p IH]; simpl; [done|]. intros [= H]. by apply IH. Qed.

(** In an array of distinct objects, [indexOf] gives each object its own
    position. *)
Lemma indexOf_lookup {A} (ref : A → nat) (structs : list A) (j : nat) (x : A) :
  NoDup (ref <$> structs) → structs !! j = Some x →
  indexOf ref structs x = Z.of_nat j.
Proof.
  intros Hnodup Hj. unfold indexOf.
  destruct (list_find (λ y, ref y = ref x) structs) as [[i y]|] eqn:Hfind.
  - apply list_find_Some in Hfind as (Hi & Href & _).
    f_equal. apply (NoDup_lookup _ _ _ (ref x) Hnodup).
    + by rewrite list_lookup_fmap, Hi, <-Href.
    + by rewrite list_lookup_fmap, Hj.
  - apply list_find_None in Hfind. rewrite Forall_forall in Hfind.
    by destruct (Hfind x (list_elem_of_lookup_2 _ _ _ Hj)).
Qed.

Lemma suite_id_inj (code : string) (i j : Z) :
  code +:+ pretty (i + 1)%Z = code +:+ pretty (j + 1)%Z → i = j.
Proof. intros H%append_inj_l%(inj pretty). lia. Qed.

(** A key that starts with [certSecretARN] is not created by
    [configureRenderQueue]. *)
Lemma configureRenderQueue_keys testSuiteId renderQueue this (suffix : string) :
  ("certSecretARN" +:+ suffix) ∉ (outputs this).*1 →
  ("certSecretARN" +:+ suffix)
    ∉ (outputs (configureRenderQueue testSuiteId renderQueue this)).*1.
Proof.
  intros Hnotin. unfold configureRenderQueue. simpl.
  rewrite fmap_app, not_elem_of_app. split; [done|].
  simpl. rewrite list_elem_of_singleton. discriminate.
Qed.

Lemma worker_suites_keys structs (l : list WorkerStruct.t) this (k : nat) :
  let key := "certSecretARN" +:+ "WF" +:+ pretty (Z.of_nat k + 1)%Z in
  Forall (λ x, WorkerStruct.cert x = None
               ∨ indexOf WorkerStruct.ref structs x ≠ Z.of_nat k) l →
  key ∉ (outputs this).*1 →
  key ∉ (outputs (foldl (configureWorkerFleetTest_each structs) this l)).*1.
Proof.
  intros key Hall. revert this.
  induction Hall as [|x l Hx _ IH]; intros this Hnotin; [done|].
  simpl. apply IH. unfold configureWorkerFleetTest_each.
  rewrite configureWorkerFleet_outputs.
  apply (configureRenderQueue_keys
           ("WF" +:+ pretty (indexOf WorkerStruct.ref structs x + 1)%Z)
           (WorkerStruct.renderQueue x)) in Hnotin.
  destruct (WorkerStruct.cert x) as [c|] eqn:Hc; [|done].
  destruct Hx as [?|Hx]; [done|].
  simpl. rewrite fmap_app, not_elem_of_app. split; [done|].
  simpl. rewrite list_elem_of_singleton.
  intros Heq%(append_inj_l "certSecretARN")%suite_id_inj. by destruct Hx.
Qed.

Lemma render_suites_keys structs (l : list RenderStruct.t) this (k : nat) :
  let key := "certSecretARN" +:+ "RQ" +:+ pretty (Z.of_nat k + 1)%Z in
  Forall (λ x, RenderStruct.cert x = None
               ∨ indexOf RenderStruct.ref structs x ≠ Z.of_nat k) l →
  key ∉ (outputs this).*1 →
  key ∉ (outputs (foldl (configureRenderQueueTest_each structs) this l)).*1.
Proof.
  intros key Hall. revert this.
  induction Hall as [|x l Hx _ IH]; intros this Hnotin; [done|].
  simpl. apply IH. unfold configureRenderQueueTest_each.
  apply (configureRenderQueue_keys
           ("RQ" +:+ pretty (indexOf RenderStruct.ref structs x + 1)%Z)
           (RenderStruct.renderQueue x)) in Hnotin.
  destruct (RenderStruct.cert x) as [c|] eqn:Hc; [|done].
  destruct Hx as [?|Hx]; [done|].
  simpl. rewrite fmap_app, not_elem_of_app. split; [done|].
  simpl. rewrite list_elem_of_singleton.
  intros Heq%(append_inj_l "certSecretARN")%suite_id_inj. by destruct Hx.
Qed.

(** In an array of distinct objects, every struct but the one at position
    [k] has another suite identifier. *)
Lemma others_differ {A} (ref : A → nat) (cert : A → option X509CertificatePem)
    (structs : list A) (k : nat) (s : A) :
  NoDup (ref <$> structs) → structs !! k = Some s → cert s = None →
  Forall (λ x, cert x = None ∨ indexOf ref structs x ≠ Z.of_nat k) structs.
Proof.
  intros Hnodup Hk Hcert. apply Forall_lookup. intros j x Hj.
  rewrite (indexOf_lookup ref structs j x Hnodup Hj).
  destruct (decide (j = k)) as [->|Hne]; [left|right; lia].
  rewrite Hk in Hj. by injection Hj as <-.
Qed.

(** C10: without a certificate [configureCert] does nothing: the stack is
    returned as it was, so no read permission is granted and no output is
    created, whereas with a certificate both happen. Hence, for a suite
    struct without a certificate among distinct structs, the public
    [configure...Test] methods create no [certSecretARN<suite>] output for
    that suite: the key is not among the outputs unless it was there
    before. *)
Theorem configureCert_absent (testSuiteId : string) (this : Stack) :
  configureCert testSuiteId None this = this
  ∧ granted (configureCert testSuiteId None this) = granted this
  ∧ outputs (configureCert testSuiteId None this) = outputs this
  ∧ (∀ c, granted (configureCert testSuiteId (Some c) this)
            = granted this ++ [ReadSecret (cert c)]
          ∧ outputs (configureCert testSuiteId (Some c) this)
            = outputs this ++ [("certSecretARN" +:+ testSuiteId, secretArn (cert c))])
  ∧ (∀ (structs : list WorkerStruct.t) (k : nat) (s : WorkerStruct.t),
       NoDup (WorkerStruct.ref <$> structs) →
       structs !! k = Some s →
       WorkerStruct.cert s = None →
       ("certSecretARN" +:+ "WF" +:+ pretty (Z.of_nat k + 1)%Z) ∉ (outputs this).*1 →
       ("certSecretARN" +:+ "WF" +:+ pretty (Z.of_nat k + 1)%Z)
         ∉ (outputs (configureWorkerFleetTest structs this)).*1)
  ∧ (∀ (structs : list RenderStruct.t) (k : nat) (s : RenderStruct.t),
       NoDup (RenderStruct.ref <$> structs) →
       structs !! k = Some s →
       RenderStruct.cert s = None →
       ("certSecretARN" +:+ "RQ" +:+ pretty (Z.of_nat k + 1)%Z) ∉ (outputs this).*1 →
       ("certSecretARN" +:+ "RQ" +:+ pretty (Z.of_nat k + 1)%Z)
         ∉ (outputs (configureRenderQueueTest structs this)).*1).
Proof.
  do 4 (split; [done|]). split.
  - intros structs k s Hnodup Hk Hcert Hnotin.
    unfold TestingTier.configureWorkerFleetTest.
    rewrite configureBastionUserData_outputs.
    apply worker_suites_keys; [|done].
    by apply (others_differ WorkerStruct.ref WorkerStruct.cert structs k s).
  - intros structs k s Hnodup Hk Hcert Hnotin.
    unfold TestingTier.configureRenderQueueTest.
    rewrite configureBastionUserData_outputs.
    apply render_suites_keys; [|done].
    by apply (others_differ RenderStruct.ref RenderStruct.cert structs k s).
Qed.

End SuiteOutputs.

(** Two worker-fleet suites on a fresh stack, the second one without a
    certificate. *)
Lemma configureCert_absent_witness :
  let renderQueue :=
    {| TestingTier.endpoint :=
         {| TestingTier.hostname := "rq.example"; TestingTier.portAsString := "4433" |};
       TestingTier.stackName := "Farm" |} in
  let structs :=
    [ {| TestingTier.WorkerStruct.ref := 0;
         TestingTier.WorkerStruct.renderQueue := renderQueue;
         TestingTier.WorkerStruct.cert :=
           Some {| TestingTier.cert := {| TestingTier.secretArn := "arn:secret:1" |} |};
         TestingTier.WorkerStruct.workerFleet := [] |};
      {| TestingTier.WorkerStruct.ref := 1;
         TestingTier.WorkerStruct.renderQueue := renderQueue;
         TestingTier.WorkerStruct.cert := None;
         TestingTier.WorkerStruct.workerFleet := [] |} ] in
  let this :=
    {| TestingTier.outputs := [("bastionId", "i-1")]; TestingTier.granted := [];
       TestingTier.allowed := []; TestingTier.creationPolicy := None;
       TestingTier.userData := [] |} in
  "certSecretARNWF2"
    ∉ (TestingTier.outputs
         (TestingTier.configureWorkerFleetTest "/integ/lib" "/stage" "10.1.9.2"
            (λ a, "/tmp/" +:+ TestingTier.assetId a) (λ _, "PT5M") structs this)).*1.
Proof.
  intros renderQueue structs this.
  apply (proj1 (proj2 (proj2 (proj2 (proj2
           (configureCert_absent "/integ/lib" "/stage" "10.1.9.2"
              (λ a, "/tmp/" +:+ TestingTier.assetId a) (λ _, "PT5M") "WF2" this)))))
           structs 1
           {| TestingTier.WorkerStruct.ref := 1;
              TestingTier.WorkerStruct.renderQueue := renderQueue;
              TestingTier.WorkerStruct.cert := None;
              TestingTier.WorkerStruct.workerFleet := [] |}).
  - apply (bool_decide_unpack _). vm_compute. reflexivity.
  - reflexivity.
  - reflexivity.
  - apply (bool_decide_unpack _). vm_compute. reflexivity.
Defined.


(** ** The boot command sequence *)

Section BootCommands.
Import TestingTier.

Variables dirname stagePath deadlineVersion : string.
Variable localPath : Asset → string.
Variable toISOString : Duration → string.

Local Abbreviation configure :=
  (configureBastionUserData dirname stagePath deadlineVersion localPath toISOString).
Local Abbreviation setupZipPath := (localPath (instanceSetupScripts dirname)).
Local Abbreviation installerPath := (localPath (clientInstaller stagePath deadlineVersion)).
Local Abbreviation utilZipPath := (localPath (instanceUtilScripts dirname)).
Local Abbreviation testsZipPath props := (localPath (testingScripts dirname props)).

(** Splits [H : l !! i = Some x], for a list [l] written out, into one case
    per position whose element can be [x]. *)
Ltac positions H i :=
  repeat (destruct i as [|i]; simpl in H; try discriminate H).

(** C7: for every boot configuration, the commands handed to the instance
    end with [cd ~ec2-user], the recursive [chown] of the home directory, and
    the removal of the scratch directory; adding them is followed by one
    last call, which registers the completion signal; and the creation
    policy waits for one signal with the timeout [Duration.minutes(5)]. *)
Theorem boot_sequence_ends_with_signal (props : UserDataConfigProps) (this : Stack) :
  ∃ downloads body,
    userData (configure props this)
    = userData this ++ downloads ++
        [AddCommands (body ++ ["cd ~ec2-user";
                               "chown ec2-user.ec2-user -R *";
                               "rm -rf " +:+ Js.dquote +:+ "${TMPDIR}" +:+ Js.dquote]);
         AddSignalOnExitCommand]
    ∧ Forall (λ c, ∃ a, c = AddS3DownloadCommand a) downloads
    ∧ creationPolicy (configure props this)
      = Some {| autoScalingCreationPolicy :=
                  creationPolicy this ≫= autoScalingCreationPolicy;
                resourceSignal :=
                  Some {| timeout := toISOString (minutes 5); count := 1 |} |}.
Proof.
  destruct props as [[] [] path]; unfold configureBastionUserData; simpl;
    rewrite <-!(assoc_L (++)); simpl;
    lazymatch goal with
    | |- ∃ _ _, _ ++ ?calls = _ ∧ _ =>
        exists (take (length calls - 2) calls);
        lazymatch calls with
        | context [AddCommands ?cmds] => exists (take (length cmds - 3) cmds)
        end
    end; simpl;
    (split_and!; [reflexivity| |reflexivity]);
    repeat (apply Forall_cons; split; [by eexists|]); by apply Forall_nil.
Qed.

(** C2: with [installDeadlineClient] false and [fetchDocdbCert] true, the
    stack downloads the setup, utility and test-script packages but not the
    client installer, and no command copies or runs the installer; the
    [wget] of the CA bundle occurs exactly once, after the block that
    unpacks the test scripts and before the [chown], which occurs once. *)
Theorem repository_boot_sequence (props : UserDataConfigProps) (this : Stack) :
  installDeadlineClient props = false →
  fetchDocdbCert props = true →
  let wget := "wget https://s3.amazonaws.com/rds-downloads/rds-combined-ca-bundle.pem" in
  let chown := "chown ec2-user.ec2-user -R *" in
  ∃ cmds,
    let calls := [AddS3DownloadCommand (instanceSetupScripts dirname);
                  AddS3DownloadCommand (instanceUtilScripts dirname);
                  AddS3DownloadCommand (testingScripts dirname props);
                  AddCommands cmds;
                  AddSignalOnExitCommand] in
    userData (configure props this) = userData this ++ calls
    ∧ (AddS3DownloadCommand (clientInstaller stagePath deadlineVersion) ∉ calls)
    ∧ ("./install_deadline_client.sh" ∉ cmds)
    ∧ (("cp " +:+ installerPath +:+ " ./deadline-client-installer.run") ∉ cmds)
    ∧ ∃ i j k,
        take 6 (drop i cmds)
        = ["cd ~ec2-user"; "mkdir -p testScripts"; "cd testScripts";
           "unzip " +:+ testsZipPath props; "chmod +x *.sh";
           "rm -f " +:+ testsZipPath props]
        ∧ i + 6 ≤ j ∧ j < k
        ∧ cmds !! j = Some wget ∧ (∀ j', cmds !! j' = Some wget → j' = j)
        ∧ cmds !! k = Some chown ∧ (∀ k', cmds !! k' = Some chown → k' = k).
Proof.
  destruct props as [install fetch path]. simpl. intros -> ->.
  unfold configureBastionUserData; simpl. rewrite <-!(assoc_L (++)); simpl.
  eexists. split; [reflexivity|].
  split_and!.
  - rewrite !not_elem_of_cons. split_and!; try discriminate. apply not_elem_of_nil.
  - rewrite !not_elem_of_cons. split_and!; try discriminate. apply not_elem_of_nil.
  - rewrite !not_elem_of_cons. split_and!; try discriminate. apply not_elem_of_nil.
  - exists 13, 22, 24. split_and!; try reflexivity; try lia.
    + intros j' H. positions H j'. reflexivity.
    + intros k' H. positions H k'. reflexivity.
Qed.


End BootCommands.

(** The two theorems at the configurations the stack really passes, with a
    download directory [/tmp] and version [10.1.9.2]. *)

Lemma repository_boot_sequence_witness :
  let configure :=
    TestingTier.configureBastionUserData "/integ/lib" "/stage" "10.1.9.2"
      (λ a, "/tmp/" +:+ TestingTier.assetId a) (λ _, "PT5M") in
  let this :=
    {| TestingTier.outputs := [("bastionId", "i-1")]; TestingTier.granted := [];
       TestingTier.allowed := []; TestingTier.creationPolicy := None;
       TestingTier.userData := [] |} in
  ∃ cmds,
    TestingTier.userData (configure TestingTier.repositoryUserData this)
    = [TestingTier.AddS3DownloadCommand (TestingTier.instanceSetupScripts "/integ/lib");
       TestingTier.AddS3DownloadCommand (TestingTier.instanceUtilScripts "/integ/lib");
       TestingTier.AddS3DownloadCommand
         (TestingTier.testingScripts "/integ/lib" TestingTier.repositoryUserData);
       TestingTier.AddCommands cmds;
       TestingTier.AddSignalOnExitCommand]
    ∧ ("./install_deadline_client.sh" ∉ cmds)
    ∧ cmds !! 16 = Some "unzip /tmp/TestingScripts"
    ∧ cmds !! 22
      = Some "wget https://s3.amazonaws.com/rds-downloads/rds-combined-ca-bundle.pem"
    ∧ cmds !! 24 = Some "chown ec2-user.ec2-user -R *".
Proof.
  destruct (repository_boot_sequence "/integ/lib" "/stage" "10.1.9.2"
              (λ a, "/tmp/" +:+ TestingTier.assetId a) (λ _, "PT5M")
              TestingTier.repositoryUserData
              {| TestingTier.outputs := [("bastionId", "i-1")]; TestingTier.granted := [];
                 TestingTier.allowed := []; TestingTier.creationPolicy := None;
                 TestingTier.userData := [] |} eq_refl eq_refl)
    as (cmds & Hcalls & _ & Hrun & _).
  simpl in Hcalls. injection Hcalls as <-.
  eexists. split; [reflexivity|]. split; [exact Hrun|]. by split_and!.
Defined.


(** ** The Suite Driver *)

Section DriverFacts.
Import Discovery Suite Driver.

Variable runner : Runner.
Variable def : SuiteDef.
Variable vars : Vars.
Variable substrate : Substrate.

Local Abbreviation step := (Driver.step runner def vars substrate).
Local Abbreviation run := (Driver.run runner def vars substrate).
Local Abbreviation run_suite := (Driver.run_suite runner def vars substrate).
Local Abbreviation remaining := (Driver.remaining def).
Local Abbreviation sent_in_order := (Driver.sent_in_order substrate).
Local Abbreviation awaited := (Driver.awaited vars).
Local Abbreviation throws := (Driver.throws vars).
Local Abbreviation test_call := (Driver.test_call vars).
Local Abbreviation evaluate := (Driver.evaluate def).

Implicit Types (s : State) (k i n : nat).

Lemma step_terminal s : terminal (phase s) = true → step s = s.
Proof. unfold Driver.step. by destruct (phase s). Qed.

(** Every transition out of a state that is not final uses up some of the
    transitions left. *)
Lemma step_remaining s :
  terminal (phase s) = false → remaining (step s) < remaining s.
Proof.
  unfold Driver.step, Driver.remaining. intros Hterm.
  destruct (phase s) as [|k|i|k| |] eqn:Hp; try done; simpl.
  - lia.
  - destruct (setup def !! k) as [hook|] eqn:Hk; simpl; [|lia].
    apply lookup_lt_Some in Hk.
    destruct (hook vars); simpl; lia.
  - destruct (tests def !! i) as [t|] eqn:Hi; simpl; [|lia].
    apply lookup_lt_Some in Hi. destruct (_ && _); simpl; lia.
  - destruct (teardown def !! k) as [hook|] eqn:Hk; simpl.
    + apply lookup_lt_Some in Hk. destruct (hook vars); simpl; lia.
    + destruct (failure s); simpl; lia.
Qed.

Lemma remaining_0 s : remaining s = 0 → terminal (phase s) = true.
Proof. unfold Driver.remaining. destruct (phase s); simpl; try done; lia. Qed.

(** The run stops: with as many transitions as are left, it is in [Done]
    or [Failed]. *)
Lemma run_terminal n s : remaining s ≤ n → terminal (phase (run n s)) = true.
Proof.
  revert s. induction n as [|n IH]; intros s Hn; simpl.
  - apply remaining_0. lia.
  - apply IH. destruct (terminal (phase s)) eqn:Hterm.
    + rewrite step_terminal by done.
      unfold Driver.remaining. destruct (phase s); simpl in *; try done; lia.
    + pose proof (step_remaining s Hterm). lia.
Qed.

Lemma run_add n m s : run (n + m) s = run m (run n s).
Proof. revert s. induction n as [|n IH]; intros s; simpl; [done|apply IH]. Qed.

Lemma sent_in_order_app tr (a b : list Call) :
  sent_in_order tr (a ++ b)
  = sent_in_order tr a ++ sent_in_order (tr ++ sent_in_order tr a) b.
Proof.
  revert tr. induction a as [|[[k i] p] a IH]; intros tr; simpl.
  - by rewrite app_nil_r.
  - by rewrite IH, <-(assoc_L (++)).
Qed.

Lemma drop_cons_inv {A} (l : list A) k x rest :
  drop k l = x :: rest → l !! k = Some x ∧ drop (S k) l = rest.
Proof.
  intros Hd.
  assert (l !! k = Some x) as Hk.
  { by rewrite <-(Nat.add_0_r k), <-lookup_drop, Hd. }
  split; [done|]. rewrite (drop_S _ _ _ Hk) in Hd. by injection Hd.
Qed.

Lemma drop_nil_lookup {A} (l : list A) k : drop k l = [] → l !! k = None.
Proof. intros Hd. by rewrite <-(Nat.add_0_r k), <-lookup_drop, Hd. Qed.

(** The [beforeAll] hooks from position [k] on: each one is called, and
    those that do not throw send their command. *)
Lemma run_setup (l : list (Vars → HookAction)) k s :
  phase s = SettingUp k → drop k (setup def) = l →
  let S := sent_in_order (trace s) (awaited Setup l) in
  phase (run (length l + 1) s) = Running 0
  ∧ trace (run (length l + 1) s) = trace s ++ S
  ∧ hookFailed (run (length l + 1) s)
    = hookFailed s || throws l || negb (all_succeeded S)
  ∧ results (run (length l + 1) s) = results s.
Proof.
  revert k s. induction l as [|hook l IH]; intros k s Hp Hd.
  - apply drop_nil_lookup in Hd. simpl. unfold Driver.step. rewrite Hp, Hd. simpl.
    rewrite app_nil_r. by destruct (hookFailed s).
  - apply drop_cons_inv in Hd as [Hk Hd].
    change (length (hook :: l) + 1) with (S (length l + 1)).
    cbn [Driver.run]. unfold Driver.awaited, Driver.throws.
    cbn [omap list_omap existsb].
    destruct (hook vars) as [message|instanceId params] eqn:Hh.
    + edestruct (IH (S k) (step s)) as (IH1 & IH2 & IH3 & IH4).
      { unfold Driver.step. by rewrite Hp, Hk, Hh. }
      { done. }
      rewrite IH1, IH2, IH3, IH4. unfold Driver.step. rewrite Hp, Hk, Hh. simpl.
      split_and!; try done. by destruct (hookFailed s).
    + edestruct (IH (S k) (step s)) as (IH1 & IH2 & IH3 & IH4).
      { unfold Driver.step. by rewrite Hp, Hk, Hh. }
      { done. }
      rewrite IH1, IH2, IH3, IH4. unfold Driver.step. rewrite Hp, Hk, Hh. simpl.
      split_and!; try done.
      * by rewrite <-(assoc_L (++)).
      * fold (throws l) (awaited Setup l).
        destruct (hookFailed s), (succeeded _), (throws l), (all_succeeded _); done.
Qed.

(** The tests from position [i] on: each one sends its command and gets a
    result, whatever the earlier ones gave, unless a [beforeAll] hook has
    failed and the runner does not call the tests then. *)
Lemma run_tests (l : list TestCase) i s :
  phase s = Running i → drop i (tests def) = l →
  let called := negb (hookFailed s) || callsTestsAfterFailedHook runner in
  let A := if called then sent_in_order (trace s) (test_call <$> l) else [] in
  phase (run (length l + 1) s) = TearingDown 0
  ∧ trace (run (length l + 1) s) = trace s ++ A
  ∧ results (run (length l + 1) s)
    = results s ++ (if called then zip_with evaluate l (outcome <$> A) else []).
Proof.
  revert i s. induction l as [|t l IH]; intros i s Hp Hd.
  - apply drop_nil_lookup in Hd. simpl. unfold Driver.step. rewrite Hp, Hd. simpl.
    destruct (_ || _); by rewrite !app_nil_r.
  - apply drop_cons_inv in Hd as [Hi Hd].
    change (length (t :: l) + 1) with (S (length l + 1)).
    cbn [Driver.run].
    edestruct (IH (S i) (step s)) as (IH1 & IH2 & IH3).
    { unfold Driver.step. rewrite Hp, Hi. by destruct (_ && _). }
    { done. }
    rewrite IH1, IH2, IH3. unfold Driver.step. rewrite Hp, Hi.
    destruct (hookFailed s), (callsTestsAfterFailedHook runner); simpl;
      by rewrite <-?(assoc_L (++)), ?app_nil_r.
Qed.

(** The [afterAll] hooks from position [k] on: each one is called. *)
Lemma run_teardown (l : list (Vars → HookAction)) k s :
  phase s = TearingDown k → drop k (teardown def) = l →
  terminal (phase (run (length l + 1) s)) = true
  ∧ trace (run (length l + 1) s)
    = trace s ++ sent_in_order (trace s) (awaited Teardown l)
  ∧ results (run (length l + 1) s) = results s.
Proof.
  revert k s. induction l as [|hook l IH]; intros k s Hp Hd.
  - apply drop_nil_lookup in Hd. simpl. unfold Driver.step. rewrite Hp, Hd. simpl.
    rewrite app_nil_r. by destruct (failure s).
  - apply drop_cons_inv in Hd as [Hk Hd].
    change (length (hook :: l) + 1) with (S (length l + 1)).
    cbn [Driver.run]. unfold Driver.awaited. cbn [omap list_omap].
    edestruct (IH (S k) (step s)) as (IH1 & IH2 & IH3).
    { unfold Driver.step. rewrite Hp, Hk. by destruct (hook vars). }
    { done. }
    rewrite IH1, IH2, IH3. unfold Driver.step. rewrite Hp, Hk.
    destruct (hook vars) as [message|instanceId params]; simpl; [done|].
    by rewrite <-(assoc_L (++)).
Qed.

(** The run of a suite, whatever the substrate answers: it ends; the
    commands of the [beforeAll] hooks are sent, then those of the tests,
    unless a [beforeAll] hook has failed and the runner does not call the
    tests then, then those of the [afterAll] hooks; and every test that is
    called gets the result of its own command. *)
Lemma run_suite_trace :
  let S := sent_in_order [] (awaited Setup (setup def)) in
  let called :=
    negb (throws (setup def)) && all_succeeded S
    || callsTestsAfterFailedHook runner in
  let A := if called then sent_in_order S (test_call <$> tests def) else [] in
  terminal (phase run_suite) = true
  ∧ trace run_suite = S ++ A ++ sent_in_order (S ++ A) (awaited Teardown (teardown def))
  ∧ results run_suite = if called then zip_with evaluate (tests def) (outcome <$> A) else [].
Proof.
  intros S called A. unfold Driver.run_suite, Driver.enough.
  replace (length (setup def) + length (tests def) + length (teardown def) + 4)
    with (1 + ((length (setup def) + 1) + ((length (tests def) + 1)
                 + (length (teardown def) + 1)))) by lia.
  rewrite (run_add 1), (run_add (length (setup def) + 1)),
    (run_add (length (tests def) + 1)).
  set (s0 := run 1 start).
  destruct (run_setup (setup def) 0 s0 eq_refl eq_refl) as (Hp1 & Htr1 & Hf1 & Hr1).
  set (s1 := run (length (setup def) + 1) s0) in *.
  destruct (run_tests (tests def) 0 s1 Hp1 eq_refl) as (Hp2 & Htr2 & Hr2).
  set (s2 := run (length (tests def) + 1) s1) in *.
  destruct (run_teardown (teardown def) 0 s2 Hp2 eq_refl) as (Hp3 & Htr3 & Hr3).
  simpl in Htr1, Hf1, Hr1. fold S in Htr1, Hf1.
  assert (negb (hookFailed s1) || callsTestsAfterFailedHook runner = called) as Hcalled.
  { rewrite Hf1. unfold called. by destruct (throws _), (all_succeeded S). }
  rewrite Hcalled, Htr1 in Htr2, Hr2. fold A in Htr2, Hr2.
  rewrite Hr1 in Hr2. simpl in Hr2.
  split; [done|]. split.
  - by rewrite Htr3, Htr2, <-(assoc_L (++)).
  - by rewrite Hr3, Hr2.
Qed.

End DriverFacts.

Section WorkerFleetHttpsSuite.
Import Discovery Suite Driver.

Variable INTEG_STACK_TAG : string.
Variable region : option string.
Variable unary_plus_is_1 : string → bool.

Local Abbreviation suite := (Suite.suite INTEG_STACK_TAG region unary_plus_is_1).

Lemma truthy_Some (v : string) : v ≠ "" → Js.truthy (Some v) = true.
Proof. by destruct v. Qed.

(** The setup commands of a suite whose secret ARN was discovered. *)
Lemma suite_setup_awaited (vars : Vars) (id : nat) (arn : string) :
  Js.get (secretARNs vars) id = Some arn → arn ≠ "" →
  throws vars (setup (suite id)) = false
  ∧ awaited vars Setup (setup (suite id))
    = [(Setup, bastionId vars,
        {| DocumentName := "AWS-RunShellScript";
           Comment := "Execute Test Script fetch-cert.sh";
           InstanceIds := [bastionId vars];
           commands := ["sudo -i"; "su - ec2-user >/dev/null"; "cd ~ec2-user";
                        "./utilScripts/fetch-cert.sh '" +:+ Js.to_string region
                          +:+ "' '" +:+ arn +:+ "'"] |});
       (Setup, bastionId vars,
        {| DocumentName := "AWS-RunShellScript";
           Comment := "Execute Test Script configure-deadline.sh";
           InstanceIds := [bastionId vars];
           commands := ["sudo -i"; "su - ec2-user >/dev/null"; "cd ~ec2-user";
                        "./utilScripts/configure-deadline.sh '"
                          +:+ Js.to_string (Js.get (renderQueueEndpoints vars) id)
                          +:+ "'"] |})].
Proof.
  intros Harn Hne. unfold throws, awaited. simpl.
  unfold beforeAll_fetch_cert. by rewrite Harn, truthy_Some.
Qed.

(** C1, as amended: for a suite whose secret ARN and endpoint were
    discovered, the run ends, and the commands it sends are, in this order:
    fetch-cert with the secret ARN; configure-deadline with the endpoint,
    which is sent also when fetch-cert did not succeed; the four assertions;
    and cleanup-cert, which is always sent. When a setup command did not
    succeed, no assertion is sent if the runner is [jest-circus], and all
    four assertions are still sent if it is [jest-jasmine2]. Every command is
    answered by the substrate according to the commands sent before it. *)
Theorem suite_dispatch_order (runner : Runner) (vars : Vars) (substrate : Substrate)
    (id : nat) (arn endpoint : string) :
  Js.get (secretARNs vars) id = Some arn →
  arn ≠ "" →
  Js.get (renderQueueEndpoints vars) id = Some endpoint →
  let fin := run_suite runner (suite id) vars substrate in
  let batch (comment script : string) :=
    {| DocumentName := "AWS-RunShellScript";
       Comment := comment;
       InstanceIds := [bastionId vars];
       commands := ["sudo -i"; "su - ec2-user >/dev/null"; "cd ~ec2-user"; script] |} in
  let fetch : Call :=
    (Setup, bastionId vars,
     batch "Execute Test Script fetch-cert.sh"
       ("./utilScripts/fetch-cert.sh '" +:+ Js.to_string region +:+ "' '" +:+ arn +:+ "'")) in
  let configure : Call :=
    (Setup, bastionId vars,
     batch "Execute Test Script configure-deadline.sh"
       ("./utilScripts/configure-deadline.sh '" +:+ endpoint +:+ "'")) in
  let cleanup : Call :=
    (Teardown, bastionId vars,
     batch "Execute Test Script cleanup-cert.sh" "./utilScripts/cleanup-cert.sh") in
  let assertions := test_call vars <$> tests (suite id) in
  let fetched := substrate [] (bastionId vars) fetch.2 in
  let configured :=
    substrate [{| kind := Setup; target := bastionId vars; sent := fetch.2;
                  outcome := fetched |}] (bastionId vars) configure.2 in
  let setup_succeeded := succeeded fetched && succeeded configured in
  terminal (phase fin) = true
  ∧ length assertions = 4
  ∧ (setup_succeeded = true →
     trace fin = sent_in_order substrate [] ([fetch; configure] ++ assertions ++ [cleanup]))
  ∧ (setup_succeeded = false → runner = JestCircus →
     trace fin = sent_in_order substrate [] [fetch; configure; cleanup])
  ∧ (setup_succeeded = false → runner = JestJasmine2 →
     trace fin = sent_in_order substrate [] ([fetch; configure] ++ assertions ++ [cleanup])).
Proof.
  intros Harn Hne Hep fin batch fetch configure cleanup assertions fetched configured
    setup_succeeded.
  destruct (suite_setup_awaited vars id arn Harn Hne) as [Hthrows Hsetup].
  assert (awaited vars Setup (setup (suite id)) = [fetch; configure]) as Hsetup'.
  { by rewrite Hsetup, Hep. }
  destruct (run_suite_trace runner (suite id) vars substrate) as (Hterm & Htr & _).
  fold fin in Hterm, Htr. rewrite Hthrows, Hsetup' in Htr.
  change (awaited vars Teardown (teardown (suite id))) with [cleanup] in Htr.
  fold assertions in Htr.
  assert (all_succeeded (sent_in_order substrate [] [fetch; configure]) = setup_succeeded)
    as Hall.
  { unfold all_succeeded, setup_succeeded, configured, fetched, fetch, configure.
    cbn [Driver.sent_in_order forallb outcome app snd]. by rewrite andb_true_r. }
  rewrite Hall in Htr. simpl negb in Htr. rewrite andb_true_l in Htr.
  split; [done|]. split; [done|].
  split; [|split].
  - intros Hok. rewrite Hok in Htr. simpl orb in Htr. cbv iota in Htr.
    by rewrite Htr, !sent_in_order_app.
  - intros Hok ->. rewrite Hok in Htr. simpl orb in Htr. cbv iota in Htr.
    rewrite Htr, app_nil_l, app_nil_r.
    by rewrite (sent_in_order_app _ [] [fetch; configure] [cleanup]).
  - intros Hok ->. rewrite Hok in Htr. simpl orb in Htr. cbv iota in Htr.
    by rewrite Htr, !sent_in_order_app.
Qed.

(** C9: once the setup of a suite has completed, every one of its four
    assertions is sent as a command of its own, answered by the substrate
    on its own, and gets a result of its own, computed from the outcome of
    that command alone: whatever the earlier assertions matched or failed, the
    later ones are still sent and evaluated, and the cleanup follows. The two
    rows of the parameterized test go to the same host with the same leading
    commands, and differ in the script arguments. *)
Theorem assertions_independent (runner : Runner) (vars : Vars) (substrate : Substrate)
    (id : nat) (arn : string) :
  Js.get (secretARNs vars) id = Some arn →
  arn ≠ "" →
  let fin := run_suite runner (suite id) vars substrate in
  let batch (comment script : string) :=
    {| DocumentName := "AWS-RunShellScript";
       Comment := comment;
       InstanceIds := [bastionId vars];
       commands := ["sudo -i"; "su - ec2-user >/dev/null"; "cd ~ec2-user"; script] |} in
  let S :=
    sent_in_order substrate []
      [(Setup, bastionId vars,
        batch "Execute Test Script fetch-cert.sh"
          ("./utilScripts/fetch-cert.sh '" +:+ Js.to_string region +:+ "' '" +:+ arn
             +:+ "'"));
       (Setup, bastionId vars,
        batch "Execute Test Script configure-deadline.sh"
          ("./utilScripts/configure-deadline.sh '"
             +:+ Js.to_string (Js.get (renderQueueEndpoints vars) id) +:+ "'"))] in
  all_succeeded S = true →
  let workers := test_report_workers id in
  let sets := test_report_worker_sets id in
  let group := test_submit_jobs_to_sets unary_plus_is_1 id (3, "group", "-group testgroup") in
  let pool := test_submit_jobs_to_sets unary_plus_is_1 id (4, "pool", "-pool testpool") in
  let answered (k : Kind) (tr : list Event) (params : SsmParams) :=
    {| kind := k; target := bastionId vars; sent := params;
       outcome := substrate tr (bastionId vars) params |} in
  let a1 := answered Assertion S (testParams workers vars) in
  let a2 := answered Assertion (S ++ [a1]) (testParams sets vars) in
  let a3 := answered Assertion (S ++ [a1; a2]) (testParams group vars) in
  let a4 := answered Assertion (S ++ [a1; a2; a3]) (testParams pool vars) in
  let cleanup :=
    answered Teardown (S ++ [a1; a2; a3; a4])
      (batch "Execute Test Script cleanup-cert.sh" "./utilScripts/cleanup-cert.sh") in
  terminal (phase fin) = true
  ∧ trace fin = S ++ [a1; a2; a3; a4] ++ [cleanup]
  ∧ results fin
    = [evaluate (suite id) workers (outcome a1); evaluate (suite id) sets (outcome a2);
       evaluate (suite id) group (outcome a3); evaluate (suite id) pool (outcome a4)]
  ∧ InstanceIds (testParams group vars) = [bastionId vars]
  ∧ InstanceIds (testParams pool vars) = [bastionId vars]
  ∧ commands (testParams group vars)
    = ["sudo -i"; "su - ec2-user >/dev/null"; "cd ~ec2-user";
       "./testScripts/WFS-submit-jobs-to-sets.sh " +:+ Js.dquote +:+ "group" +:+ Js.dquote
         +:+ " " +:+ Js.dquote +:+ "-group testgroup" +:+ Js.dquote]
  ∧ commands (testParams pool vars)
    = ["sudo -i"; "su - ec2-user >/dev/null"; "cd ~ec2-user";
       "./testScripts/WFS-submit-jobs-to-sets.sh " +:+ Js.dquote +:+ "pool" +:+ Js.dquote
         +:+ " " +:+ Js.dquote +:+ "-pool testpool" +:+ Js.dquote]
  ∧ commands (testParams group vars) ≠ commands (testParams pool vars).
Proof.
  intros Harn Hne fin batch S Hok workers sets group pool answered a1 a2 a3 a4 cleanup.
  destruct (suite_setup_awaited vars id arn Harn Hne) as [Hthrows Hsetup].
  destruct (run_suite_trace runner (suite id) vars substrate) as (Hterm & Htr & Hrs).
  assert (sent_in_order substrate [] (awaited vars Setup (setup (suite id))) = S) as HS.
  { by rewrite Hsetup. }
  fold fin in Hterm, Htr, Hrs. rewrite HS, Hthrows, Hok in Htr, Hrs.
  simpl orb in Htr, Hrs. cbv iota in Htr, Hrs. clearbody S.
  split; [done|]. split; [|split].
  - rewrite Htr. f_equal.
    change (tests (suite id)) with [workers; sets; group; pool].
    change (awaited vars Teardown (teardown (suite id)))
      with [(Teardown, bastionId vars, sent cleanup)].
    unfold Driver.test_call. cbn [fmap list_fmap Driver.sent_in_order app].
    by rewrite <-!(assoc_L (++)).
  - rewrite Hrs.
    change (tests (suite id)) with [workers; sets; group; pool].
    unfold Driver.test_call. cbn [fmap list_fmap Driver.sent_in_order app zip_with].
    by rewrite <-!(assoc_L (++)).
  - do 4 (split; [reflexivity|]). discriminate.
Qed.

End WorkerFleetHttpsSuite.

(** The scenario of the specification: the outputs
    [{bastionId: "i-1", renderQueueEndpointWFS1: "rq1.local:4433",
      CertSecretARNWFS1: "arn:secret:1"}], suite 1, and a substrate on which
    every command fails. Under [jest-circus] the commands are fetch-cert,
    configure-deadline and cleanup-cert, and no assertion. *)
Lemma suite_dispatch_order_witness :
  let vars :=
    Discovery.forEach
      [ {| Discovery.OutputKey := "bastionId"; Discovery.OutputValue := "i-1" |};
        {| Discovery.OutputKey := "renderQueueEndpointWFS1";
           Discovery.OutputValue := "rq1.local:4433" |};
        {| Discovery.OutputKey := "CertSecretARNWFS1";
           Discovery.OutputValue := "arn:secret:1" |} ]
      Discovery.initial in
  let def := Suite.suite "-tag" (Some "us-west-2") (λ _, true) 1 in
  let fin :=
    Driver.run_suite Driver.JestCircus def vars (λ _ _ _, Driver.CommandFailed "exit 1") in
  Driver.terminal (Driver.phase fin) = true
  ∧ (λ e, (Driver.kind e, Driver.target e, Suite.commands (Driver.sent e),
           Driver.succeeded (Driver.outcome e))) <$> Driver.trace fin
    = [(Driver.Setup, Some "i-1",
        ["sudo -i"; "su - ec2-user >/dev/null"; "cd ~ec2-user";
         "./utilScripts/fetch-cert.sh 'us-west-2' 'arn:secret:1'"], false);
       (Driver.Setup, Some "i-1",
        ["sudo -i"; "su - ec2-user >/dev/null"; "cd ~ec2-user";
         "./utilScripts/configure-deadline.sh 'rq1.local:4433'"], false);
       (Driver.Teardown, Some "i-1",
        ["sudo -i"; "su - ec2-user >/dev/null"; "cd ~ec2-user";
         "./utilScripts/cleanup-cert.sh"], false)].
Proof.
  intros vars def fin.
  destruct (suite_dispatch_order "-tag" (Some "us-west-2") (λ _, true) Driver.JestCircus
              vars (λ _ _ _, Driver.CommandFailed "exit 1") 1 "arn:secret:1"
              "rq1.local:4433" eq_refl ltac:(discriminate) eq_refl)
    as (Hterm & _ & _ & Hfailed & _).
  split; [exact Hterm|].
  unfold fin, def. rewrite (Hfailed eq_refl eq_refl). reflexivity.
Defined.

(** C1, as stated, fails when the runner is [jest-jasmine2]: in the scenario
    of the specification, on a substrate on which every command fails, both
    setup commands fail, and yet the four assertions are sent before the
    cleanup. *)
Lemma failed_setup_counterexample :
  let vars :=
    Discovery.forEach
      [ {| Discovery.OutputKey := "bastionId"; Discovery.OutputValue := "i-1" |};
        {| Discovery.OutputKey := "renderQueueEndpointWFS1";
           Discovery.OutputValue := "rq1.local:4433" |};
        {| Discovery.OutputKey := "CertSecretARNWFS1";
           Discovery.OutputValue := "arn:secret:1" |} ]
      Discovery.initial in
  let def := Suite.suite "-tag" (Some "us-west-2") (λ _, true) 1 in
  let fin :=
    Driver.run_suite Driver.JestJasmine2 def vars
      (λ _ _ _, Driver.CommandFailed "exit 1") in
  (λ e, (Driver.kind e, Suite.Comment (Driver.sent e),
         Driver.succeeded (Driver.outcome e))) <$> Driver.trace fin
  = [(Driver.Setup, "Execute Test Script fetch-cert.sh", false);
     (Driver.Setup, "Execute Test Script configure-deadline.sh", false);
     (Driver.Assertion, "Execute Test Script WFS-report-workers.sh", false);
     (Driver.Assertion, "Execute Test Script WFS-report-worker-sets.sh", false);
     (Driver.Assertion, "Execute Test Script WFS-submit-jobs-to-sets.sh for group", false);
     (Driver.Assertion, "Execute Test Script WFS-submit-jobs-to-sets.sh for pool", false);
     (Driver.Teardown, "Execute Test Script cleanup-cert.sh", false)]
  ∧ ¬ (Exists (λ e, Driver.kind e = Driver.Setup
                    ∧ Driver.succeeded (Driver.outcome e) = false) (Driver.trace fin)
       → Forall (λ e, Driver.kind e ≠ Driver.Assertion) (Driver.trace fin)).
Proof.
  intros vars def fin. split; [by vm_compute|].
  intros Hclaim.
  assert (Driver.trace fin !! 2
          = Some {| Driver.kind := Driver.Assertion; Driver.target := Some "i-1";
                    Driver.sent := Suite.testParams (Suite.test_report_workers 1) vars;
                    Driver.outcome := Driver.CommandFailed "exit 1" |}) as Hthird.
  { by vm_compute. }
  assert (Exists (λ e, Driver.kind e = Driver.Setup
                       ∧ Driver.succeeded (Driver.outcome e) = false) (Driver.trace fin))
    as Hfailed.
  { apply Exists_exists. eexists. split; [|split].
    - apply (list_elem_of_lookup_2 _ 0). by vm_compute.
    - done.
    - done. }
  apply Hclaim in Hfailed. rewrite Forall_lookup in Hfailed.
  by apply (Hfailed _ _ Hthird).
Qed.

(** The same scenario on a substrate on which every command succeeds and
    prints nothing, so that no assertion matches: all four assertions are
    sent all the same, and each is recorded as not matched. *)
Lemma assertions_independent_witness :
  let vars :=
    Discovery.forEach
      [ {| Discovery.OutputKey := "bastionId"; Discovery.OutputValue := "i-1" |};
        {| Discovery.OutputKey := "renderQueueEndpointWFS1";
           Discovery.OutputValue := "rq1.local:4433" |};
        {| Discovery.OutputKey := "CertSecretARNWFS1";
           Discovery.OutputValue := "arn:secret:1" |} ]
      Discovery.initial in
  let def := Suite.suite "-tag" (Some "us-west-2") (λ out, String.eqb out "1") 1 in
  let fin := Driver.run_suite Driver.JestCircus def vars (λ _ _ _, Driver.Success "") in
  Driver.terminal (Driver.phase fin) = true
  ∧ (λ e, (Driver.kind e, Suite.Comment (Driver.sent e))) <$> Driver.trace fin
    = [(Driver.Setup, "Execute Test Script fetch-cert.sh");
       (Driver.Setup, "Execute Test Script configure-deadline.sh");
       (Driver.Assertion, "Execute Test Script WFS-report-workers.sh");
       (Driver.Assertion, "Execute Test Script WFS-report-worker-sets.sh");
       (Driver.Assertion, "Execute Test Script WFS-submit-jobs-to-sets.sh for group");
       (Driver.Assertion, "Execute Test Script WFS-submit-jobs-to-sets.sh for pool");
       (Driver.Teardown, "Execute Test Script cleanup-cert.sh")]
  ∧ (λ r, (Driver.testId r, Driver.matched r)) <$> Driver.results fin
    = [("WFS-1-1: Workers can be attached to the Render Queue", false);
       ("WFS-1-2: Workers can be added to groups, pools and regions", false);
       ("WFS-1-3: Workers can be assigned jobs submitted to a group", false);
       ("WFS-1-4: Workers can be assigned jobs submitted to a pool", false)].
Proof.
  intros vars def fin.
  destruct (assertions_independent "-tag" (Some "us-west-2") (λ out, String.eqb out "1")
              Driver.JestCircus vars (λ _ _ _, Driver.Success "") 1 "arn:secret:1"
              eq_refl ltac:(discriminate) eq_refl)
    as (Hterm & Htr & Hrs & _).
  split; [exact Hterm|]. split.
  - unfold fin, def. rewrite Htr. reflexivity.
  - unfold fin, def. rewrite Hrs. reflexivity.
Defined.


(** * Further properties of the sources *)

(** ** The regular expressions of output discovery *)

Section RegexFacts.
Import Discovery.

Lemma starts_with_app (lit post : string) : Js.starts_with lit (lit +:+ post) = true.
Proof. induction lit as [|c lit IH]; simpl; [done|]. by rewrite Ascii.eqb_refl. Qed.

Lemma starts_with_Some (lit s : string) :
  Js.starts_with lit s = true → ∃ post, s = lit +:+ post.
Proof.
  revert s. induction lit as [|c lit IH]; intros s; simpl; [by exists s|].
  destruct s as [|b s]; [done|].
  destruct (Ascii.eqb c b) eqn:Hcb; [|done].
  apply Ascii.eqb_eq in Hcb as ->. intros (post & ->)%IH. by exists post.
Qed.

(** [/lit/.test(s)] holds exactly when [lit] occurs somewhere in [s]. *)
Lemma test_literal_occurs (lit s : string) :
  Js.test_literal lit s = true ↔ ∃ pre post, s = pre +:+ lit +:+ post.
Proof.
  split.
  - induction s as [|c s IH]; simpl.
    + destruct (Js.starts_with lit "") eqn:Hs; [|done].
      intros _. apply starts_with_Some in Hs as (post & Hs). by exists "", post.
    + destruct (Js.starts_with lit (String c s)) eqn:Hs.
      * intros _. apply starts_with_Some in Hs as (post & Hs). by exists "", post.
      * intros (pre & post & ->)%IH. by exists (String c pre), post.
  - intros (pre & post & ->). induction pre as [|c pre IH]; simpl.
    + pose proof (starts_with_app lit post) as Hs.
      destruct (lit +:+ post); simpl; by rewrite Hs.
    + by destruct (Js.starts_with lit _).
Qed.

(** [exec] only ever captures a decimal digit. *)
Lemma starts_with_digit_is_digit (lit s : string) (d : ascii) :
  Js.starts_with_digit lit s = Some d → Js.is_digit d = true.
Proof.
  revert s. induction lit as [|c lit IH]; intros [|b s]; simpl; try done.
  - destruct (Js.is_digit b) eqn:Hb; [|done]. by intros [= <-].
  - destruct (Ascii.eqb c b); [apply IH|done].
Qed.

Lemma exec_literal_digit_is_digit (lit s : string) (d : ascii) :
  Js.exec_literal_digit lit s = Some d → Js.is_digit d = true.
Proof.
  induction s as [|c s IH]; simpl.
  - destruct (Js.starts_with_digit lit "") eqn:Hs; [|done].
    intros [= <-]. by eapply starts_with_digit_is_digit.
  - destruct (Js.starts_with_digit lit (String c s)) eqn:Hs; [|done].
    intros [= <-]. by eapply starts_with_digit_is_digit.
Qed.

Lemma digit_value_lt_10 (d : ascii) : Js.is_digit d = true → Js.digit_value d < 10.
Proof.
  intros Hd%is_digit_cases. simpl in Hd.
  repeat (destruct Hd as [<-|Hd]); try done; vm_compute; lia.
Qed.

Lemma starts_with_digit_app (lit post : string) (d : ascii) :
  Js.is_digit d = true → Js.starts_with_digit lit (lit +:+ String d post) = Some d.
Proof.
  intros Hd. induction lit as [|c lit IH]; simpl; [by rewrite Hd|].
  by rewrite Ascii.eqb_refl.
Qed.

Lemma selects_endpoint_lt_10 key i : selects_endpoint key = Some i → i < 10.
Proof.
  unfold selects_endpoint, rqRegex_exec.
  destruct (bastionRegex_test key); [done|].
  destruct (Js.exec_literal_digit _ key) as [d|] eqn:Hd; [|done].
  intros [= <-]. by eapply digit_value_lt_10, exec_literal_digit_is_digit.
Qed.

Lemma selects_secret_lt_10 key i : selects_secret key = Some i → i < 10.
Proof.
  unfold selects_secret, certRegex_exec.
  destruct (bastionRegex_test key); [done|].
  destruct (rqRegex_test key); [done|].
  destruct (Js.exec_literal_digit _ key) as [d|] eqn:Hd; [|done].
  intros [= <-]. by eapply digit_value_lt_10, exec_literal_digit_is_digit.
Qed.

End RegexFacts.

Section DiscoveryMore.
Import Discovery Suite.
Implicit Types (vars : Vars) (o : Output) (outs : list Output).

Lemma exec_literal_digit_app (lit post : string) (d : ascii) :
  Js.is_digit d = true → Js.exec_literal_digit lit (lit +:+ String d post) = Some d.
Proof.
  intros Hd. pose proof (starts_with_digit_app lit post d Hd) as Hs.
  destruct (lit +:+ String d post); simpl; by rewrite Hs.
Qed.

(** Outputs that select no slot [i] of the endpoint table leave it as it
    was. *)
Lemma forEach_renderQueueEndpoints_untouched outs vars i :
  Forall (λ o, selects_endpoint (OutputKey o) ≠ Some i) outs →
  Js.get (renderQueueEndpoints (forEach outs vars)) i = Js.get (renderQueueEndpoints vars) i.
Proof.
  intros Hall. revert vars.
  induction Hall as [|o outs Ho _ IH]; intros vars; [done|].
  rewrite forEach_cons, IH, classify_renderQueueEndpoints.
  by case_decide.
Qed.

(** Outputs whose keys do not contain [bastionId] leave the host identifier
    as it was. *)
Lemma forEach_bastionId_untouched outs vars :
  Forall (λ o, bastionRegex_test (OutputKey o) = false) outs →
  bastionId (forEach outs vars) = bastionId vars.
Proof.
  intros Hall. revert vars.
  induction Hall as [|o outs Ho _ IH]; intros vars; [done|].
  by rewrite forEach_cons, IH, classify_bastionId, Ho.
Qed.

Lemma length_set (arr : Js.array) (i : nat) (v : string) :
  length (Js.set arr i v) = length arr `max` S i.
Proof.
  unfold Js.set. case_decide.
  - rewrite length_insert. lia.
  - rewrite !length_app, length_replicate. simpl. lia.
Qed.

(** X1: [bastionRegex] is not anchored: an output is taken for the host
    identifier exactly when its key contains [bastionId] somewhere, and then
    it only sets [bastionId], also when the rest of the key has the shape
    of a suite key. *)
Theorem host_key_matches_anywhere vars (key value : string) :
  (bastionRegex_test key = true ↔ ∃ pre post, key = pre +:+ "bastionId" +:+ post)
  ∧ ((∃ pre post, key = pre +:+ "bastionId" +:+ post) →
     classify vars {| OutputKey := key; OutputValue := value |}
     = {| bastionId := Some value;
          renderQueueEndpoints := renderQueueEndpoints vars;
          secretARNs := secretARNs vars |}).
Proof.
  split; [apply test_literal_occurs|].
  intros Hocc%test_literal_occurs. unfold classify. simpl.
  unfold bastionRegex_test. by rewrite Hocc.
Qed.

(** X2: the index of a suite key is the first digit after [WFS], whatever
    follows it: such an endpoint key writes slot [d] of the endpoint table and
    nothing else, and such a secret key writes slot [d] of the secret table
    unless the key also matches the endpoint pattern. *)
Theorem index_is_first_digit (vars : Vars) (d : ascii) (post value : string) :
  Js.is_digit d = true →
  let rqKey := "renderQueueEndpointWFS" +:+ String d post in
  let certKey := "CertSecretARNWFS" +:+ String d post in
  (bastionRegex_test rqKey = false →
   classify vars {| OutputKey := rqKey; OutputValue := value |}
   = {| bastionId := bastionId vars;
        renderQueueEndpoints :=
          Js.set (renderQueueEndpoints vars) (Js.digit_value d) value;
        secretARNs := secretARNs vars |})
  ∧ (bastionRegex_test certKey = false → rqRegex_test certKey = false →
     classify vars {| OutputKey := certKey; OutputValue := value |}
     = {| bastionId := bastionId vars;
          renderQueueEndpoints := renderQueueEndpoints vars;
          secretARNs := Js.set (secretARNs vars) (Js.digit_value d) value |}).
Proof.
  intros Hd rqKey certKey. split.
  - intros Hb. unfold classify. simpl. rewrite Hb.
    assert (rqRegex_exec rqKey = Some d) as Hexec.
    { apply (exec_literal_digit_app "renderQueueEndpointWFS" post d Hd). }
    assert (rqRegex_test rqKey = true) as ->.
    { apply test_exec_rq. by rewrite Hexec. }
    by rewrite Hexec.
  - intros Hb Hrq. unfold classify. simpl. rewrite Hb, Hrq.
    assert (certRegex_exec certKey = Some d) as Hexec.
    { apply (exec_literal_digit_app "CertSecretARNWFS" post d Hd). }
    assert (certRegex_test certKey = true) as ->.
    { apply test_exec_cert. by rewrite Hexec. }
    by rewrite Hexec.
Qed.

(** X3: discovery only ever fills slots 0 to 9: whatever the outputs, every
    slot from 10 on is undefined in both tables, and neither table grows
    beyond ten slots. *)
Theorem discovered_slots_below_10 outs (i : nat) :
  10 ≤ i →
  Js.get (renderQueueEndpoints (forEach outs initial)) i = None
  ∧ Js.get (secretARNs (forEach outs initial)) i = None
  ∧ length (renderQueueEndpoints (forEach outs initial)) ≤ 10
  ∧ length (secretARNs (forEach outs initial)) ≤ 10.
Proof.
  intros Hi. split_and!.
  - rewrite forEach_renderQueueEndpoints_untouched; [apply get_empty|].
    apply Forall_forall. intros o _ Hsel%selects_endpoint_lt_10. lia.
  - rewrite forEach_secretARNs_untouched; [apply get_empty|].
    apply Forall_forall. intros o _ Hsel%selects_secret_lt_10. lia.
  - assert (∀ vars, length (renderQueueEndpoints vars) ≤ 10 →
                    length (renderQueueEndpoints (forEach outs vars)) ≤ 10) as Hlen.
    { induction outs as [|o outs IH]; intros vars Hvars; [done|].
      rewrite forEach_cons. apply IH. unfold classify.
      destruct (bastionRegex_test _); [done|].
      destruct (rqRegex_test _).
      - destruct (rqRegex_exec (OutputKey o)) as [d|] eqn:Hd; [|done]. simpl.
        apply exec_literal_digit_is_digit, digit_value_lt_10 in Hd.
        rewrite length_set. lia.
      - destruct (certRegex_test _); [|done].
        by destruct (certRegex_exec _). }
    apply Hlen. simpl. lia.
  - assert (∀ vars, length (secretARNs vars) ≤ 10 →
                    length (secretARNs (forEach outs vars)) ≤ 10) as Hlen.
    { induction outs as [|o outs IH]; intros vars Hvars; [done|].
      rewrite forEach_cons. apply IH. unfold classify.
      destruct (bastionRegex_test _); [done|].
      destruct (rqRegex_test _).
      - by destruct (rqRegex_exec _).
      - destruct (certRegex_test _); [|done].
        destruct (certRegex_exec (OutputKey o)) as [d|] eqn:Hd; [|done]. simpl.
        apply exec_literal_digit_is_digit, digit_value_lt_10 in Hd.
        rewrite length_set. lia. }
    apply Hlen. simpl. lia.
Qed.

(** X4: when several outputs select the same slot, the last one in the order
    of [stackOutput] wins: a slot holds the value of the last output that
    selects it, and [bastionId] the value of the last output whose key
    contains [bastionId]. *)
Theorem last_selecting_output_wins (before after : list Output) (o : Output)
    (vars : Vars) :
  let final := forEach (before ++ o :: after) vars in
  (∀ i, selects_endpoint (OutputKey o) = Some i →
        Forall (λ o', selects_endpoint (OutputKey o') ≠ Some i) after →
        Js.get (renderQueueEndpoints final) i = Some (OutputValue o))
  ∧ (∀ i, selects_secret (OutputKey o) = Some i →
          Forall (λ o', selects_secret (OutputKey o') ≠ Some i) after →
          Js.get (secretARNs final) i = Some (OutputValue o))
  ∧ (bastionRegex_test (OutputKey o) = true →
     Forall (λ o', bastionRegex_test (OutputKey o') = false) after →
     bastionId final = Some (OutputValue o)).
Proof.
  intros final. unfold final. rewrite forEach_app, forEach_cons. split_and!.
  - intros i Hsel Hafter.
    rewrite forEach_renderQueueEndpoints_untouched by done.
    rewrite classify_renderQueueEndpoints. by case_decide.
  - intros i Hsel Hafter.
    rewrite forEach_secretARNs_untouched by done.
    rewrite classify_secretARNs. by case_decide.
  - intros Hb Hafter.
    rewrite forEach_bastionId_untouched by done.
    by rewrite classify_bastionId, Hb.
Qed.

End DiscoveryMore.

Lemma index_is_first_digit_witness :
  Discovery.classify Discovery.initial
    {| Discovery.OutputKey := "renderQueueEndpointWFS12";
       Discovery.OutputValue := "rq12.local:4433" |}
  = {| Discovery.bastionId := None;
       Discovery.renderQueueEndpoints := [None; Some "rq12.local:4433"];
       Discovery.secretARNs := [] |}.
Proof.
  apply (index_is_first_digit Discovery.initial "1" "2" "rq12.local:4433");
    reflexivity.
Defined.

Lemma discovered_slots_below_10_witness :
  let outs :=
    [ {| Discovery.OutputKey := "renderQueueEndpointWFS12";
         Discovery.OutputValue := "rq12.local:4433" |};
      {| Discovery.OutputKey := "CertSecretARNWFS9";
         Discovery.OutputValue := "arn:secret:9" |} ] in
  Js.get (Discovery.renderQueueEndpoints (Discovery.forEach outs Discovery.initial)) 12 = None
  ∧ Js.get (Discovery.secretARNs (Discovery.forEach outs Discovery.initial)) 12 = None
  ∧ length (Discovery.renderQueueEndpoints (Discovery.forEach outs Discovery.initial)) ≤ 10
  ∧ length (Discovery.secretARNs (Discovery.forEach outs Discovery.initial)) ≤ 10.
Proof.
  apply (discovered_slots_below_10
           [ {| Discovery.OutputKey := "renderQueueEndpointWFS12";
                Discovery.OutputValue := "rq12.local:4433" |};
             {| Discovery.OutputKey := "CertSecretARNWFS9";
                Discovery.OutputValue := "arn:secret:9" |} ] 12).
  lia.
Defined.

Lemma last_selecting_output_wins_witness :
  let before :=
    [ {| Discovery.OutputKey := "renderQueueEndpointWFS12";
         Discovery.OutputValue := "old" |} ] in
  let o := {| Discovery.OutputKey := "renderQueueEndpointWFS1";
              Discovery.OutputValue := "new" |} in
  let after :=
    [ {| Discovery.OutputKey := "CertSecretARNWFS1"; Discovery.OutputValue := "arn" |} ] in
  Js.get (Discovery.renderQueueEndpoints
            (Discovery.forEach (before ++ o :: after) Discovery.initial)) 1
  = Some "new".
Proof.
  apply (proj1 (last_selecting_output_wins
           [ {| Discovery.OutputKey := "renderQueueEndpointWFS12";
                Discovery.OutputValue := "old" |} ]
           [ {| Discovery.OutputKey := "CertSecretARNWFS1"; Discovery.OutputValue := "arn" |} ]
           {| Discovery.OutputKey := "renderQueueEndpointWFS1";
              Discovery.OutputValue := "new" |}
           Discovery.initial) 1).
  - reflexivity.
  - apply Forall_cons; split; [vm_compute; discriminate|by apply Forall_nil].
Defined.

(** ** The hooks and tests of a suite *)

Section SuiteMore.
Import Discovery Suite Driver.

Variable INTEG_STACK_TAG : string.
Variable region : option string.
Variable unary_plus_is_1 : string → bool.

Local Abbreviation suite := (Suite.suite INTEG_STACK_TAG region unary_plus_is_1).

(** X5: a missing endpoint is not detected: when no output selected slot
    [id] of the endpoint table, the [beforeAll] of the worker tests raises no
    error and sends configure-deadline.sh the text [undefined]. *)
Theorem missing_endpoint_not_detected (outs : list Output) (id : nat) :
  Forall (λ o, selects_endpoint (OutputKey o) ≠ Some id) outs →
  let vars := forEach outs initial in
  beforeAll_configure_deadline id vars
  = Await (bastionId vars)
      {| DocumentName := "AWS-RunShellScript";
         Comment := "Execute Test Script configure-deadline.sh";
         InstanceIds := [bastionId vars];
         commands := ["sudo -i"; "su - ec2-user >/dev/null"; "cd ~ec2-user";
                      "./utilScripts/configure-deadline.sh 'undefined'"] |}.
Proof.
  intros Hnone vars. unfold beforeAll_configure_deadline, vars.
  rewrite forEach_renderQueueEndpoints_untouched by done.
  by rewrite get_empty.
Qed.

(** X6: a suite reads only the host identifier and its own slot of each
    table: on variables that agree there, all its hooks and tests send the
    same commands, whatever was discovered for other suites. *)
Theorem suite_reads_only_its_slots (id : nat) (vars vars' : Vars) :
  bastionId vars = bastionId vars' →
  Js.get (renderQueueEndpoints vars) id = Js.get (renderQueueEndpoints vars') id →
  Js.get (secretARNs vars) id = Js.get (secretARNs vars') id →
  hook_calls vars (setup (suite id)) = hook_calls vars' (setup (suite id))
  ∧ call_of vars <$> tests (suite id) = call_of vars' <$> tests (suite id)
  ∧ hook_calls vars (teardown (suite id)) = hook_calls vars' (teardown (suite id)).
Proof.
  intros Hb Hrq Hcert. unfold hook_calls, call_of. simpl.
  unfold beforeAll_fetch_cert, beforeAll_configure_deadline, afterAll_cleanup_cert.
  by rewrite Hb, Hrq, Hcert.
Qed.

(** X7: every command batch of a suite, from a hook or from a test, is an
    [AWS-RunShellScript] sent to the discovered bastion and to no other
    instance, and is made of the three commands that switch to [ec2-user]
    followed by one script call. *)
Theorem batches_target_the_bastion (id : nat) (vars : Vars) :
  Forall (λ a,
            match a with
            | Throw _ => True
            | Await instanceId params =>
                instanceId = bastionId vars
                ∧ InstanceIds params = [bastionId vars]
                ∧ DocumentName params = "AWS-RunShellScript"
                ∧ ∃ script, commands params
                            = ["sudo -i"; "su - ec2-user >/dev/null"; "cd ~ec2-user"; script]
            end)
    (hook_calls vars (setup (suite id))
       ++ (call_of vars <$> tests (suite id))
       ++ hook_calls vars (teardown (suite id))).
Proof.
  unfold hook_calls, call_of. simpl. unfold beforeAll_fetch_cert.
  destruct (Js.truthy _);
    repeat (apply Forall_cons; split; [try done; by split_and!; try eexists|]);
    by apply Forall_nil.
Qed.

(** X8: an empty secret value counts as no secret: when the last output that
    selects slot [id] of the secret table has the empty string as value, the
    suite's [beforeAll] throws the missing-secret error. *)
Theorem empty_secret_treated_as_missing (before after : list Output) (o : Output)
    (id : nat) :
  selects_secret (OutputKey o) = Some id →
  OutputValue o = "" →
  Forall (λ o', selects_secret (OutputKey o') ≠ Some id) after →
  beforeAll_fetch_cert INTEG_STACK_TAG region id (forEach (before ++ o :: after) initial)
  = Throw ("Did not find a secrect ARN for " +:+ testingStackName INTEG_STACK_TAG).
Proof.
  intros Hsel Hempty Hafter. unfold beforeAll_fetch_cert.
  rewrite forEach_app, forEach_cons, forEach_secretARNs_untouched by done.
  rewrite classify_secretARNs, Hempty. by case_decide.
Qed.

End SuiteMore.

Lemma missing_endpoint_not_detected_witness :
  let vars :=
    Discovery.forEach
      [ {| Discovery.OutputKey := "bastionId"; Discovery.OutputValue := "i-1" |};
        {| Discovery.OutputKey := "CertSecretARNWFS1";
           Discovery.OutputValue := "arn:secret:1" |} ]
      Discovery.initial in
  Suite.beforeAll_configure_deadline 1 vars
  = Suite.Await (Some "i-1")
      {| Suite.DocumentName := "AWS-RunShellScript";
         Suite.Comment := "Execute Test Script configure-deadline.sh";
         Suite.InstanceIds := [Some "i-1"];
         Suite.commands := ["sudo -i"; "su - ec2-user >/dev/null"; "cd ~ec2-user";
                            "./utilScripts/configure-deadline.sh 'undefined'"] |}.
Proof.
  apply (missing_endpoint_not_detected
           [ {| Discovery.OutputKey := "bastionId"; Discovery.OutputValue := "i-1" |};
             {| Discovery.OutputKey := "CertSecretARNWFS1";
                Discovery.OutputValue := "arn:secret:1" |} ] 1).
  repeat (apply Forall_cons; split; [vm_compute; discriminate|]). by apply Forall_nil.
Defined.

Lemma suite_reads_only_its_slots_witness :
  let one :=
    [ {| Discovery.OutputKey := "bastionId"; Discovery.OutputValue := "i-1" |};
      {| Discovery.OutputKey := "renderQueueEndpointWFS1";
         Discovery.OutputValue := "rq1.local:4433" |};
      {| Discovery.OutputKey := "CertSecretARNWFS1";
         Discovery.OutputValue := "arn:secret:1" |} ] in
  let two :=
    [ {| Discovery.OutputKey := "renderQueueEndpointWFS2";
         Discovery.OutputValue := "rq2.local:4433" |};
      {| Discovery.OutputKey := "CertSecretARNWFS2";
         Discovery.OutputValue := "arn:secret:2" |} ] in
  let vars := Discovery.forEach one Discovery.initial in
  let vars' := Discovery.forEach (one ++ two) Discovery.initial in
  let suite := Suite.suite "-tag" (Some "us-west-2") (λ _, true) 1 in
  Driver.hook_calls vars (Suite.setup suite) = Driver.hook_calls vars' (Suite.setup suite)
  ∧ Driver.call_of vars <$> Suite.tests suite = Driver.call_of vars' <$> Suite.tests suite
  ∧ Driver.hook_calls vars (Suite.teardown suite)
    = Driver.hook_calls vars' (Suite.teardown suite).
Proof.
  intros one two vars vars' suite.
  apply (suite_reads_only_its_slots "-tag" (Some "us-west-2") (λ _, true) 1 vars vars');
    reflexivity.
Defined.

Lemma empty_secret_treated_as_missing_witness :
  Suite.beforeAll_fetch_cert "-tag" (Some "us-west-2") 1
    (Discovery.forEach
       ([] ++ {| Discovery.OutputKey := "CertSecretARNWFS1"; Discovery.OutputValue := "" |}
           :: [ {| Discovery.OutputKey := "bastionId"; Discovery.OutputValue := "i-1" |} ])
       Discovery.initial)
  = Suite.Throw ("Did not find a secrect ARN for " +:+ Suite.testingStackName "-tag").
Proof.
  apply (empty_secret_treated_as_missing "-tag" (Some "us-west-2") []
           [ {| Discovery.OutputKey := "bastionId"; Discovery.OutputValue := "i-1" |} ]
           {| Discovery.OutputKey := "CertSecretARNWFS1"; Discovery.OutputValue := "" |} 1).
  - reflexivity.
  - reflexivity.
  - apply Forall_cons; split; [vm_compute; discriminate|by apply Forall_nil].
Defined.

(** ** The stack beyond the claims *)

Section BootMore.
Import TestingTier.

Variables dirname stagePath deadlineVersion : string.
Variable localPath : Asset → string.
Variable toISOString : Duration → string.

Local Abbreviation configure :=
  (configureBastionUserData dirname stagePath deadlineVersion localPath toISOString).

(** X9: [configureBastionUserData] downloads exactly the assets it granted
    the bastion to read, in the same order: the setup scripts, the client
    installer when [installDeadlineClient] is set, the utility scripts and
    the testing scripts; [fetchDocdbCert] adds neither a grant nor an S3
    download. The method leaves outputs and connections as they were. *)
Theorem boot_downloads_are_granted (props : UserDataConfigProps) (this : Stack) :
  let assets :=
    [instanceSetupScripts dirname]
      ++ (if installDeadlineClient props
          then [clientInstaller stagePath deadlineVersion] else [])
      ++ [instanceUtilScripts dirname; testingScripts dirname props] in
  granted (configure props this) = granted this ++ (ReadAsset <$> assets)
  ∧ (∃ cmds,
       userData (configure props this)
       = userData this ++ (AddS3DownloadCommand <$> assets)
           ++ [AddCommands cmds; AddSignalOnExitCommand])
  ∧ outputs (configure props this) = outputs this
  ∧ allowed (configure props this) = allowed this.
Proof.
  destruct props as [[] fetch path]; unfold configureBastionUserData; simpl;
    rewrite <-!(assoc_L (++)); simpl; (split_and!; [done| |done..]);
    by eexists.
Qed.

(** X10: no downloaded archive is left behind: for every configuration, each
    asset the method downloads is first used (unzipped, or copied in the case
    of the client installer) and later removed with [rm -f]. *)
Theorem downloads_are_removed (props : UserDataConfigProps) (this : Stack) :
  ∃ downloads cmds,
    userData (configure props this)
    = userData this ++ downloads ++ [AddCommands cmds; AddSignalOnExitCommand]
    ∧ ∀ c, c ∈ downloads →
        ∃ a i j,
          c = AddS3DownloadCommand a
          ∧ i < j
          ∧ (cmds !! i = Some ("unzip " +:+ localPath a)
             ∨ cmds !! i
               = Some ("cp " +:+ localPath a +:+ " ./deadline-client-installer.run"))
          ∧ cmds !! j = Some ("rm -f " +:+ localPath a).
Proof.
  destruct props as [[] [] path]; unfold configureBastionUserData; simpl;
    rewrite <-!(assoc_L (++)); simpl.
  1, 2: eexists [_; _; _; _], _; (split; [reflexivity|]);
    intros c Hc; repeat (apply elem_of_cons in Hc as [->|Hc]);
    [ eexists _, 3, 10 | eexists _, 6, 9 | eexists _, 14, 16 | eexists _, 20, 22
    | by apply elem_of_nil in Hc ];
    (split_and!; [reflexivity | lia | first [by left | by right] | reflexivity]).
  all: eexists [_; _; _], _; (split; [reflexivity|]);
    intros c Hc; repeat (apply elem_of_cons in Hc as [->|Hc]);
    [ eexists _, 3, 6 | eexists _, 10, 12 | eexists _, 16, 18
    | by apply elem_of_nil in Hc ];
    (split_and!; [reflexivity | lia | first [by left | by right] | reflexivity]).
Qed.

End BootMore.

Section StackMore.
Import TestingTier SuiteOutputs.

(** X11: [configureWorkerFleet] opens port 22, and nothing else, from the
    bastion to every worker fleet it is given, in the order of the array, and
    changes nothing else of the stack; with no fleet it changes nothing. *)
Theorem worker_fleet_opens_ssh_only (workerFleet : list IWorkerFleet) (this : Stack) :
  allowed (configureWorkerFleet workerFleet this)
  = allowed this ++ ((λ worker, (ToWorkerFleet worker, Tcp 22)) <$> workerFleet)
  ∧ outputs (configureWorkerFleet workerFleet this) = outputs this
  ∧ granted (configureWorkerFleet workerFleet this) = granted this
  ∧ creationPolicy (configureWorkerFleet workerFleet this) = creationPolicy this
  ∧ userData (configureWorkerFleet workerFleet this) = userData this
  ∧ configureWorkerFleet [] this = this.
Proof.
  unfold configureWorkerFleet. split_and!; [..|done]; revert this;
    induction workerFleet as [|w fleet IH]; intros this; simpl;
    rewrite ?app_nil_r; try done; rewrite IH; simpl; try done.
  by rewrite <-(assoc_L (++)).
Qed.

Lemma created_keys code index renderQueue cert key :
  key ∈ (created code index renderQueue cert).*1 →
  key = "renderQueueEndpoint" +:+ testSuiteId code index
  ∨ key = "certSecretARN" +:+ testSuiteId code index.
Proof.
  unfold created. destruct cert; simpl; rewrite ?elem_of_cons, ?elem_of_nil; tauto.
Qed.

Lemma testSuiteId_inj code (i j : Z) : testSuiteId code i = testSuiteId code j → i = j.
Proof. unfold testSuiteId. apply suite_id_inj. Qed.

Lemma created_NoDup code index renderQueue cert :
  NoDup (created code index renderQueue cert).*1.
Proof.
  unfold created. destruct cert; simpl.
  - apply NoDup_cons. split; [|apply NoDup_singleton].
    rewrite list_elem_of_singleton. discriminate.
  - apply NoDup_singleton.
Qed.

(** The keys created for the structs of a list, numbered from [n] on, are
    pairwise different. *)
Lemma created_all_NoDup {A} (rqOf : A → RenderQueue) (certOf : A → option X509CertificatePem)
    (code : string) (l : list A) (n : nat) :
  NoDup (mjoin (imap (λ k x, created code (Z.of_nat (n + k)) (rqOf x) (certOf x)) l)).*1
  ∧ ∀ key, key ∈ (mjoin (imap (λ k x, created code (Z.of_nat (n + k)) (rqOf x) (certOf x))
                           l)).*1 →
           ∃ j, n ≤ j ∧ (key = "renderQueueEndpoint" +:+ testSuiteId code (Z.of_nat j)
                         ∨ key = "certSecretARN" +:+ testSuiteId code (Z.of_nat j)).
Proof.
  revert n. induction l as [|x l IH]; intros n.
  { split; [constructor|]. by intros key ?%elem_of_nil. }
  rewrite imap_cons.
  change (mjoin (?a :: ?b)) with (a ++ mjoin b). rewrite fmap_app.
  assert (imap ((λ k y, created code (Z.of_nat (n + k)) (rqOf y) (certOf y)) ∘ S) l
          = imap (λ k y, created code (Z.of_nat (S n + k)) (rqOf y) (certOf y)) l) as ->.
  { apply imap_ext. intros k y _. simpl. by replace (n + S k) with (S n + k) by lia. }
  destruct (IH (S n)) as [IHnodup IHkeys].
  replace (n + 0) with n by lia. split.
  - apply NoDup_app. split_and!; [apply created_NoDup| |done].
    intros key Hhere%created_keys (j & Hj & Hthere)%IHkeys.
    destruct Hhere as [-> | ->], Hthere as [Heq|Heq];
      try discriminate Heq;
      [apply (append_inj_l "renderQueueEndpoint") in Heq
      |apply (append_inj_l "certSecretARN") in Heq];
      apply testSuiteId_inj in Heq; lia.
  - intros key [Hhere%created_keys|(j & Hj & Hthere)%IHkeys]%elem_of_app.
    + exists n. split; [lia|done].
    + exists j. split; [lia|done].
Qed.

End StackMore.

Section SuitesOfTheStack.
Import TestingTier SuiteOutputs.

Variables dirname stagePath deadlineVersion : string.
Variable localPath : Asset → string.
Variable toISOString : Duration → string.

Local Abbreviation configureRenderQueueTest :=
  (TestingTier.configureRenderQueueTest dirname stagePath deadlineVersion localPath
     toISOString).
Local Abbreviation configureWorkerFleetTest :=
  (TestingTier.configureWorkerFleetTest dirname stagePath deadlineVersion localPath
     toISOString).

Lemma render_each_outputs structs this x :
  outputs (configureRenderQueueTest_each structs this x)
  = outputs this
    ++ created "RQ" (indexOf RenderStruct.ref structs x) (RenderStruct.renderQueue x)
         (RenderStruct.cert x).
Proof.
  unfold configureRenderQueueTest_each, created, testSuiteId.
  destruct (RenderStruct.cert x); simpl; by rewrite <-?(assoc_L (++)).
Qed.

Lemma worker_each_outputs structs this x :
  outputs (configureWorkerFleetTest_each structs this x)
  = outputs this
    ++ created "WF" (indexOf WorkerStruct.ref structs x) (WorkerStruct.renderQueue x)
         (WorkerStruct.cert x).
Proof.
  unfold configureWorkerFleetTest_each, created, testSuiteId.
  rewrite configureWorkerFleet_outputs.
  destruct (WorkerStruct.cert x); simpl; by rewrite <-?(assoc_L (++)).
Qed.

(** The outputs after the iterations over the structs at positions [n],
    [n+1], ... of an array of distinct objects. *)
Lemma foldl_each_outputs {A} (ref : A → nat) (rqOf : A → RenderQueue)
    (certOf : A → option X509CertificatePem) (code : string)
    (each : list A → Stack → A → Stack) (structs : list A) :
  (∀ this x, outputs (each structs this x)
             = outputs this ++ created code (indexOf ref structs x) (rqOf x) (certOf x)) →
  NoDup (ref <$> structs) →
  ∀ (l : list A) (n : nat) (this : Stack),
    (∀ k x, l !! k = Some x → structs !! (n + k) = Some x) →
    outputs (foldl (each structs) this l)
    = outputs this
      ++ mjoin (imap (λ k x, created code (Z.of_nat (n + k)) (rqOf x) (certOf x)) l).
Proof.
  intros Heach Hnodup. induction l as [|x l IH]; intros n this Hl.
  { simpl. by rewrite app_nil_r. }
  simpl foldl. rewrite (IH (S n)).
  - rewrite Heach, imap_cons, <-(assoc_L (++)).
    change (mjoin (?a :: ?b)) with (a ++ mjoin b).
    rewrite (indexOf_lookup ref structs (n + 0) x Hnodup (Hl 0 x eq_refl)).
    do 3 f_equal. apply imap_ext. intros k y _. simpl.
    by replace (n + S k) with (S n + k) by lia.
  - intros k y Hk. replace (S n + k) with (n + S k) by lia. by apply Hl.
Qed.

(** X12: on an array of distinct structs, [configureWorkerFleetTest] adds to
    the outputs, for the struct at position [j] and in this order, the
    output [renderQueueEndpointWF<j+1>] with the value [<address>:<port>] and,
    when the struct has a certificate, the output [certSecretARNWF<j+1>];
    the keys it adds are pairwise different. *)
Theorem worker_fleet_suites_outputs (structs : list WorkerStruct.t) (this : Stack) :
  NoDup (WorkerStruct.ref <$> structs) →
  let added :=
    mjoin (imap (λ j s, created "WF" (Z.of_nat j) (WorkerStruct.renderQueue s)
                          (WorkerStruct.cert s)) structs) in
  outputs (configureWorkerFleetTest structs this) = outputs this ++ added
  ∧ NoDup added.*1.
Proof.
  intros Hnodup added. split.
  - unfold TestingTier.configureWorkerFleetTest.
    rewrite configureBastionUserData_outputs.
    by rewrite (foldl_each_outputs WorkerStruct.ref WorkerStruct.renderQueue
                  WorkerStruct.cert "WF" configureWorkerFleetTest_each structs
                  (worker_each_outputs structs) Hnodup structs 0 this).
  - apply (created_all_NoDup WorkerStruct.renderQueue WorkerStruct.cert "WF" structs 0).
Qed.

(** X13: on an array of distinct structs, [configureRenderQueueTest] adds to
    the outputs, for the struct at position [j] and in this order, the
    output [renderQueueEndpointRQ<j+1>] with the value [<address>:<port>] and,
    when the struct has a certificate, the output [certSecretARNRQ<j+1>];
    the keys it adds are pairwise different. *)
Theorem render_queue_suites_outputs (structs : list RenderStruct.t) (this : Stack) :
  NoDup (RenderStruct.ref <$> structs) →
  let added :=
    mjoin (imap (λ j s, created "RQ" (Z.of_nat j) (RenderStruct.renderQueue s)
                          (RenderStruct.cert s)) structs) in
  outputs (configureRenderQueueTest structs this) = outputs this ++ added
  ∧ NoDup added.*1.
Proof.
  intros Hnodup added. split.
  - unfold TestingTier.configureRenderQueueTest.
    rewrite configureBastionUserData_outputs.
    by rewrite (foldl_each_outputs RenderStruct.ref RenderStruct.renderQueue
                  RenderStruct.cert "RQ" configureRenderQueueTest_each structs
                  (render_each_outputs structs) Hnodup structs 0 this).
  - apply (created_all_NoDup RenderStruct.renderQueue RenderStruct.cert "RQ" structs 0).
Qed.

End SuitesOfTheStack.

(** ** What the test discovers of the stack *)

Section DigitsOnly.
Import Deployed.

Lemma pretty_N_char_is_digit (x : N) : Js.is_digit (pretty_N_char x) = true.
Proof. unfold pretty_N_char. by repeat case_match. Qed.

Lemma pretty_N_go_all_digits (x : N) (s : string) :
  all_digits s = true → all_digits (pretty_N_go x s) = true.
Proof.
  revert s. induction (N.lt_wf_0 x) as [x _ IH]; intros s Hs.
  assert (x = 0 ∨ 0 < x)%N as [->|Hx] by lia.
  - by rewrite pretty_N_go_0.
  - rewrite pretty_N_go_step by done. apply IH.
    + by apply N.div_lt.
    + simpl. by rewrite pretty_N_char_is_digit.
Qed.

(** The decimal text of a number that is not negative is made of digits. *)
Lemma pretty_Z_all_digits (z : Z) : (0 ≤ z)%Z → all_digits (pretty z) = true.
Proof.
  destruct z as [|p|p]; [done| |lia]. intros _.
  unfold pretty, pretty_Z, pretty, pretty_positive, pretty, pretty_N.
  case_decide; [done|]. by apply pretty_N_go_all_digits.
Qed.

Lemma digit_not_letter (c d : ascii) :
  Js.is_digit c = false → Js.is_digit d = true → Ascii.eqb c d = false.
Proof.
  intros Hc Hd. destruct (Ascii.eqb c d) eqn:Heq; [|done].
  apply Ascii.eqb_eq in Heq as ->. congruence.
Qed.

(** A literal that starts with a character other than a digit does not
    occur in a string of digits, with or without a digit after it. *)
Lemma starts_with_digits (c : ascii) (lit ds : string) :
  Js.is_digit c = false → all_digits ds = true →
  Js.starts_with (String c lit) ds = false.
Proof.
  intros Hc Hds. destruct ds as [|d ds]; simpl; [done|].
  simpl in Hds. apply andb_prop in Hds as [Hd _].
  by rewrite (digit_not_letter c d).
Qed.

Lemma test_literal_digits (c : ascii) (lit ds : string) :
  Js.is_digit c = false → all_digits ds = true →
  Js.test_literal (String c lit) ds = false.
Proof.
  intros Hc. induction ds as [|d ds IH]; intros Hds; [done|].
  change (Js.test_literal (String c lit) (String d ds))
    with (if Js.starts_with (String c lit) (String d ds) then true
          else Js.test_literal (String c lit) ds).
  rewrite starts_with_digits by done.
  simpl in Hds. apply andb_prop in Hds as [_ Hds]. by apply IH.
Qed.

Lemma starts_with_digit_digits (c : ascii) (lit ds : string) :
  Js.is_digit c = false → all_digits ds = true →
  Js.starts_with_digit (String c lit) ds = None.
Proof.
  intros Hc Hds. destruct ds as [|d ds]; simpl; [done|].
  simpl in Hds. apply andb_prop in Hds as [Hd _].
  by rewrite (digit_not_letter c d).
Qed.

Lemma exec_literal_digit_digits (c : ascii) (lit ds : string) :
  Js.is_digit c = false → all_digits ds = true →
  Js.exec_literal_digit (String c lit) ds = None.
Proof.
  intros Hc. induction ds as [|d ds IH]; intros Hds; [done|].
  change (Js.exec_literal_digit (String c lit) (String d ds))
    with (match Js.starts_with_digit (String c lit) (String d ds) with
          | Some x => Some x
          | None => Js.exec_literal_digit (String c lit) ds
          end).
  rewrite starts_with_digit_digits by done.
  simpl in Hds. apply andb_prop in Hds as [_ Hds]. by apply IH.
Qed.

End DigitsOnly.

Section DigitSuffix.
Import Deployed Discovery.

Lemma append_assoc (a b c : string) : (a +:+ b) +:+ c = a +:+ b +:+ c.
Proof. induction a as [|x a IH]; [done|]. exact (f_equal (String x) IH). Qed.

(** A literal without digits starts a string that ends in digits only if
    it starts the part before the digits. *)
Lemma starts_with_digit_suffix (lit q ds : string) :
  no_digits lit = true → all_digits ds = true →
  Js.starts_with lit (q +:+ ds) = Js.starts_with lit q.
Proof.
  intros Hlit Hds. revert q. induction lit as [|a lit IH]; intros q; [done|].
  simpl in Hlit. apply andb_prop in Hlit as [Ha%negb_true_iff Hlit].
  destruct q as [|b q].
  - change ("" +:+ ds) with ds. by rewrite starts_with_digits.
  - simpl. destruct (Ascii.eqb a b); [by apply IH|done].
Qed.

(** Such a literal occurs in the whole string only if it occurs before the
    digits. *)
Lemma test_literal_digit_suffix (a : ascii) (lit p ds : string) :
  no_digits (String a lit) = true → all_digits ds = true →
  Js.test_literal (String a lit) (p +:+ ds) = Js.test_literal (String a lit) p.
Proof.
  intros Hlit Hds.
  pose proof Hlit as [Ha%negb_true_iff _]%andb_prop.
  induction p as [|c p IH].
  - change ("" +:+ ds) with ds. by rewrite test_literal_digits.
  - change (String c p +:+ ds) with (String c (p +:+ ds)).
    change (Js.test_literal (String a lit) (String c (p +:+ ds)))
      with (if Js.starts_with (String a lit) (String c (p +:+ ds)) then true
            else Js.test_literal (String a lit) (p +:+ ds)).
    change (Js.test_literal (String a lit) (String c p))
      with (if Js.starts_with (String a lit) (String c p) then true
            else Js.test_literal (String a lit) p).
    change (String c (p +:+ ds)) with (String c p +:+ ds).
    by rewrite starts_with_digit_suffix, IH.
Qed.

Lemma starts_with_digit_starts (lit s : string) (d : ascii) :
  Js.starts_with_digit lit s = Some d → Js.starts_with lit s = true.
Proof.
  revert s. induction lit as [|a lit IH]; intros [|b s]; simpl; try done.
  destruct (Ascii.eqb a b); [apply IH|done].
Qed.

(** Where [exec] finds a match, the literal occurs. *)
Lemma exec_literal_digit_test (lit s : string) (d : ascii) :
  Js.exec_literal_digit lit s = Some d → Js.test_literal lit s = true.
Proof.
  induction s as [|c s IH]; simpl.
  - destruct (Js.starts_with_digit lit "") eqn:Hs; [|done].
    intros _. by rewrite (starts_with_digit_starts _ _ _ Hs).
  - destruct (Js.starts_with_digit lit (String c s)) eqn:Hs.
    + intros _. by rewrite (starts_with_digit_starts _ _ _ Hs).
    + intros ->%IH. by destruct (Js.starts_with lit (String c s)).
Qed.

(** A key made of a text in which none of the three literals occurs,
    followed by digits, is not recognized. *)
Lemma digit_suffix_unrecognized (p ds : string) :
  all_digits ds = true →
  Js.test_literal "bastionId" p = false →
  Js.test_literal "renderQueueEndpointWFS" p = false →
  Js.test_literal "CertSecretARNWFS" p = false →
  unrecognized (p +:+ ds).
Proof.
  intros Hds Hb Hrq Hcert. split_and!.
  - unfold bastionRegex_test. by rewrite test_literal_digit_suffix.
  - apply rq_test_false. unfold rqRegex_exec.
    destruct (Js.exec_literal_digit _ _) as [d|] eqn:Hd; [|done].
    apply exec_literal_digit_test in Hd.
    rewrite test_literal_digit_suffix in Hd by done. congruence.
  - apply cert_test_false. unfold certRegex_exec.
    destruct (Js.exec_literal_digit _ _) as [d|] eqn:Hd; [|done].
    apply exec_literal_digit_test in Hd.
    rewrite test_literal_digit_suffix in Hd by done. congruence.
Qed.

Lemma unrecognized_classify vars o :
  unrecognized (OutputKey o) → classify vars o = vars.
Proof. intros (Hb & Hrq & Hcert). unfold classify. by rewrite Hb, Hrq, Hcert. Qed.

Lemma unrecognized_forEach outs vars :
  Forall (λ o, unrecognized (OutputKey o)) outs → forEach outs vars = vars.
Proof.
  intros Hall. revert vars. induction Hall as [|o outs Ho _ IH]; intros vars; [done|].
  by rewrite forEach_cons, unrecognized_classify, IH.
Qed.

End DigitSuffix.

Section StackDiscovery.
Import TestingTier SuiteOutputs Deployed Discovery.

Variables dirname stagePath deadlineVersion : string.
Variable localPath : Asset → string.
Variable toISOString : Duration → string.

Local Abbreviation configureRenderQueueTest :=
  (TestingTier.configureRenderQueueTest dirname stagePath deadlineVersion localPath
     toISOString).
Local Abbreviation configureWorkerFleetTest :=
  (TestingTier.configureWorkerFleetTest dirname stagePath deadlineVersion localPath
     toISOString).

Lemma indexOf_ge {A} (ref : A → nat) (structs : list A) (x : A) :
  (-1 ≤ indexOf ref structs x)%Z.
Proof. unfold indexOf. destruct (list_find _ _) as [[i y]|]; lia. Qed.

(** The keys of the suites [RQ<n>] and [WF<n>] are not recognized by the
    test. *)
Lemma created_unrecognized code index renderQueue cert :
  code = "WF" ∨ code = "RQ" → (-1 ≤ index)%Z →
  Forall (λ kv, unrecognized kv.1) (created code index renderQueue cert).
Proof.
  intros Hcode Hindex.
  assert (all_digits (pretty (index + 1)%Z) = true) as Hds.
  { apply pretty_Z_all_digits. lia. }
  assert (unrecognized ("renderQueueEndpoint" +:+ testSuiteId code index)) as Hrq.
  { unfold testSuiteId. rewrite <-append_assoc.
    by destruct Hcode as [-> | ->]; apply digit_suffix_unrecognized. }
  assert (unrecognized ("certSecretARN" +:+ testSuiteId code index)) as Hcert.
  { unfold testSuiteId. rewrite <-append_assoc.
    by destruct Hcode as [-> | ->]; apply digit_suffix_unrecognized. }
  unfold created. destruct cert; repeat (apply Forall_cons; split; [done|]);
    by apply Forall_nil.
Qed.

Lemma foldl_each_unrecognized {A} (ref : A → nat) (rqOf : A → RenderQueue)
    (certOf : A → option X509CertificatePem) (code : string)
    (each : list A → Stack → A → Stack) (structs : list A) :
  code = "WF" ∨ code = "RQ" →
  (∀ this x, outputs (each structs this x)
             = outputs this ++ created code (indexOf ref structs x) (rqOf x) (certOf x)) →
  ∀ (l : list A) (this : Stack),
    ∃ extra, outputs (foldl (each structs) this l) = outputs this ++ extra
             ∧ Forall (λ kv, unrecognized kv.1) extra.
Proof.
  intros Hcode Heach. induction l as [|x l IH]; intros this.
  { exists []. by rewrite app_nil_r. }
  destruct (IH (each structs this x)) as (extra & Hout & Hextra).
  exists (created code (indexOf ref structs x) (rqOf x) (certOf x) ++ extra).
  simpl foldl. rewrite Hout, Heach, <-(assoc_L (++)). split; [done|].
  apply Forall_app. split; [|done].
  apply created_unrecognized; [done|apply indexOf_ge].
Qed.

(** Discovery over any ordering of outputs of which one is [bastionId] and
    the others are not recognized. *)
Lemma forEach_only_bastion (instanceId : string) (extra : list (string * string))
    (outs : list Output) :
  Forall (λ kv, unrecognized kv.1) extra →
  outs ≡ₚ {| OutputKey := "bastionId"; OutputValue := instanceId |}
            :: ((λ kv, {| OutputKey := kv.1; OutputValue := kv.2 |}) <$> extra) →
  forEach outs initial
  = {| bastionId := Some instanceId; renderQueueEndpoints := []; secretARNs := [] |}.
Proof.
  intros Hextra Hperm.
  apply Permutation_cons_inv_r in Hperm as (l1 & l2 & -> & Hrest).
  assert (Forall (λ o, unrecognized (OutputKey o)) (l1 ++ l2)) as [H1 H2]%Forall_app.
  { rewrite <-Hrest. apply Forall_fmap. by apply (Forall_impl _ _ _ Hextra). }
  rewrite forEach_app, forEach_cons.
  by rewrite (unrecognized_forEach l1), (unrecognized_forEach l2).
Qed.

(** X14: the test finds the bastion of a stack built by
    [configureWorkerFleetTest] or [configureRenderQueueTest], and nothing
    else: whatever the order in which the outputs are reported, discovery
    sets [bastionId] to the instance id given to the [bastionId] output, and
    both tables stay empty, because the suite codes [WF] and [RQ] are not the
    code [WFS] of the patterns and [certSecretARN] is not [CertSecretARN]. *)
Theorem stack_discovery_finds_bastion_only (instanceId : string) (this : Stack)
    (workers : list WorkerStruct.t) (renders : list RenderStruct.t)
    (outs : list Output) :
  outputs this = [] →
  outs ≡ₚ Outputs (configureWorkerFleetTest workers (bastionOutput instanceId this))
  ∨ outs ≡ₚ Outputs (configureRenderQueueTest renders (bastionOutput instanceId this)) →
  forEach outs initial
  = {| bastionId := Some instanceId; renderQueueEndpoints := []; secretARNs := [] |}.
Proof.
  intros Hempty [Hperm|Hperm].
  - destruct (foldl_each_unrecognized WorkerStruct.ref WorkerStruct.renderQueue
                WorkerStruct.cert "WF" configureWorkerFleetTest_each workers
                (or_introl eq_refl) (worker_each_outputs workers) workers
                (bastionOutput instanceId this)) as (extra & Hout & Hextra).
    apply (forEach_only_bastion instanceId extra outs Hextra).
    rewrite Hperm. unfold Outputs, TestingTier.configureWorkerFleetTest.
    rewrite configureBastionUserData_outputs, Hout. simpl. by rewrite Hempty.
  - destruct (foldl_each_unrecognized RenderStruct.ref RenderStruct.renderQueue
                RenderStruct.cert "RQ" configureRenderQueueTest_each renders
                (or_intror eq_refl) (render_each_outputs renders) renders
                (bastionOutput instanceId this)) as (extra & Hout & Hextra).
    apply (forEach_only_bastion instanceId extra outs Hextra).
    rewrite Hperm. unfold Outputs, TestingTier.configureRenderQueueTest.
    rewrite configureBastionUserData_outputs, Hout. simpl. by rewrite Hempty.
Qed.

End StackDiscovery.

(** ** The repository test *)

Section RepositoryTest.
Import TestingTier Deployed RepositoryTier.

Variables dirname stagePath deadlineVersion : string.
Variable localPath : Asset → string.
Variable toISOString : Duration → string.
Variable USER_ACCEPTS_SSPL_FOR_RFDK_TESTS : option string.

Local Abbreviation configureRepositoryTest :=
  (RepositoryTier.configureRepositoryTest dirname stagePath deadlineVersion localPath
     toISOString USER_ACCEPTS_SSPL_FOR_RFDK_TESTS).

Lemma toLowerCase_digits (ds : string) : all_digits ds = true → toLowerCase ds = ds.
Proof.
  induction ds as [|d ds IH]; simpl; [done|].
  intros [Hd Hds]%andb_prop. rewrite IH by done. f_equal.
  apply is_digit_cases in Hd. simpl in Hd.
  by repeat (destruct Hd as [<-|Hd]).
Qed.

Lemma toLowerCase_suite (index : Z) :
  (-1 ≤ index)%Z →
  toLowerCase ("DL" +:+ pretty (index + 1)%Z) = "dl" +:+ pretty (index + 1)%Z.
Proof.
  intros Hindex.
  change (toLowerCase ("DL" +:+ pretty (index + 1)%Z))
    with ("dl" +:+ toLowerCase (pretty (index + 1)%Z)).
  rewrite toLowerCase_digits; [done|]. apply pretty_Z_all_digits. lia.
Qed.

(** One iteration on a struct that has a log group and a secret. *)
Lemma each_complete structs this s :
  complete s →
  ∃ this', configureRepositoryTest_each structs this s = inr this'
           ∧ outputs (stack this')
             = outputs (stack this) ++ created (indexOf ref structs s) s
           ∧ calls this' = calls this ++ made (indexOf ref structs s) s.
Proof.
  intros [[logGroup Hlog] [dbSecret Hsecret]].
  unfold configureRepositoryTest_each, configureRepo, configureDatabase, created, made.
  rewrite Hlog, Hsecret, toLowerCase_suite by apply indexOf_ge.
  eexists. split; [reflexivity|].
  unfold SuiteOutputs.testSuiteId. simpl. split.
  - destruct (cert (database s)); simpl; by rewrite <-!(assoc_L (++)).
  - by rewrite <-!(assoc_L (++)).
Qed.

(** One iteration on a struct that lacks one of them. *)
Lemma each_incomplete structs this s :
  ¬ complete s → ∃ thrown, configureRepositoryTest_each structs this s = inl thrown.
Proof.
  intros Hs. unfold configureRepositoryTest_each, configureRepo, configureDatabase.
  destruct (RepositoryLogGroup (repo s)) as [logGroup|] eqn:Hlog; [|by eexists].
  destruct (secret (database s)) as [dbSecret|] eqn:Hsecret; [|by eexists].
  destruct Hs. split; by eexists.
Qed.

Lemma complete_dec (s : StorageStruct) : complete s ∨ ¬ complete s.
Proof.
  unfold complete.
  destruct (RepositoryLogGroup (repo s)), (secret (database s));
    first [left; split; by eexists | right; intros [[? ?] [? ?]]; done].
Qed.

Lemma forEach_success structs (l : list StorageStruct) (this : Tier) :
  (∃ this', forEach (configureRepositoryTest_each structs) l this = inr this')
  ↔ Forall complete l.
Proof.
  revert this. induction l as [|s l IH]; intros this; simpl.
  { split; [constructor|by eexists]. }
  destruct (complete_dec s) as [Hs|Hs].
  - destruct (each_complete structs this s Hs) as (this1 & -> & _).
    rewrite IH. split; [by constructor|by intros [_ ?]%Forall_cons].
  - destruct (each_incomplete structs this s Hs) as (thrown & ->).
    split; [by intros [? ?]|by intros [? _]%Forall_cons].
Qed.

Lemma configureMongodb_success (this : Tier) :
  (∃ this', configureMongodb USER_ACCEPTS_SSPL_FOR_RFDK_TESTS this = inr this')
  ↔ licence_settled USER_ACCEPTS_SSPL_FOR_RFDK_TESTS.
Proof.
  unfold configureMongodb, licence_settled.
  destruct (Js.truthy _) eqn:Htruthy.
  - destruct USER_ACCEPTS_SSPL_FOR_RFDK_TESTS as [text|]; [|done]. simpl.
    destruct (String.eqb text "true") eqn:Htext; simpl.
    + apply String.eqb_eq in Htext as ->. split; [by right|by eexists].
    + apply String.eqb_neq in Htext.
      split; [by intros [? ?]|]. intros [?|[= ?]]; done.
  - split; [by left|by eexists].
Qed.

(** X15: on an array of distinct structs, [configureRepositoryTest]
    completes exactly when every repository has the child
    [RepositoryLogGroup], every database has a secret, and
    [USER_ACCEPTS_SSPL_FOR_RFDK_TESTS] is unset, empty or the text [true];
    otherwise the method throws. *)
Theorem repository_test_completes_iff (structs : list StorageStruct) (this : Tier) :
  NoDup (ref <$> structs) →
  (∃ this', configureRepositoryTest structs this = inr this')
  ↔ Forall complete structs ∧ licence_settled USER_ACCEPTS_SSPL_FOR_RFDK_TESTS.
Proof.
  intros _. unfold RepositoryTier.configureRepositoryTest.
  rewrite <-(forEach_success structs structs this).
  destruct (forEach _ structs this) as [thrown|this1].
  - split; [by intros [? ?]|by intros [[? ?] _]].
  - rewrite configureMongodb_success. split; [|by intros [_ ?]].
    intros ?. split; [by eexists|done].
Qed.

Lemma forEach_effects structs :
  NoDup (ref <$> structs) →
  ∀ (l : list StorageStruct) (n : nat) (this this' : Tier),
    (∀ k x, l !! k = Some x → structs !! (n + k) = Some x) →
    forEach (configureRepositoryTest_each structs) l this = inr this' →
    outputs (stack this')
    = outputs (stack this) ++ mjoin (imap (λ k s, created (Z.of_nat (n + k)) s) l)
    ∧ calls this' = calls this ++ mjoin (imap (λ k s, made (Z.of_nat (n + k)) s) l).
Proof.
  intros Hnodup. induction l as [|s l IH]; intros n this this' Hl; simpl forEach.
  { intros [= <-]. simpl. by rewrite !app_nil_r. }
  destruct (complete_dec s) as [Hs|Hs].
  - destruct (each_complete structs this s Hs) as (this1 & -> & Hout & Hcalls).
    intros Hrest. apply (IH (S n)) in Hrest as [Hout' Hcalls'].
    + rewrite Hout', Hcalls', Hout, Hcalls, !imap_cons, <-!(assoc_L (++)).
      change (mjoin (?a :: ?b)) with (a ++ mjoin b).
      rewrite (indexOf_lookup ref structs (n + 0) s Hnodup (Hl 0 s eq_refl)).
      split; do 3 f_equal; apply imap_ext; intros k y _; simpl;
        by replace (n + S k) with (S n + k) by lia.
    + intros k y Hk. replace (S n + k) with (n + S k) by lia. by apply Hl.
  - by destruct (each_incomplete structs this s Hs) as (thrown & ->).
Qed.

(** X16: when [configureRepositoryTest] completes on an array of distinct
    structs, it has added, for the struct at position [j] and in this order:
    the outputs [logGroupNameDL<j+1>], [secretARNDL<j+1>] and, with a
    certificate, [certSecretARNDL<j+1>]; and the calls that mount the
    repository's file system at [/mnt/efs/fsdl<j+1>] (the identifier in lower
    case), open port 27017 to the database and the default port to the EFS.
    After all of them comes the installation of MongoDB, with the licence
    accepted, when the environment variable is the text [true]; nothing is
    installed when it is unset or empty, and these are the only values with
    which the method completes. *)
Theorem repository_suites_effects (structs : list StorageStruct) (this this' : Tier) :
  NoDup (ref <$> structs) →
  configureRepositoryTest structs this = inr this' →
  outputs (stack this')
  = outputs (stack this) ++ mjoin (imap (λ j s, created (Z.of_nat j) s) structs)
  ∧ calls this'
    = calls this ++ mjoin (imap (λ j s, made (Z.of_nat j) s) structs)
      ++ (if Js.truthy USER_ACCEPTS_SSPL_FOR_RFDK_TESTS
          then [InstallMongoDb USER_ACCEPTS_SSPL] else [])
  ∧ licence_settled USER_ACCEPTS_SSPL_FOR_RFDK_TESTS.
Proof.
  intros Hnodup. unfold RepositoryTier.configureRepositoryTest.
  destruct (forEach _ structs this) as [thrown|this1] eqn:Hloop; [done|].
  intros Hmongo.
  apply (forEach_effects structs Hnodup structs 0 this this1) in Hloop as [Hout Hcalls];
    [|done].
  assert (licence_settled USER_ACCEPTS_SSPL_FOR_RFDK_TESTS) as Hsettled.
  { eapply configureMongodb_success. by eexists. }
  split_and!; [| |done]; revert Hmongo; unfold configureMongodb.
  - destruct Hsettled as [->| ->]; intros [= <-]; unfold called, on_stack;
      cbn [stack calls]; by rewrite configureBastionUserData_outputs, Hout.
  - destruct Hsettled as [->| ->]; intros [= <-]; unfold called, on_stack;
      cbn [stack calls Js.truthy]; by rewrite Hcalls, <-?(assoc_L (++)), ?app_nil_r.
Qed.

End RepositoryTest.

(** The properties with a precondition, on small stacks. *)

Lemma worker_fleet_suites_outputs_witness :
  let renderQueue :=
    {| TestingTier.endpoint :=
         {| TestingTier.hostname := "rq.example"; TestingTier.portAsString := "4433" |};
       TestingTier.stackName := "Farm" |} in
  let structs :=
    [ {| TestingTier.WorkerStruct.ref := 0;
         TestingTier.WorkerStruct.renderQueue := renderQueue;
         TestingTier.WorkerStruct.cert :=
           Some {| TestingTier.cert := {| TestingTier.secretArn := "arn:secret:1" |} |};
         TestingTier.WorkerStruct.workerFleet := [] |};
      {| TestingTier.WorkerStruct.ref := 1;
         TestingTier.WorkerStruct.renderQueue := renderQueue;
         TestingTier.WorkerStruct.cert := None;
         TestingTier.WorkerStruct.workerFleet := [] |} ] in
  let this :=
    {| TestingTier.outputs := [("bastionId", "i-1")]; TestingTier.granted := [];
       TestingTier.allowed := []; TestingTier.creationPolicy := None;
       TestingTier.userData := [] |} in
  TestingTier.outputs
    (TestingTier.configureWorkerFleetTest "/integ/lib" "/stage" "10.1.9.2"
       (λ a, "/tmp/" +:+ TestingTier.assetId a) (λ _, "PT5M") structs this)
  = [("bastionId", "i-1");
     ("renderQueueEndpointWF1", "renderqueue.Farm.local:4433");
     ("certSecretARNWF1", "arn:secret:1");
     ("renderQueueEndpointWF2", "renderqueue.Farm.local:4433")].
Proof.
  intros renderQueue structs this.
  apply (proj1 (worker_fleet_suites_outputs "/integ/lib" "/stage" "10.1.9.2"
                  (λ a, "/tmp/" +:+ TestingTier.assetId a) (λ _, "PT5M") structs this
                  ltac:(apply (bool_decide_unpack _); vm_compute; reflexivity))).
Defined.

Lemma render_queue_suites_outputs_witness :
  let structs :=
    [ {| TestingTier.RenderStruct.ref := 7;
         TestingTier.RenderStruct.renderQueue :=
           {| TestingTier.endpoint :=
                {| TestingTier.hostname := "rq.example";
                   TestingTier.portAsString := "8080" |};
              TestingTier.stackName := "Farm" |};
         TestingTier.RenderStruct.cert := None |} ] in
  let this :=
    {| TestingTier.outputs := []; TestingTier.granted := [];
       TestingTier.allowed := []; TestingTier.creationPolicy := None;
       TestingTier.userData := [] |} in
  TestingTier.outputs
    (TestingTier.configureRenderQueueTest "/integ/lib" "/stage" "10.1.9.2"
       (λ a, "/tmp/" +:+ TestingTier.assetId a) (λ _, "PT5M") structs this)
  = [("renderQueueEndpointRQ1", "rq.example:8080")].
Proof.
  intros structs this.
  apply (proj1 (render_queue_suites_outputs "/integ/lib" "/stage" "10.1.9.2"
                  (λ a, "/tmp/" +:+ TestingTier.assetId a) (λ _, "PT5M") structs this
                  ltac:(apply (bool_decide_unpack _); vm_compute; reflexivity))).
Defined.

Lemma stack_discovery_finds_bastion_only_witness :
  let structs :=
    [ {| TestingTier.WorkerStruct.ref := 0;
         TestingTier.WorkerStruct.renderQueue :=
           {| TestingTier.endpoint :=
                {| TestingTier.hostname := "rq.example";
                   TestingTier.portAsString := "4433" |};
              TestingTier.stackName := "Farm" |};
         TestingTier.WorkerStruct.cert :=
           Some {| TestingTier.cert := {| TestingTier.secretArn := "arn:secret:1" |} |};
         TestingTier.WorkerStruct.workerFleet := [] |} ] in
  let this :=
    {| TestingTier.outputs := []; TestingTier.granted := [];
       TestingTier.allowed := []; TestingTier.creationPolicy := None;
       TestingTier.userData := [] |} in
  let reported :=
    reverse (Deployed.Outputs
               (TestingTier.configureWorkerFleetTest "/integ/lib" "/stage" "10.1.9.2"
                  (λ a, "/tmp/" +:+ TestingTier.assetId a) (λ _, "PT5M") structs
                  (Deployed.bastionOutput "i-1" this))) in
  Discovery.forEach reported Discovery.initial
  = {| Discovery.bastionId := Some "i-1";
       Discovery.renderQueueEndpoints := [];
       Discovery.secretARNs := [] |}.
Proof.
  intros structs this reported.
  apply (stack_discovery_finds_bastion_only "/integ/lib" "/stage" "10.1.9.2"
           (λ a, "/tmp/" +:+ TestingTier.assetId a) (λ _, "PT5M") "i-1" this structs []
           reported).
  - reflexivity.
  - left. apply reverse_Permutation.
Defined.

Lemma repository_suites_effects_witness :
  let s :=
    {| RepositoryTier.ref := 0;
       RepositoryTier.repo :=
         {| RepositoryTier.RepositoryLogGroup :=
              Some {| RepositoryTier.logGroupName := "/rfdk/repo" |};
            RepositoryTier.fileSystem := {| RepositoryTier.mountableName := "repo-fs" |} |};
       RepositoryTier.database :=
         {| RepositoryTier.db := {| RepositoryTier.connectableName := "docdb" |};
            RepositoryTier.secret := Some {| TestingTier.secretArn := "arn:db" |};
            RepositoryTier.cert := None |};
       RepositoryTier.efs := {| RepositoryTier.fileSystemName := "efs" |} |} in
  let this :=
    {| RepositoryTier.stack :=
         {| TestingTier.outputs := [("bastionId", "i-1")]; TestingTier.granted := [];
            TestingTier.allowed := []; TestingTier.creationPolicy := None;
            TestingTier.userData := [] |};
       RepositoryTier.calls := [] |} in
  ∃ this',
    RepositoryTier.configureRepositoryTest "/integ/lib" "/stage" "10.1.9.2"
      (λ a, "/tmp/" +:+ TestingTier.assetId a) (λ _, "PT5M") (Some "true") [s] this
    = inr this'
    ∧ TestingTier.outputs (RepositoryTier.stack this')
      = [("bastionId", "i-1"); ("logGroupNameDL1", "/rfdk/repo"); ("secretARNDL1", "arn:db")]
    ∧ RepositoryTier.calls this'
      = [RepositoryTier.MountToLinuxInstance
           {| RepositoryTier.mountableName := "repo-fs" |} "/mnt/efs/fsdl1";
         RepositoryTier.AllowToDatabase
           {| RepositoryTier.connectableName := "docdb" |} (TestingTier.Tcp 27017);
         RepositoryTier.AllowToDefaultPort {| RepositoryTier.fileSystemName := "efs" |};
         RepositoryTier.InstallMongoDb RepositoryTier.USER_ACCEPTS_SSPL].
Proof.
  intros s this. eexists. split; [reflexivity|].
  refine (let H := repository_suites_effects "/integ/lib" "/stage" "10.1.9.2"
           (λ a, "/tmp/" +:+ TestingTier.assetId a) (λ _, "PT5M") (Some "true") [s] this _
             ltac:(apply (bool_decide_unpack _); vm_compute; reflexivity) eq_refl
          in conj (proj1 H) (proj1 (proj2 H))).
Defined.

Lemma repository_test_completes_iff_witness :
  let s (logGroup : option RepositoryTier.ILogGroup) :=
    {| RepositoryTier.ref := 0;
       RepositoryTier.repo :=
         {| RepositoryTier.RepositoryLogGroup := logGroup;
            RepositoryTier.fileSystem := {| RepositoryTier.mountableName := "repo-fs" |} |};
       RepositoryTier.database :=
         {| RepositoryTier.db := {| RepositoryTier.connectableName := "docdb" |};
            RepositoryTier.secret := Some {| TestingTier.secretArn := "arn:db" |};
            RepositoryTier.cert := None |};
       RepositoryTier.efs := {| RepositoryTier.fileSystemName := "efs" |} |} in
  let logGroup := Some {| RepositoryTier.logGroupName := "/rfdk/repo" |} in
  let this :=
    {| RepositoryTier.stack :=
         {| TestingTier.outputs := [("bastionId", "i-1")]; TestingTier.granted := [];
            TestingTier.allowed := []; TestingTier.creationPolicy := None;
            TestingTier.userData := [] |};
       RepositoryTier.calls := [] |} in
  let configureRepositoryTest :=
    RepositoryTier.configureRepositoryTest "/integ/lib" "/stage" "10.1.9.2"
      (λ a, "/tmp/" +:+ TestingTier.assetId a) (λ _, "PT5M") in
  (∃ this', configureRepositoryTest None [s logGroup] this = inr this')
  ∧ (¬ ∃ this', configureRepositoryTest (Some "TRUE") [s logGroup] this = inr this')
  ∧ (¬ ∃ this', configureRepositoryTest None [s None] this = inr this').
Proof.
  intros s logGroup this configureRepositoryTest.
  assert (∀ logGroup, NoDup (RepositoryTier.ref <$> [s logGroup])) as Hnodup.
  { intros ?. apply (bool_decide_unpack _). vm_compute. reflexivity. }
  split_and!.
  - apply (repository_test_completes_iff "/integ/lib" "/stage" "10.1.9.2"
             (λ a, "/tmp/" +:+ TestingTier.assetId a) (λ _, "PT5M") None [s logGroup] this
             (Hnodup logGroup)).
    split; [|by left].
    apply Forall_singleton. split; by eexists.
  - intros Hdone.
    apply (repository_test_completes_iff "/integ/lib" "/stage" "10.1.9.2"
             (λ a, "/tmp/" +:+ TestingTier.assetId a) (λ _, "PT5M") (Some "TRUE")
             [s logGroup] this (Hnodup logGroup)) in Hdone as [_ [Hset|Hset]];
      discriminate Hset.
  - intros Hdone.
    apply (repository_test_completes_iff "/integ/lib" "/stage" "10.1.9.2"
             (λ a, "/tmp/" +:+ TestingTier.assetId a) (λ _, "PT5M") None [s None] this
             (Hnodup None)) in Hdone as [Hall _].
    apply Forall_singleton in Hall as [[? Hlog] _]. discriminate Hlog.
Defined.

(** ** Connections and permissions of the worker-fleet test *)

Section WorkerFleetAccess.
Import TestingTier.

Variables dirname stagePath deadlineVersion : string.
Variable localPath : Asset → string.
Variable toISOString : Duration → string.

Local Abbreviation configureBastionUserData :=
  (TestingTier.configureBastionUserData dirname stagePath deadlineVersion localPath
     toISOString).
Local Abbreviation configureWorkerFleetTest :=
  (TestingTier.configureWorkerFleetTest dirname stagePath deadlineVersion localPath
     toISOString).

Lemma configureWorkerFleet_allowed workerFleet this :
  allowed (configureWorkerFleet workerFleet this)
  = allowed this ++ ((λ worker, (ToWorkerFleet worker, Tcp 22)) <$> workerFleet).
Proof.
  unfold configureWorkerFleet. revert this.
  induction workerFleet as [|w fleet IH]; intros this; simpl.
  - by rewrite app_nil_r.
  - rewrite IH. simpl. by rewrite <-(assoc_L (++)).
Qed.

Lemma configureWorkerFleet_granted workerFleet this :
  granted (configureWorkerFleet workerFleet this) = granted this.
Proof.
  unfold configureWorkerFleet. revert this.
  induction workerFleet as [|w fleet IH]; intros this; simpl; [done|].
  by rewrite IH.
Qed.

Lemma configureBastionUserData_allowed props this :
  allowed (configureBastionUserData props this) = allowed this.
Proof. by destruct props as [[] [] path]. Qed.

(** X17: on an array of distinct structs, [configureWorkerFleetTest] opens,
    for every struct and in this order, the render queue's default port and port 22, then port 22 of each
    worker fleet, and nothing else; and it grants the bastion read access to
    the certificate secrets of the structs that have one, then to the four
    boot assets, and to nothing else. *)
Theorem worker_fleet_test_access (structs : list WorkerStruct.t) (this : Stack) :
  NoDup (WorkerStruct.ref <$> structs) →
  allowed (configureWorkerFleetTest structs this)
  = allowed this
    ++ mjoin ((λ s, [(ToRenderQueue (WorkerStruct.renderQueue s), DefaultPort);
                     (ToRenderQueue (WorkerStruct.renderQueue s), Tcp 22)]
                    ++ ((λ worker, (ToWorkerFleet worker, Tcp 22))
                          <$> WorkerStruct.workerFleet s)) <$> structs)
  ∧ granted (configureWorkerFleetTest structs this)
    = granted this
      ++ mjoin ((λ s, match WorkerStruct.cert s with
                      | Some c => [ReadSecret (cert c)]
                      | None => []
                      end) <$> structs)
      ++ [ReadAsset (instanceSetupScripts dirname);
          ReadAsset (clientInstaller stagePath deadlineVersion);
          ReadAsset (instanceUtilScripts dirname);
          ReadAsset (testingScripts dirname workerFleetUserData)].
Proof.
  intros _. unfold TestingTier.configureWorkerFleetTest. split.
  - rewrite configureBastionUserData_allowed. revert this.
    generalize structs at 1. intros all.
    induction structs as [|s l IH]; intros this.
    { simpl. by rewrite app_nil_r. }
    simpl foldl. rewrite IH. unfold configureWorkerFleetTest_each.
    rewrite configureWorkerFleet_allowed.
    rewrite fmap_cons. change (mjoin (?a :: ?b)) with (a ++ mjoin b).
    destruct (WorkerStruct.cert s); simpl; by rewrite <-!(assoc_L (++)).
  - assert (∀ st, granted (configureBastionUserData workerFleetUserData st)
                  = granted st
                    ++ [ReadAsset (instanceSetupScripts dirname);
                        ReadAsset (clientInstaller stagePath deadlineVersion);
                        ReadAsset (instanceUtilScripts dirname);
                        ReadAsset (testingScripts dirname workerFleetUserData)]) as ->.
    { intros st. unfold TestingTier.configureBastionUserData. simpl.
      by rewrite <-!(assoc_L (++)). }
    rewrite (assoc_L (++)). f_equal. revert this.
    generalize structs at 1. intros all.
    induction structs as [|s l IH]; intros this.
    { simpl. by rewrite app_nil_r. }
    simpl foldl. rewrite IH. unfold configureWorkerFleetTest_each.
    rewrite configureWorkerFleet_granted.
    rewrite fmap_cons. change (mjoin (?a :: ?b)) with (a ++ mjoin b).
    destruct (WorkerStruct.cert s); simpl; by rewrite <-?(assoc_L (++)).
Qed.

End WorkerFleetAccess.

Lemma worker_fleet_test_access_witness :
  let renderQueue :=
    {| TestingTier.endpoint :=
         {| TestingTier.hostname := "rq.example"; TestingTier.portAsString := "4433" |};
       TestingTier.stackName := "Farm" |} in
  let secret := {| TestingTier.secretArn := "arn:secret:1" |} in
  let linux := {| TestingTier.fleetName := "linux" |} in
  let windows := {| TestingTier.fleetName := "windows" |} in
  let structs :=
    [ {| TestingTier.WorkerStruct.ref := 0;
         TestingTier.WorkerStruct.renderQueue := renderQueue;
         TestingTier.WorkerStruct.cert := Some {| TestingTier.cert := secret |};
         TestingTier.WorkerStruct.workerFleet := [linux; windows] |};
      {| TestingTier.WorkerStruct.ref := 1;
         TestingTier.WorkerStruct.renderQueue := renderQueue;
         TestingTier.WorkerStruct.cert := None;
         TestingTier.WorkerStruct.workerFleet := [] |} ] in
  let this :=
    {| TestingTier.outputs := [("bastionId", "i-1")]; TestingTier.granted := [];
       TestingTier.allowed := []; TestingTier.creationPolicy := None;
       TestingTier.userData := [] |} in
  let configured :=
    TestingTier.configureWorkerFleetTest "/integ/lib" "/stage" "10.1.9.2"
      (λ a, "/tmp/" +:+ TestingTier.assetId a) (λ _, "PT5M") structs this in
  TestingTier.allowed configured
  = [(TestingTier.ToRenderQueue renderQueue, TestingTier.DefaultPort);
     (TestingTier.ToRenderQueue renderQueue, TestingTier.Tcp 22);
     (TestingTier.ToWorkerFleet linux, TestingTier.Tcp 22);
     (TestingTier.ToWorkerFleet windows, TestingTier.Tcp 22);
     (TestingTier.ToRenderQueue renderQueue, TestingTier.DefaultPort);
     (TestingTier.ToRenderQueue renderQueue, TestingTier.Tcp 22)]
  ∧ length (TestingTier.granted configured) = 5
  ∧ head (TestingTier.granted configured) = Some (TestingTier.ReadSecret secret).
Proof.
  intros renderQueue secret linux windows structs this configured.
  destruct (worker_fleet_test_access "/integ/lib" "/stage" "10.1.9.2"
              (λ a, "/tmp/" +:+ TestingTier.assetId a) (λ _, "PT5M") structs this
              ltac:(apply (bool_decide_unpack _); vm_compute; reflexivity))
    as [Hallowed Hgranted].
  unfold configured. rewrite Hallowed, Hgranted. by split_and!.
Defined.

(** ** What the assertions accept *)

Section Assertions.
Import Suite.

(** X18: the first two assertions only look for a piece of text anywhere in
    the output of their command: [WFS-<id>-1] passes exactly when the output
    contains [ip-], and [WFS-<id>-2] exactly when it contains the three lines
    [testpool], [testgroup], [testregion] one after the other, whatever comes
    before or after. *)
Theorem assertions_accept_substrings (id : nat) (output : string) :
  (testExpect (test_report_workers id) output = true
   ↔ ∃ pre post, output = pre +:+ "ip-" +:+ post)
  ∧ (testExpect (test_report_worker_sets id) output = true
     ↔ ∃ pre post,
         output = pre +:+ ("testpool" +:+ Js.newline +:+ "testgroup" +:+ Js.newline
                             +:+ "testregion") +:+ post).
Proof. split; apply test_literal_occurs. Qed.

End Assertions.
